(** * WeatherFlow: the weather data acquisition and resilience layer

    A shallow embedding of [src/lib/storage.ts], [src/lib/api.ts] and of the
    query wiring of the [Home] page, followed by the properties the
    specification states about them.

    JavaScript values are modelled as follows.
    - numbers that are only carried around (temperatures, coordinates) are
      rationals [Q]; integer quantities (epoch milliseconds, HTTP statuses,
      weather codes) are [Z] or [N]; a [NaN] is [None];
    - the coordinates of the favorites, which the code subtracts and compares
      with a threshold, are IEEE 754 binary64 numbers [float], with the
      kernel's operations: there rounding decides the answer;
    - strings are [string]; the user's search text is a list of UTF-16 code
      units, because [String.prototype.trim] is defined on code units;
    - a function that may throw runs in the monad [JS], which threads the
      browser state (window, localStorage, clock, network, console) and
      returns either a value or the thrown error. *)

From Stdlib Require Import Floats.
Set Warnings "-inexact-float".
From Stdlib Require Import ZArith NArith QArith Qabs String Ascii List Bool Lia Lqa.
From Stdlib Require Import DecimalString DecimalN.
From stdpp Require Import base option list gmap strings.

(** ** JavaScript runtime *)

Module js.

(** A thrown value. [status] is the numeric [status] property when the
    object has one ([None] when ['status' in error] is false or the property
    is not a number). [new Error(msg)] has none. *)
Record JsError := MkError { message : string; status : option Z }.

Definition Error (msg : string) : JsError := MkError msg None.

Inductive Exc (A : Type) : Type :=
| Ok (a : A)
| Throw (e : JsError).
Arguments Ok {A} a.
Arguments Throw {A} e.

(** [localStorage]: the stored items, and which of its methods throw in this
    browser (a privacy mode that denies access, a full quota). *)
Record Medium := MkMedium {
  getItem_throws : bool;
  setItem_throws : bool;
  removeItem_throws : bool;
  items : gmap string string
}.

(** What [fetch(url)] does: the promise rejects (network failure, abort), or
    a response arrives. Its body is [None] when [response.json()] rejects,
    and otherwise the JSON object of the reply, read at the type the code
    casts it to (a block the reply lacks is [None] in that type). *)
Inductive FetchOutcome (B : Type) : Type :=
| Rejected (e : JsError)
| Responded (code : N) (statusText : string) (body : option B).
Arguments Rejected {B} e.
Arguments Responded {B} code statusText body.

Record Response (B : Type) := MkResponse {
  resp_status : N;
  resp_statusText : string;
  resp_body : option B
}.
Arguments MkResponse {B}.
Arguments resp_status {B}.
Arguments resp_statusText {B}.
Arguments resp_body {B}.

(** [response.ok]: the status is in the range 200-299. *)
Definition ok {B} (r : Response B) : bool :=
  ((200 <=? resp_status r) && (resp_status r <=? 299))%N.

Section World.
(** The upstream services are a parameter of the world: one oracle per
    payload type, from the request URL to what the fetch does. *)
Context {Net : Type}.

Record World := MkWorld {
  window : bool;              (* typeof window !== 'undefined' *)
  localStorage : Medium;
  clock : Z;                  (* new Date().getTime(), milliseconds *)
  net : Net;
  requests : list string;     (* URLs passed to fetch, oldest first *)
  console : list string       (* console.log lines, oldest first *)
}.

Definition JS (A : Type) : Type := World -> Exc A * World.

Definition ret {A} (a : A) : JS A := fun w => (Ok a, w).

Definition throw {A} (e : JsError) : JS A := fun w => (Throw e, w).

Definition bind {A B} (m : JS A) (k : A -> JS B) : JS B :=
  fun w => match m w with
           | (Ok a, w') => k a w'
           | (Throw e, w') => (Throw e, w')
           end.

(** A host function that returns or throws without touching the world. *)
Definition of_exc {A} (r : Exc A) : JS A := fun w => (r, w).

(** [try { m } catch (e) { h e }]: effects of [m] before the throw stay. *)
Definition try_catch {A} (m : JS A) (h : JsError -> JS A) : JS A :=
  fun w => match m w with
           | (Ok a, w') => (Ok a, w')
           | (Throw e, w') => h e w'
           end.

Definition typeof_window_undefined : JS bool :=
  fun w => (Ok (negb (window w)), w).

Definition Date_now : JS Z := fun w => (Ok (clock w), w).

(** The world once [line] has been logged. *)
Definition after_log (w : World) (line : string) : World :=
  MkWorld (window w) (localStorage w) (clock w) (net w) (requests w) (console w ++ [line]).

Definition console_log (line : string) : JS unit :=
  fun w => (Ok tt, after_log w line).

Definition with_localStorage (w : World) (m : Medium) : World :=
  MkWorld (window w) m (clock w) (net w) (requests w) (console w).

(** Touching [localStorage] where there is no window is a ReferenceError. *)
Definition localStorage_getItem (key : string) : JS (option string) :=
  fun w =>
    if negb (window w) then (Throw (Error "localStorage is not defined"), w)
    else if getItem_throws (localStorage w)
         then (Throw (Error "SecurityError"), w)
         else (Ok (items (localStorage w) !! key), w).

Definition localStorage_setItem (key value : string) : JS unit :=
  fun w =>
    if negb (window w) then (Throw (Error "localStorage is not defined"), w)
    else if setItem_throws (localStorage w)
         then (Throw (Error "QuotaExceededError"), w)
         else let m := localStorage w in
              (Ok tt, with_localStorage w
                        (MkMedium (getItem_throws m) (setItem_throws m)
                                  (removeItem_throws m)
                                  (<[key := value]> (items m)))).

Definition localStorage_removeItem (key : string) : JS unit :=
  fun w =>
    if negb (window w) then (Throw (Error "localStorage is not defined"), w)
    else if removeItem_throws (localStorage w)
         then (Throw (Error "SecurityError"), w)
         else let m := localStorage w in
              (Ok tt, with_localStorage w
                        (MkMedium (getItem_throws m) (setItem_throws m)
                                  (removeItem_throws m)
                                  (delete key (items m)))).

(** The world after [ms] milliseconds have passed. *)
Definition after_sleep (w : World) (ms : Z) : World :=
  MkWorld (window w) (localStorage w) (clock w + ms)%Z (net w) (requests w) (console w).

Definition sleep (ms : Z) : JS unit := fun w => (Ok tt, after_sleep w ms).

(** The world once [url] has been requested. *)
Definition after_fetch (w : World) (url : string) : World :=
  MkWorld (window w) (localStorage w) (clock w) (net w) (requests w ++ [url]) (console w).

(** [await fetch(url)] against the service [api] of the network. *)
Definition fetch {B} (api : Net -> string -> FetchOutcome B) (url : string)
  : JS (Response B) :=
  fun w =>
    let w' := after_fetch w url in
    match api (net w) url with
    | Rejected e => (Throw e, w')
    | Responded c t b => (Ok (MkResponse c t b), w')
    end.

(** [await response.json()] *)
Definition json {B} (r : Response B) : JS B :=
  match resp_body r with
  | Some b => ret b
  | None => throw (Error "SyntaxError: Unexpected token in JSON")
  end.
End World.
Arguments World : clear implicits.
Arguments JS : clear implicits.

(** A string is truthy unless it is empty. *)
Definition truthy (s : string) : bool :=
  match s with EmptyString => false | _ => true end.

(** [JSON.stringify] and [JSON.parse] at a type [T]. [JSON_parse] throws on
    text that is not JSON; a parsed [null] (or other falsy value) is [None]. *)
Class Json (T : Type) := {
  JSON_stringify : T -> string;
  JSON_parse : string -> Exc (option T)
}.

(** The rest of the host environment the code calls. *)
Class Runtime := {
  Date_getTime : string -> option Z;   (* new Date(s).getTime(); NaN is None *)
  Date_toISOString : Z -> string;      (* new Date(ms).toISOString() *)
  Number_toString : Q -> string;       (* `${x}` *)
  Number_toFixed2 : Q -> string;       (* x.toFixed(2) *)
  encodeURIComponent : list N -> Exc string  (* URIError on a lone surrogate *)
}.

End js.
Import js.

Notation "'let!' x := m 'in' k" := (bind m (fun x => k))
  (at level 10, x name, m at level 100, k at level 200, only parsing).
Notation "'do!' m 'in' k" := (bind m (fun _ => k))
  (at level 10, m at level 100, k at level 200, only parsing).

(** ** Data model ([src/lib/types], as [api.ts] builds and reads it) *)

Module types.

Inductive Units := metric | imperial.

Definition Units_to_string (u : Units) : string :=
  match u with metric => "metric" | imperial => "imperial" end.

Module GeoPoint.
Record t := mk { lat : Q; lon : Q; name : option string; country : option string }.
End GeoPoint.

Module OpenMeteoGeocodingResult.
Record t := mk {
  latitude : Q; longitude : Q; name : option string; country : option string }.
End OpenMeteoGeocodingResult.

(** [data.results] of a geocoding reply: missing (or otherwise falsy), present
  but not an array, or an array of results. *)
Inductive ResultsField :=
| Absent
| NotArray
| Results (rs : list OpenMeteoGeocodingResult.t).

(** One element of a [weather] array. [id] is [None] where the code reads
  past the end of the provider's array. *)
Module Condition.
Record t := mk { id : option Z; main : string; description : string; icon : string }.
End Condition.

Module Main.
Record t := mk { temp : Q; feels_like : Q; humidity : Q; pressure : Q }.
End Main.

Module Wind.
Record t := mk { speed : Q; deg : Q }.
End Wind.

Module CurrentWeather.
Record t := mk {
  coord : Q * Q;             (* lat, lon *)
  dt : option Z;             (* epoch seconds; NaN is None *)
  timezone : Z;
  name : string;
  weather : list Condition.t;
  main : Main.t;
  wind : Wind.t
}.
End CurrentWeather.

Module ForecastDay.
Record t := mk {
  dt : option Z;
  temp_min : option Q;
  temp_max : option Q;
  weather : list Condition.t
}.
End ForecastDay.

Module HourlyData.
Record t := mk { time : string; temperature : Q }.
End HourlyData.

(** [_cached] is [false] and [_cachedAt] is [None] where the object has no
  such property. *)
Module Forecast.
Record t := mk {
  timezone_offset : Z;
  daily : list ForecastDay.t;
  hourly : list HourlyData.t;
  _cached : bool;
  _cachedAt : option string
}.
End Forecast.

Module OpenMeteoCurrent.
Record t := mk {
  time : string;
  temperature_2m : Q;
  relative_humidity_2m : Q;
  wind_speed_10m : Q;
  wind_direction_10m : Q;
  weathercode : Z
}.
End OpenMeteoCurrent.

Module OpenMeteoDaily.
Record t := mk {
  time : list string;
  weathercode : list Z;
  temperature_2m_max : list Q;
  temperature_2m_min : list Q
}.
End OpenMeteoDaily.

(** [current] and [daily] are [None] when the reply lacks the block. *)
Module OpenMeteoForecastResponse.
Record t := mk {
  latitude : Q;
  longitude : Q;
  utc_offset_seconds : Z;
  current : option OpenMeteoCurrent.t;
  daily : option OpenMeteoDaily.t
}.
End OpenMeteoForecastResponse.

(** The upstream services, by host. *)
Record Net := MkNet {
  geocoding_api : string -> FetchOutcome ResultsField;
  open_meteo_api : string -> FetchOutcome OpenMeteoForecastResponse.t;
  openweather_weather_api : string -> FetchOutcome CurrentWeather.t;
  openweather_onecall_api : string -> FetchOutcome Forecast.t
}.

End types.
Import types.

(** ** [src/lib/storage.ts] *)

Module storage.

Record ForecastSnapshot := MkSnapshot {
  data : Forecast.t;
  timestamp : string;
  city : string;
  units : string
}.

Definition SNAPSHOT_KEY : string := "weatherflow:forecast-snapshot".

Section Storage.
Context {RT : Runtime} {Net : Type}.
Local Abbreviation JS := (JS Net).

Definition getJSON {T} {JT : Json T} (key : string) : JS (option T) :=
  try_catch
    (let! undef := typeof_window_undefined in
     if undef then ret None
     else
       let! item := localStorage_getItem key in
       match item with
       | Some text =>
           if truthy text
           then of_exc (JSON_parse text)
           else ret None
       | None => ret None
       end)
    (fun _ => ret None).

Definition setJSON {T} {JT : Json T} (key : string) (value : T) : JS unit :=
  try_catch
    (let! undef := typeof_window_undefined in
     if undef then ret tt
     else localStorage_setItem key (JSON_stringify value))
    (fun _ => ret tt).

Definition removeKey (key : string) : JS unit :=
  try_catch
    (let! undef := typeof_window_undefined in
     if undef then ret tt
     else localStorage_removeItem key)
    (fun _ => ret tt).

Context {JC : Json ForecastSnapshot}.

Definition saveSnapshot (data : Forecast.t) (city units : string) : JS unit :=
  try_catch
    (let! undef := typeof_window_undefined in
     if undef then ret tt
     else
       let! now := Date_now in
       let snapshot := MkSnapshot data (Date_toISOString now) city units in
       setJSON SNAPSHOT_KEY snapshot)
    (fun _ => ret tt).

Definition getSnapshot : JS (option ForecastSnapshot) :=
  try_catch
    (let! undef := typeof_window_undefined in
     if undef then ret None
     else getJSON SNAPSHOT_KEY)
    (fun _ => ret None).

Definition clearSnapshot : JS unit :=
  try_catch
    (let! undef := typeof_window_undefined in
     if undef then ret tt
     else removeKey SNAPSHOT_KEY)
    (fun _ => ret tt).

Definition twentyFourHours : Z := 24 * 60 * 60 * 1000.

(** [now - snapshotTime < twentyFourHours]; a comparison with NaN is false. *)
Definition isSnapshotRecent (snapshot : ForecastSnapshot) : JS bool :=
  let snapshotTime := Date_getTime (timestamp snapshot) in
  let! now := Date_now in
  ret (match snapshotTime with
       | Some t => (now - t <? twentyFourHours)%Z
       | None => false
       end).

(** The medium is out of reach for an operation when there is no window or
    the [localStorage] method the operation needs throws. *)
Definition save_unavailable (w : World Net) : Prop :=
  window w = false \/ setItem_throws (localStorage w) = true.
Definition load_unavailable (w : World Net) : Prop :=
  window w = false \/ getItem_throws (localStorage w) = true.
Definition clear_unavailable (w : World Net) : Prop :=
  window w = false \/ removeItem_throws (localStorage w) = true.
End Storage.

End storage.
Import storage.

(** ** [src/lib/api.ts] *)

Module api.

(** The module [./weatherIconOpenMeteo] is imported by [api.ts]; its
    functions are parameters here. They receive [None] where the code passes
    [undefined] or [NaN]. *)
Class WeatherIconOpenMeteo := {
  getOpenMeteoWeatherIcon : option Z -> bool -> string;
  getOpenMeteoWeatherDescription : option Z -> string;
  isOpenMeteoDayTime : option Z -> bool
}.

(** [buildDeterministicHourly] of [getForecast] computes 24 synthetic points
    from the reply and (when the reply has no current time) [Date.now()],
    with [Math.sin] and [Math.cos] in floating point; it is a parameter. *)
Class HourlyModel := {
  buildDeterministicHourly : OpenMeteoForecastResponse.t -> Z -> list HourlyData.t
}.

(** [process.env.NEXT_PUBLIC_WEATHER_PROVIDER ?? 'open-meteo'] and
    [process.env.NEXT_PUBLIC_WEATHER_API_KEY], read once at load time. *)
Record Config := MkConfig { PROVIDER : string; API_KEY : option string }.

Definition config_of_env (provider key : option string) : Config :=
  MkConfig (default "open-meteo" provider) key.

Definition GEOCODING_BASE_URL : string := "https://geocoding-api.open-meteo.com/v1".
Definition FORECAST_BASE_URL : string := "https://api.open-meteo.com/v1".

(** [`${n}`] for a non-negative integer. *)
Definition show_N (n : N) : string := NilEmpty.string_of_uint (N.to_uint n).

(** The code units [String.prototype.trim] strips: WhiteSpace and
    LineTerminator of ECMA-262. *)
Definition is_whitespace (c : N) : bool :=
  ((9 <=? c) && (c <=? 13) || (c =? 32) || (c =? 160) || (c =? 5760)
   || (8192 <=? c) && (c <=? 8202) || (c =? 8232) || (c =? 8233)
   || (c =? 8239) || (c =? 8287) || (c =? 12288) || (c =? 65279))%N.

Fixpoint trimStart (s : list N) : list N :=
  match s with
  | c :: s' => if is_whitespace c then trimStart s' else s
  | [] => []
  end.

Definition trim (s : list N) : list N :=
  reverse (trimStart (reverse (trimStart s))).

(** A string is falsy exactly when it is empty. *)
Definition falsy (s : list N) : bool :=
  match s with [] => true | _ => false end.

(** [weatherMap] of [getWeatherMain], entry by entry. *)
Definition weatherMap_entries : list (Z * string) :=
  [ (0, "Clear");
    (1, "Clear"); (2, "Clear"); (3, "Clear");
    (45, "Fog"); (48, "Fog");
    (51, "Drizzle"); (53, "Drizzle"); (55, "Drizzle");
    (56, "Drizzle"); (57, "Drizzle");
    (61, "Rain"); (63, "Rain"); (65, "Rain");
    (66, "Rain"); (67, "Rain");
    (71, "Snow"); (73, "Snow"); (75, "Snow");
    (77, "Snow");
    (80, "Rain"); (81, "Rain"); (82, "Rain");
    (85, "Snow"); (86, "Snow");
    (95, "Thunderstorm");
    (96, "Thunderstorm"); (99, "Thunderstorm") ]%Z.

(** An object literal: a later entry for the same key replaces an earlier. *)
Definition object_literal {V} (entries : list (Z * V)) : gmap Z V :=
  foldl (fun m kv => <[kv.1 := kv.2]> m) ∅ entries.

Definition weatherMap : gmap Z string := object_literal weatherMap_entries.

(** [weatherMap[code] || 'Unknown'] *)
Definition getWeatherMain (code : Z) : string :=
  match weatherMap !! code with
  | Some category => if truthy category then category else "Unknown"
  | None => "Unknown"
  end.

(** [getWeatherMain(codes[index])]: past the end the index read is
    [undefined], and [weatherMap[undefined]] is [undefined]. *)
Definition getWeatherMain_at (code : option Z) : string :=
  match code with
  | Some c => getWeatherMain c
  | None => "Unknown"
  end.

Section Api.
Context {RT : Runtime} {IC : WeatherIconOpenMeteo} {HM : HourlyModel}
  {JC : Json ForecastSnapshot}.
Local Abbreviation JS := (JS Net).

Definition search_url (encoded : string) : string :=
  GEOCODING_BASE_URL +:+ "/search?name=" +:+ encoded +:+ "&count=5&language=en".

(** The optional [signal] only makes the fetch reject when the caller
    aborts; that is one of the rejections of [FetchOutcome]. *)
Definition searchCity (query : list N) : JS (list GeoPoint.t) :=
  if falsy (trim query) then ret []
  else
    let! encoded := of_exc (encodeURIComponent query) in
    let url := search_url encoded in
    let! response := fetch geocoding_api url in
    if negb (ok response)
    then throw (Error ("Failed to search cities: " +:+ show_N (resp_status response)
                       +:+ " " +:+ resp_statusText response))
    else
      let! data := json response in
      match data with
      | Absent | NotArray => ret []
      | Results results =>
          ret (map (fun result =>
                      GeoPoint.mk (OpenMeteoGeocodingResult.latitude result)
                                  (OpenMeteoGeocodingResult.longitude result)
                                  (OpenMeteoGeocodingResult.name result)
                                  (OpenMeteoGeocodingResult.country result))
                   results)
      end.

Definition temperature_unit (units : Units) : string :=
  match units with metric => "celsius" | imperial => "fahrenheit" end.

Definition wind_speed_unit (units : Units) : string :=
  match units with metric => "kmh" | imperial => "mph" end.

(** [Math.floor(new Date(time).getTime() / 1000)] *)
Definition epoch_seconds (time : string) : option Z :=
  (fun ms => ms / 1000)%Z <$> Date_getTime time.

(** The object literal [getCurrentOpenMeteo] returns, from the parsed reply
    [data] and its block [current = data.current]. *)
Definition normalized_current (data : OpenMeteoForecastResponse.t) (current : OpenMeteoCurrent.t)
  : CurrentWeather.t :=
  let timestamp := epoch_seconds (OpenMeteoCurrent.time current) in
  let code := OpenMeteoCurrent.weathercode current in
  CurrentWeather.mk
    (OpenMeteoForecastResponse.latitude data, OpenMeteoForecastResponse.longitude data)
    timestamp
    (OpenMeteoForecastResponse.utc_offset_seconds data)
    (Number_toFixed2 (OpenMeteoForecastResponse.latitude data) +:+ ", "
     +:+ Number_toFixed2 (OpenMeteoForecastResponse.longitude data))
    [Condition.mk (Some code) (getWeatherMain code)
                  (getOpenMeteoWeatherDescription (Some code))
                  (getOpenMeteoWeatherIcon (Some code) (isOpenMeteoDayTime timestamp))]
    (Main.mk (OpenMeteoCurrent.temperature_2m current)
             (OpenMeteoCurrent.temperature_2m current)
             (OpenMeteoCurrent.relative_humidity_2m current)
             1013)
    (Wind.mk (OpenMeteoCurrent.wind_speed_10m current)
             (OpenMeteoCurrent.wind_direction_10m current)).

Definition current_url (lat lon : Q) (units : Units) : string :=
  let temperatureUnit := temperature_unit units in
  let windSpeedUnit := wind_speed_unit units in
  FORECAST_BASE_URL +:+ "/forecast?latitude=" +:+ Number_toString lat
  +:+ "&longitude=" +:+ Number_toString lon
  +:+ "&current=temperature_2m,relative_humidity_2m,wind_speed_10m,wind_direction_10m,weathercode&timezone=auto&temperature_unit="
  +:+ temperatureUnit +:+ "&wind_speed_unit=" +:+ windSpeedUnit.

Definition getCurrentOpenMeteo (lat lon : Q) (units : Units) : JS CurrentWeather.t :=
  let url := current_url lat lon units in
  let! response := fetch open_meteo_api url in
  if negb (ok response)
  then throw (Error ("Failed to fetch current weather: " +:+ show_N (resp_status response)
                     +:+ " " +:+ resp_statusText response))
  else
    let! data := json response in
    match OpenMeteoForecastResponse.current data with
    | None => throw (Error "TypeError: Cannot read properties of undefined (reading 'time')")
    | Some current => ret (normalized_current data current)
    end.

Definition getCurrentOpenWeather (key : string) (lat lon : Q) (units : Units)
  : JS CurrentWeather.t :=
  let url := "https://api.openweathermap.org/data/2.5/weather?lat=" +:+ Number_toString lat
             +:+ "&lon=" +:+ Number_toString lon
             +:+ "&units=" +:+ Units_to_string units +:+ "&appid=" +:+ key in
  let! response := fetch openweather_weather_api url in
  if negb (ok response)
  then
    if (resp_status response =? 401)%N
    then throw (Error "Invalid API key. Please check your OpenWeatherMap API key.")
    else if (resp_status response =? 404)%N
    then throw (Error "Weather data not found for this location.")
    else if (resp_status response =? 429)%N
    then throw (Error "API rate limit exceeded. Please try again later.")
    else throw (Error ("Failed to fetch weather data: " +:+ show_N (resp_status response)
                       +:+ " " +:+ resp_statusText response))
  else json response.

(** [PROVIDER === 'openweather' && API_KEY]: the key when both hold. *)
Definition openweather_key (cfg : Config) : option string :=
  if String.eqb (PROVIDER cfg) "openweather"
  then match API_KEY cfg with
       | Some key => if truthy key then Some key else None
       | None => None
       end
  else None.

Definition unsupported (cfg : Config) : JsError :=
  Error ("Unsupported provider or missing key: " +:+ PROVIDER cfg).

Definition getCurrent (cfg : Config) (lat lon : Q) (units : Units) : JS CurrentWeather.t :=
  if String.eqb (PROVIDER cfg) "open-meteo" then getCurrentOpenMeteo lat lon units
  else match openweather_key cfg with
       | Some key => getCurrentOpenWeather key lat lon units
       | None => throw (unsupported cfg)
       end.

(** [daily.time.map((time, index) => ...)]: the other arrays are read at the
    same index, and a read past the end of an array is [undefined]. *)
Definition dailyForecasts (daily : OpenMeteoDaily.t) : list ForecastDay.t :=
  imap (fun index time =>
          let timestamp := epoch_seconds time in
          let isDay := isOpenMeteoDayTime timestamp in
          let code := OpenMeteoDaily.weathercode daily !! index in
          let weatherIcon := getOpenMeteoWeatherIcon code isDay in
          ForecastDay.mk timestamp
                         (OpenMeteoDaily.temperature_2m_min daily !! index)
                         (OpenMeteoDaily.temperature_2m_max daily !! index)
                         [Condition.mk code
                                       (getWeatherMain_at code)
                                       (getOpenMeteoWeatherDescription code)
                                       weatherIcon])
       (OpenMeteoDaily.time daily).

Definition forecast_url (lat lon : Q) (units : Units) : string :=
  "https://api.open-meteo.com/v1/forecast?latitude=" +:+ Number_toString lat
  +:+ "&longitude=" +:+ Number_toString lon
  +:+ "&current=temperature_2m,relative_humidity_2m,wind_speed_10m&daily=weathercode,temperature_2m_max,temperature_2m_min&hourly=temperature_2m&forecast_days=6&timezone=auto&temperature_unit="
  +:+ temperature_unit units +:+ "&wind_speed_unit=" +:+ wind_speed_unit units.

(** The [forecast] object [getForecast] builds from the parsed reply [data],
    its block [daily = data.daily] and the clock reading [now]. *)
Definition normalized_forecast (data : OpenMeteoForecastResponse.t) (daily : OpenMeteoDaily.t)
    (now : Z) : Forecast.t :=
  let dailyForecasts := dailyForecasts daily in
  let hourlyData := buildDeterministicHourly data now in
  Forecast.mk (OpenMeteoForecastResponse.utc_offset_seconds data)
              dailyForecasts hourlyData false None.

(** [`${lat.toFixed(2)}, ${lon.toFixed(2)}`] *)
Definition cityName (lat lon : Q) : string :=
  Number_toFixed2 lat +:+ ", " +:+ Number_toFixed2 lon.

(** The forecast fetch has failed with a given error when the promise
    rejects, the status is outside 200-299, the body is not JSON, or the
    reply has no [daily] block. *)
Inductive fetch_failed : FetchOutcome OpenMeteoForecastResponse.t -> JsError -> Prop :=
| failed_rejected e :
    fetch_failed (Rejected e) e
| failed_status code text body :
    ~ (200 <= code <= 299)%N ->
    fetch_failed (Responded code text body)
      (Error ("Failed to fetch forecast: " +:+ show_N code +:+ " " +:+ text))
| failed_body code text :
    (200 <= code <= 299)%N ->
    fetch_failed (Responded code text None)
      (Error "SyntaxError: Unexpected token in JSON")
| failed_shape code text data :
    (200 <= code <= 299)%N ->
    OpenMeteoForecastResponse.daily data = None ->
    fetch_failed (Responded code text (Some data))
      (Error "TypeError: Cannot read properties of undefined (reading 'time')").

(** The [try] block of the Open-Meteo branch of [getForecast]. *)
Definition getForecast_try (lat lon : Q) (units : Units) : JS Forecast.t :=
  let! response := fetch open_meteo_api (forecast_url lat lon units) in
  if negb (ok response)
  then throw (Error ("Failed to fetch forecast: " +:+ show_N (resp_status response)
                     +:+ " " +:+ resp_statusText response))
  else
    let! data := json response in
    match OpenMeteoForecastResponse.daily data with
    | None => throw (Error "TypeError: Cannot read properties of undefined (reading 'time')")
    | Some daily =>
        let! now := Date_now in
        let forecast := normalized_forecast data daily now in
        do! saveSnapshot forecast (cityName lat lon) (Units_to_string units) in
        ret forecast
    end.

(** [{...snapshot.data, _cached: true, _cachedAt: snapshot.timestamp}] *)
Definition served_from_cache (snapshot : ForecastSnapshot) : Forecast.t :=
  Forecast.mk (Forecast.timezone_offset (data snapshot))
              (Forecast.daily (data snapshot))
              (Forecast.hourly (data snapshot))
              true
              (Some (timestamp snapshot)).

(** The [catch] block of the Open-Meteo branch of [getForecast]. *)
Definition getForecast_catch (error : JsError) : JS Forecast.t :=
  let! snapshot := getSnapshot in
  match snapshot with
  | Some snapshot =>
      let! recent := isSnapshotRecent snapshot in
      if recent
      then do! console_log "Using cached forecast data due to network error" in
           ret (served_from_cache snapshot)
      else throw error
  | None => throw error
  end.

Definition onecall_url (key : string) (lat lon : Q) (units : Units) : string :=
  "https://api.openweathermap.org/data/3.0/onecall?lat=" +:+ Number_toString lat
  +:+ "&lon=" +:+ Number_toString lon
  +:+ "&units=" +:+ Units_to_string units +:+ "&appid=" +:+ key.

Definition getForecastOpenWeather (key : string) (lat lon : Q) (units : Units)
  : JS Forecast.t :=
  let url := onecall_url key lat lon units in
  let! response := fetch openweather_onecall_api url in
  if negb (ok response)
  then throw (Error ("Failed to fetch forecast: " +:+ show_N (resp_status response)
                     +:+ " " +:+ resp_statusText response))
  else json response.

Definition getForecast (cfg : Config) (lat lon : Q) (units : Units) : JS Forecast.t :=
  if String.eqb (PROVIDER cfg) "open-meteo"
  then try_catch (getForecast_try lat lon units) getForecast_catch
  else match openweather_key cfg with
       | Some key => getForecastOpenWeather key lat lon units
       | None => throw (unsupported cfg)
       end.
End Api.

End api.
Import api.

(** ** Reading an error message back

    The errors [api.ts] throws for a failed HTTP exchange carry the status in
    their text only; [status_of_message] reads it back. *)

Module observe.

Definition is_digit (a : ascii) : bool :=
  let n := N_of_ascii a in ((48 <=? n) && (n <=? 57))%N.

Fixpoint digits_prefix (s : string) : string :=
  match s with
  | String a s' => if is_digit a then String a (digits_prefix s') else EmptyString
  | EmptyString => EmptyString
  end.

Fixpoint drop_string (n : nat) (s : string) : string :=
  match n, s with
  | S n', String _ s' => drop_string n' s'
  | _, _ => s
  end.

(** The number written after [prefix] at the start of [msg]. *)
Definition status_of_message (prefix msg : string) : option N :=
  N.of_uint <$> NilEmpty.uint_of_string
                  (digits_prefix (drop_string (String.length prefix) msg)).

End observe.

(** ** [src/lib/queryKeys.ts] and [src/lib/unitConversion.ts]

    Neither file is among the sources; the [Home] page imports both. *)

Module queryKeys.

Inductive KeyPart :=
| KStr (s : string)
| KNum (x : Q).

(** Modelled from the spec: [queryKeys] is missing from the sources; section
    4.3 gives a key as the tuple (operation, lat, lon, units). *)
Definition current (lat lon : Q) (units : Units) : list KeyPart :=
  [KStr "current"; KNum lat; KNum lon; KStr (Units_to_string units)].

(** Modelled from the spec: [queryKeys] is missing from the sources; section
    4.3 gives a key as the tuple (operation, lat, lon, units). *)
Definition forecast (lat lon : Q) (units : Units) : list KeyPart :=
  [KStr "forecast"; KNum lat; KNum lon; KStr (Units_to_string units)].

Definition KeyPart_eqb (a b : KeyPart) : bool :=
  match a, b with
  | KStr s, KStr t => String.eqb s t
  | KNum x, KNum y => Qeq_bool x y
  | _, _ => false
  end.

(** How the query cache matches a filter key against a query's key: the
    filter is a prefix of the key (TanStack Query's partial matching). *)
Fixpoint matches (filter key : list KeyPart) : bool :=
  match filter, key with
  | [], _ => true
  | f :: filter', k :: key' => KeyPart_eqb f k && matches filter' key'
  | _ :: _, [] => false
  end.

End queryKeys.

Module unitConversion.

(** The page imports [convertCurrentWeather] and [convertForecast] from
    [./unitConversion], which is not among the sources: they are parameters
    here, called as the page calls them (record, from, to). *)
Class UnitConversion := {
  convertCurrentWeather : CurrentWeather.t -> Units -> Units -> CurrentWeather.t;
  convertForecast : Forecast.t -> Units -> Units -> Forecast.t
}.

End unitConversion.

(** ** The [Home] page: query wiring and handlers *)

Module page.

(** The component state the queries and handlers read. *)
Record State := MkState {
  selectedCity : option GeoPoint.t;
  units : Units;
  originalCurrentWeather : option CurrentWeather.t;
  originalForecast : option Forecast.t
}.

(** [retry] of both [useQuery] calls. *)
Definition retry (failureCount : nat) (error : JsError) : bool :=
  match status error with
  | Some s =>
      if ((400 <=? s) && (s <? 500))%Z then false
      else (failureCount <? 1)%nat
  | None => (failureCount <? 1)%nat
  end.

(** [retryDelay] of both [useQuery] calls, in milliseconds. *)
Definition retryDelay (attemptIndex : nat) : Z :=
  Z.min (1000 * 2 ^ Z.of_nat attemptIndex) 30000.

(** [queryKey] of the current-weather query. *)
Definition current_queryKey (st : State) : list queryKeys.KeyPart :=
  match selectedCity st with
  | Some city => queryKeys.current (GeoPoint.lat city) (GeoPoint.lon city) metric
  | None => [queryKeys.KStr "no-query"]
  end.

(** [queryKey] of the forecast query. *)
Definition forecast_queryKey (st : State) : list queryKeys.KeyPart :=
  match selectedCity st with
  | Some city => queryKeys.forecast (GeoPoint.lat city) (GeoPoint.lon city) metric
  | None => [queryKeys.KStr "no-forecast-query"]
  end.

Definition handleUnitsChange (st : State) (newUnits : Units) : State :=
  MkState (selectedCity st) newUnits (originalCurrentWeather st) (originalForecast st).

(** The filter keys [handleRetry] passes to [invalidateQueries], in order. *)
Definition handleRetry (st : State) : list (list queryKeys.KeyPart) :=
  match selectedCity st with
  | Some city =>
      [ queryKeys.current (GeoPoint.lat city) (GeoPoint.lon city) (units st);
        queryKeys.forecast (GeoPoint.lat city) (GeoPoint.lon city) (units st) ]
  | None => []
  end.

Section Page.
Context {RT : Runtime} {IC : WeatherIconOpenMeteo} {HM : HourlyModel}
  {JC : Json ForecastSnapshot} {UC : unitConversion.UnitConversion}.
Variable cfg : Config.
Local Abbreviation JS := (JS Net).

(** [queryFn] of the current-weather query. *)
Definition current_queryFn (st : State) : JS (option CurrentWeather.t) :=
  match selectedCity st with
  | None => ret None
  | Some city =>
      let! undef := typeof_window_undefined in
      if undef then ret None
      else let! w := getCurrent cfg (GeoPoint.lat city) (GeoPoint.lon city) metric in
           ret (Some w)
  end.

(** [queryFn] of the forecast query. *)
Definition forecast_queryFn (st : State) : JS (option Forecast.t) :=
  match selectedCity st with
  | None => ret None
  | Some city =>
      let! undef := typeof_window_undefined in
      if undef then ret None
      else let! f := getForecast cfg (GeoPoint.lat city) (GeoPoint.lon city) metric in
           ret (Some f)
  end.

(** The retry loop of the query library (TanStack Query, not part of the
    repository) around a [queryFn], as the library documents its [retry] and
    [retryDelay] options: after the failure number [failureCount] (from 0) it
    asks [retry]; on [true] it waits [retryDelay failureCount] and runs the
    [queryFn] again. [fuel] bounds the number of further runs. *)
Fixpoint run_query {A} (fuel : nat) (queryFn : JS A) (failureCount : nat) : JS A :=
  match fuel with
  | O => queryFn
  | S fuel' =>
      try_catch queryFn
        (fun error =>
           if retry failureCount error
           then do! sleep (retryDelay failureCount) in
                run_query fuel' queryFn (S failureCount)
           else throw error)
  end.

Definition convertedCurrentWeather (st : State) (currentWeather : option CurrentWeather.t)
  : option CurrentWeather.t :=
  match originalCurrentWeather st with
  | None => currentWeather
  | Some original =>
      match units st with
      | metric => Some original
      | imperial =>
          Some (unitConversion.convertCurrentWeather original metric (units st))
      end
  end.

Definition convertedForecastData (st : State) (forecastData : option Forecast.t)
  : option Forecast.t :=
  match originalForecast st with
  | None => forecastData
  | Some original =>
      match units st with
      | metric => Some original
      | imperial => Some (unitConversion.convertForecast original metric (units st))
      end
  end.
End Page.

End page.

(** ** A concrete host

    Instances of the host parameters and a few worlds, to run the code on
    examples. Times are written as decimal milliseconds and numbers as
    fractions; the icon helpers and the hourly series are constant. *)

Module demo.

Definition show_Q (x : Q) : string :=
  (if (Qnum x <? 0)%Z then "-" else "") +:+ show_N (Z.abs_N (Qnum x))
  +:+ "/" +:+ show_N (Npos (Qden x)).

Definition runtime : Runtime := {|
  Date_getTime := fun s =>
    if truthy s
    then (fun d => Z.of_N (N.of_uint d)) <$> NilEmpty.uint_of_string s
    else None;
  Date_toISOString := fun ms => show_N (Z.to_N ms);
  Number_toString := show_Q;
  Number_toFixed2 := show_Q;
  encodeURIComponent := fun s => Ok (string_of_list_ascii (map ascii_of_N s))
|}.

Definition icons : WeatherIconOpenMeteo := {|
  getOpenMeteoWeatherIcon := fun _ isDay => if isDay then "day" else "night";
  getOpenMeteoWeatherDescription := fun _ => "description";
  isOpenMeteoDayTime := fun _ => true
|}.

Definition hourly : HourlyModel := {|
  buildDeterministicHourly := fun data _ =>
    match OpenMeteoForecastResponse.current data with
    | Some c => [HourlyData.mk "" (OpenMeteoCurrent.temperature_2m c)]
    | None => [HourlyData.mk "" 20]
    end
|}.

(** A codec that knows one snapshot: every snapshot is written as the same
    text, which reads back as [known]. *)
Definition codec (known : ForecastSnapshot) : Json ForecastSnapshot := {|
  JSON_stringify := fun _ => "{snapshot}";
  JSON_parse := fun text =>
    if String.eqb text "{snapshot}" then Ok (Some known)
    else if String.eqb text "null" then Ok None
    else Throw (Error "SyntaxError: Unexpected token in JSON")
|}.

(** The reply of the specification's example: 15.2 degrees, code 3. *)
Definition london_current : OpenMeteoCurrent.t :=
  OpenMeteoCurrent.mk "1800000000000" 15.2 70 12 240 3.

Definition london_daily : OpenMeteoDaily.t :=
  OpenMeteoDaily.mk ["1800000000000"; "1800086400000"] [3; 61]%Z [16.1; 14]%Q [9.5; 8]%Q.

Definition london_reply : OpenMeteoForecastResponse.t :=
  OpenMeteoForecastResponse.mk 51.5 (-0.12) 0 (Some london_current) (Some london_daily).

Definition failed_to_fetch : JsError := Error "TypeError: Failed to fetch".

(** No service can be reached. *)
Definition offline : Net :=
  MkNet (fun _ => Rejected failed_to_fetch) (fun _ => Rejected failed_to_fetch)
        (fun _ => Rejected failed_to_fetch) (fun _ => Rejected failed_to_fetch).

(** Every service answers with the HTTP status [code] and no usable body. *)
Definition answering (code : N) (text : string) : Net :=
  MkNet (fun _ => Responded code text None) (fun _ => Responded code text None)
        (fun _ => Responded code text None) (fun _ => Responded code text None).

(** Open-Meteo answers 200 with [reply]; geocoding answers 200 with [found]. *)
Definition online (reply : OpenMeteoForecastResponse.t) (found : ResultsField) : Net :=
  MkNet (fun _ => Responded 200 "OK" (Some found))
        (fun _ => Responded 200 "OK" (Some reply))
        (fun _ => Rejected failed_to_fetch) (fun _ => Rejected failed_to_fetch).

(** OpenWeatherMap's One Call answers 200 with [f]. *)
Definition openweather_online (f : Forecast.t) : Net :=
  MkNet (fun _ => Rejected failed_to_fetch) (fun _ => Rejected failed_to_fetch)
        (fun _ => Rejected failed_to_fetch) (fun _ => Responded 200 "OK" (Some f)).

(** A browser whose [localStorage] works and holds [stored]. *)
Definition browser (n : Net) (stored : gmap string string) (now : Z) : World Net :=
  MkWorld true (MkMedium false false false stored) now n [] [].

(** A browser whose [localStorage] refuses writes. *)
Definition browser_quota_full (n : Net) (stored : gmap string string) (now : Z) : World Net :=
  MkWorld true (MkMedium false true false stored) now n [] [].

(** A forecast for London normalised at [saved_at], and the snapshot a save
    at that time writes. *)
Definition saved_at : Z := 1800000000000.

Definition saved_forecast : Forecast.t :=
  normalized_forecast (RT := runtime) (IC := icons) (HM := hourly)
    london_reply london_daily saved_at.

Definition saved_snapshot : ForecastSnapshot :=
  MkSnapshot saved_forecast (Date_toISOString (Runtime := runtime) saved_at)
             (cityName (RT := runtime) 51.5 (-0.12)) (Units_to_string metric).

Definition saved_codec : Json ForecastSnapshot := codec saved_snapshot.

(** A store holding the saved snapshot. *)
Definition with_snapshot : gmap string string := {[ SNAPSHOT_KEY := "{snapshot}" ]}.

Definition hours (n : Z) : Z := (n * 60 * 60 * 1000)%Z.

Definition london : GeoPoint.t := GeoPoint.mk 51.5 (-0.12) (Some "London") (Some "GB").

Definition default_config : Config := config_of_env None None.
Definition openweather_config : Config := config_of_env (Some "openweather") (Some "key").

End demo.

(** ** [src/lib/storage.ts]: recent searches, favorites, last location *)

Module storage_lists.

Definition RECENT_KEY : string := "weatherflow:recent".
Definition FAVORITES_KEY : string := "weatherflow:favorites".
Definition MAX_FAVORITES : nat := 8.
Definition LAST_GEO_KEY : string := "weatherflow:lastGeo".

Module FavoriteCity.
Record t := mk {
  name : string; country : string; lat : float; lon : float; addedAt : string }.
End FavoriteCity.

(** The argument of the favorites functions:
    [{ name: string; country: string; lat: number; lon: number }]. *)
Module City.
Record t := mk { name : string; country : string; lat : float; lon : float }.
End City.

Module LastGeo.
Record t := mk { lat : Q; lon : Q; label : string; updatedAt : string }.
End LastGeo.

(** [existing.lat !== city.lat || existing.lon !== city.lon] *)
Definition elsewhere (city existing : GeoPoint.t) : bool :=
  negb (Qeq_bool (GeoPoint.lat existing) (GeoPoint.lat city))
  || negb (Qeq_bool (GeoPoint.lon existing) (GeoPoint.lon city)).

(** Lines 51-57 of [addRecentSearch]: drop the entries at the city's
    coordinates, put the city first, keep six. *)
Definition limited (city : GeoPoint.t) (recent : list GeoPoint.t) : list GeoPoint.t :=
  let filtered := List.filter (elsewhere city) recent in
  let updated := city :: filtered in
  take 6 updated.

(** [array.slice(0, end)]: a negative [end] counts from the end of the array. *)
Definition slice0 {T} (array : list T) (end_ : Z) : list T :=
  if (end_ <? 0)%Z
  then take (Z.to_nat (Z.of_nat (length array) + end_)) array
  else take (Z.to_nat end_) array.

Definition pushUnique {T} `{EqDecision T} (array : list T) (item : T) (maxLength : Z)
  : list T :=
  let filtered := List.filter (fun existing => negb (bool_decide (existing = item))) array in
  let updated := item :: filtered in
  slice0 updated maxLength.

(** [Math.abs(a - b) < 0.001] on doubles: the subtraction rounds, the
    literal is the double nearest to 1/1000, and a comparison with [NaN] is
    [false]. *)
Definition within_a_thousandth (a b : float) : bool :=
  PrimFloat.ltb (PrimFloat.abs (PrimFloat.sub a b)) 0.001%float.

(** The test the favorites functions share: same name and country, and
    coordinates less than 0.001 apart. *)
Definition same_city (city : City.t) (fav : FavoriteCity.t) : bool :=
  String.eqb (FavoriteCity.name fav) (City.name city)
  && String.eqb (FavoriteCity.country fav) (City.country city)
  && within_a_thousandth (FavoriteCity.lat fav) (City.lat city)
  && within_a_thousandth (FavoriteCity.lon fav) (City.lon city).

(** [{ ...city, addedAt }] *)
Definition newFavorite (city : City.t) (addedAt : string) : FavoriteCity.t :=
  FavoriteCity.mk (City.name city) (City.country city) (City.lat city) (City.lon city)
                  addedAt.

Section StorageLists.
Context {RT : Runtime} {Net : Type}.
Context {JR : Json (list GeoPoint.t)} {JF : Json (list FavoriteCity.t)}
  {JL : Json LastGeo.t}.
Local Abbreviation JS := (JS Net).

Definition getRecentSearches : JS (list GeoPoint.t) :=
  try_catch
    (let! undef := typeof_window_undefined in
     if undef then ret []
     else
       let! recent := getJSON RECENT_KEY in
       ret (default [] recent))
    (fun _ => ret []).

Definition addRecentSearch (city : GeoPoint.t) : JS unit :=
  try_catch
    (let! undef := typeof_window_undefined in
     if undef then ret tt
     else
       let! recent := getRecentSearches in
       setJSON RECENT_KEY (limited city recent))
    (fun _ => ret tt).

Definition clearRecentSearches : JS unit :=
  try_catch
    (let! undef := typeof_window_undefined in
     if undef then ret tt
     else removeKey RECENT_KEY)
    (fun _ => ret tt).

Definition getFavorites : JS (list FavoriteCity.t) :=
  try_catch
    (let! undef := typeof_window_undefined in
     if undef then ret []
     else
       let! favorites := getJSON FAVORITES_KEY in
       ret (default [] favorites))
    (fun _ => ret []).

Definition addFavorite (city : City.t) : JS bool :=
  try_catch
    (let! undef := typeof_window_undefined in
     if undef then ret false
     else
       let! favorites := getFavorites in
       let exists_ := existsb (same_city city) favorites in
       if exists_ then ret false
       else
         let! now := Date_now in
         let newFavorite := newFavorite city (Date_toISOString now) in
         let updatedFavorites := take MAX_FAVORITES (newFavorite :: favorites) in
         do! setJSON FAVORITES_KEY updatedFavorites in
         ret true)
    (fun _ => ret false).

Definition removeFavorite (city : City.t) : JS bool :=
  try_catch
    (let! undef := typeof_window_undefined in
     if undef then ret false
     else
       let! favorites := getFavorites in
       let updatedFavorites :=
         List.filter (fun fav => negb (same_city city fav)) favorites in
       do! setJSON FAVORITES_KEY updatedFavorites in
       ret true)
    (fun _ => ret false).

Definition isFavorite (city : City.t) : JS bool :=
  try_catch
    (let! undef := typeof_window_undefined in
     if undef then ret false
     else
       let! favorites := getFavorites in
       ret (existsb (same_city city) favorites))
    (fun _ => ret false).

Definition clearFavorites : JS unit :=
  try_catch
    (let! undef := typeof_window_undefined in
     if undef then ret tt
     else removeKey FAVORITES_KEY)
    (fun _ => ret tt).

Definition getLastGeo : JS (option LastGeo.t) :=
  try_catch
    (let! undef := typeof_window_undefined in
     if undef then ret None
     else getJSON LAST_GEO_KEY)
    (fun _ => ret None).

Definition setLastGeo (lat lon : Q) (label : string) : JS unit :=
  try_catch
    (let! undef := typeof_window_undefined in
     if undef then ret tt
     else
       let! now := Date_now in
       let lastGeo := LastGeo.mk lat lon label (Date_toISOString now) in
       setJSON LAST_GEO_KEY lastGeo)
    (fun _ => ret tt).

Definition clearLastGeo : JS unit :=
  try_catch
    (let! undef := typeof_window_undefined in
     if undef then ret tt
     else removeKey LAST_GEO_KEY)
    (fun _ => ret tt).
End StorageLists.

(** *** Vocabulary for stating what the helpers do *)

Section StoreVocabulary.
Context {Net : Type}.

(** Every [localStorage] method works. *)
Definition store_works (w : World Net) : Prop :=
  window w = true /\ getItem_throws (localStorage w) = false
  /\ setItem_throws (localStorage w) = false
  /\ removeItem_throws (localStorage w) = false.

(** The world with [text] stored under [key]. *)
Definition put (w : World Net) (key text : string) : World Net :=
  with_localStorage w
    (MkMedium (getItem_throws (localStorage w)) (setItem_throws (localStorage w))
              (removeItem_throws (localStorage w))
              (<[key := text]> (items (localStorage w)))).

(** The world with nothing stored under [key]. *)
Definition without (w : World Net) (key : string) : World Net :=
  with_localStorage w
    (MkMedium (getItem_throws (localStorage w)) (setItem_throws (localStorage w))
              (removeItem_throws (localStorage w))
              (delete key (items (localStorage w)))).

(** [w'] differs from [w] at most in what is stored under [key]. *)
Definition only_key_changed (key : string) (w w' : World Net) : Prop :=
  window w' = window w /\ clock w' = clock w /\ net w' = net w
  /\ requests w' = requests w /\ console w' = console w
  /\ getItem_throws (localStorage w') = getItem_throws (localStorage w)
  /\ setItem_throws (localStorage w') = setItem_throws (localStorage w)
  /\ removeItem_throws (localStorage w') = removeItem_throws (localStorage w)
  /\ forall k, k <> key -> items (localStorage w') !! k = items (localStorage w) !! k.

(** [w'] is the browser of [w] with the same stored items except, at most,
    the one under [key]; requests and console lines are left open. *)
Definition store_kept_except (key : string) (w w' : World Net) : Prop :=
  window w' = window w /\ clock w' = clock w /\ net w' = net w
  /\ getItem_throws (localStorage w') = getItem_throws (localStorage w)
  /\ setItem_throws (localStorage w') = setItem_throws (localStorage w)
  /\ removeItem_throws (localStorage w') = removeItem_throws (localStorage w)
  /\ forall k, k <> key -> items (localStorage w') !! k = items (localStorage w) !! k.

(** [m] always returns, and changes at most what is stored under [key]. *)
Definition writes_only {A} (key : string) (m : JS Net A) : Prop :=
  forall w, exists a w', m w = (Ok a, w') /\ only_key_changed key w w'.
End StoreVocabulary.

(** The codec writes [v] as a non-empty text that reads back as [v]. *)
Definition round_trips {T} {J : Json T} (v : T) : Prop :=
  truthy (JSON_stringify v) = true /\ JSON_parse (JSON_stringify v) = Ok (Some v).

(** What a read of [key] finds: the parsed item when the store can be read
    and holds non-empty text that parses, [None] in every other case. *)
Definition stored {Net T} {J : Json T} (w : World Net) (key : string) : option T :=
  if window w && negb (getItem_throws (localStorage w))
  then match items (localStorage w) !! key with
       | Some text =>
           if truthy text
           then match JSON_parse text with
                | Ok v => v
                | Throw _ => None
                end
           else None
       | None => None
       end
  else None.

(** Whether a write reaches the store. *)
Definition can_write {Net} (w : World Net) : bool :=
  window w && negb (setItem_throws (localStorage w)).

(** Whether a removal reaches the store. *)
Definition can_remove {Net} (w : World Net) : bool :=
  window w && negb (removeItem_throws (localStorage w)).

End storage_lists.
Import storage_lists.

(** * The unused tables of [api.ts] *)

(** [getWeatherDescription] and [getWeatherIcon] (api.ts 252-290) are
    declared next to [getWeatherMain]. Nothing in [api.ts] calls them: the
    adapters take descriptions and icons from [./weatherIconOpenMeteo]. *)
Module api_tables.

Definition descriptionMap_entries : list (Z * string) :=
  [ (0, "Clear sky");
    (1, "Mainly clear"); (2, "Partly cloudy"); (3, "Overcast");
    (45, "Fog"); (48, "Depositing rime fog");
    (51, "Light drizzle"); (53, "Moderate drizzle"); (55, "Dense drizzle");
    (56, "Light freezing drizzle"); (57, "Dense freezing drizzle");
    (61, "Slight rain"); (63, "Moderate rain"); (65, "Heavy rain");
    (66, "Light freezing rain"); (67, "Heavy freezing rain");
    (71, "Slight snow"); (73, "Moderate snow"); (75, "Heavy snow");
    (77, "Snow grains");
    (80, "Slight rain showers"); (81, "Moderate rain showers");
    (82, "Violent rain showers");
    (85, "Slight snow showers"); (86, "Heavy snow showers");
    (95, "Thunderstorm");
    (96, "Thunderstorm with slight hail"); (99, "Thunderstorm with heavy hail") ]%Z.

Definition descriptionMap : gmap Z string := object_literal descriptionMap_entries.

(** [descriptionMap[code] || 'Unknown'] *)
Definition getWeatherDescription (code : Z) : string :=
  match descriptionMap !! code with
  | Some description => if truthy description then description else "Unknown"
  | None => "Unknown"
  end.

Definition iconMap_entries : list (Z * string) :=
  [ (0, "01d");
    (1, "02d"); (2, "03d"); (3, "04d");
    (45, "50d"); (48, "50d");
    (51, "09d"); (53, "09d"); (55, "09d");
    (56, "09d"); (57, "09d");
    (61, "10d"); (63, "10d"); (65, "10d");
    (66, "10d"); (67, "10d");
    (71, "13d"); (73, "13d"); (75, "13d");
    (77, "13d");
    (80, "09d"); (81, "09d"); (82, "09d");
    (85, "13d"); (86, "13d");
    (95, "11d");
    (96, "11d"); (99, "11d") ]%Z.

Definition iconMap : gmap Z string := object_literal iconMap_entries.

(** [iconMap[code] || '01d'] *)
Definition getWeatherIcon (code : Z) : string :=
  match iconMap !! code with
  | Some icon => if truthy icon then icon else "01d"
  | None => "01d"
  end.

End api_tables.

(** * Components *)

Module components.

(** [array.slice(start, end)] for [0 <= start] and [0 <= end]. *)
Definition slice {T} (array : list T) (start end_ : nat) : list T :=
  drop start (take end_ array).

(** ** [ForecastList] (components/ForecastList.tsx) *)

(** The props one [ForecastItem] receives. [key] is [forecast.dt]. *)
Module ForecastItemProps.
Record t := mk { key : option Z; forecast : ForecastDay.t; units : Units; index : nat }.
End ForecastItemProps.

(** What the component returns: the skeleton of five placeholder rows, the
    "no forecast data" block, or the heading with one [ForecastItem] per
    element. *)
Inductive ForecastListView :=
| loadingSkeleton
| emptyState
| forecastItems (items : list ForecastItemProps.t).

(** [forecasts] is [None] when the prop is absent. *)
Definition ForecastList (forecasts : option (list ForecastDay.t)) (units : Units)
    (isLoading : bool) : ForecastListView :=
  if isLoading then loadingSkeleton
  else match forecasts with
       | None => emptyState
       | Some forecasts =>
           if (length forecasts =? 0)%nat then emptyState
           else forecastItems
                  (imap (fun index forecast =>
                           ForecastItemProps.mk (ForecastDay.dt forecast) forecast units index)
                        (slice forecasts 1 6))
       end.

(** ** [HourlySparkline] (components/HourlySparkline.tsx) *)

Module ChartPoint.
Record t := mk { timestamp : Z; temperature : Q }.
End ChartPoint.

(** [Math.min(...xs)] and [Math.max(...xs)]. Of an empty spread they are
    [Infinity] and [-Infinity], which the rationals do not have: [None]. *)
Fixpoint Math_min (xs : list Q) : option Q :=
  match xs with
  | [] => None
  | x :: xs' =>
      match Math_min xs' with
      | None => Some x
      | Some m => Some (if Qle_bool x m then x else m)
      end
  end.

Fixpoint Math_max (xs : list Q) : option Q :=
  match xs with
  | [] => None
  | x :: xs' =>
      match Math_max xs' with
      | None => Some x
      | Some m => Some (if Qle_bool m x then x else m)
      end
  end.

(** [yDomain = [minTemp * 0.98, maxTemp * 1.02]]; [None] for the empty
    series, where the component returns before the domain is used. *)
Definition yDomain (chartData : list ChartPoint.t) : option (Q * Q) :=
  let temperatures := map ChartPoint.temperature chartData in
  match Math_min temperatures, Math_max temperatures with
  | Some minTemp, Some maxTemp => Some (minTemp * 0.98, maxTemp * 1.02)%Q
  | _, _ => None
  end.

(** What the component returns: the "No data available" block, or the area
    chart over [data] with the Y axis given [domain]. *)
Inductive SparklineView :=
| noData
| areaChart (data : list ChartPoint.t) (domain : option (Q * Q)).

Section Sparkline.
Context {Net : Type}.

(** The [useMemo] computing [chartData]. *)
Definition chartData (hourlyData : list HourlyData.t) : JS Net (list ChartPoint.t) :=
  let next24Hours := slice hourlyData 0 24 in
  let! now := Date_now in
  ret (imap (fun index data =>
               let timestamp := (now + Z.of_nat index * 60 * 60 * 1000)%Z in
               ChartPoint.mk timestamp (HourlyData.temperature data))
            next24Hours).

Definition HourlySparkline (hourlyData : list HourlyData.t) : JS Net SparklineView :=
  let! chartData := chartData hourlyData in
  let yDomain := yDomain chartData in
  if (length chartData =? 0)%nat then ret noData
  else ret (areaChart chartData yDomain).
End Sparkline.

End components.

(** * The theme provider (lib/ThemeContext.tsx) *)

Module theme.

Inductive Theme := light | dark.

Definition Theme_to_string (t : Theme) : string :=
  match t with light => "light" | dark => "dark" end.

Definition THEME_KEY : string := "weatherflow-theme".

(** The two [useState] cells of [ThemeProvider]. *)
Record State := MkState { theme : Theme; resolvedTheme : Theme }.

Section Theme.
Context {Net : Type}.
Local Abbreviation JS := (JS Net).

(** [window.matchMedia('(prefers-color-scheme: dark)').matches], with the
    system preference [systemDark]; without a window it is a
    ReferenceError. *)
Definition prefersDark (systemDark : bool) : JS bool :=
  fun w => if window w then (Ok systemDark, w)
           else (Throw (Error "window is not defined"), w).

Definition detected (prefersDark : bool) : Theme :=
  if prefersDark then dark else light.

(** The first effect, run once on mount. It returns the cells after its
    [setTheme] and [setResolvedTheme] calls. The [try] around [getItem]
    gives the saved text ([inr]); its [catch] block ends the effect
    ([inl]). *)
Definition init_effect (systemDark : bool) : JS State :=
  let! read :=
    try_catch
      (let! saved := localStorage_getItem THEME_KEY in ret (inr saved))
      (fun _ =>
         let! prefersDark := prefersDark systemDark in
         let detected := detected prefersDark in
         ret (inl (MkState detected detected))) in
  match read with
  | inl st => ret st
  | inr saved =>
      if bool_decide (saved = Some "light") then ret (MkState light light)
      else if bool_decide (saved = Some "dark") then ret (MkState dark dark)
      else
        let! prefersDark := prefersDark systemDark in
        let detected := detected prefersDark in
        do! try_catch (localStorage_setItem THEME_KEY (Theme_to_string detected))
                      (fun _ => ret tt) in
        ret (MkState detected detected)
  end.

(** The third effect, on a change of [theme]. *)
Definition save_effect (st : State) : JS unit :=
  try_catch (localStorage_setItem THEME_KEY (Theme_to_string (theme st)))
            (fun _ => ret tt).
End Theme.

End theme.

(** * The rest of the Home page *)

Module home.
Import page.

(** The [useState] cells of [Home] that [page.State] leaves out.
    [originalUnits] is written by the first effect and read nowhere. *)
Record Form := MkForm {
  searchQuery : string;
  locationError : option string;
  isRequestingLocation : bool;
  showMap : bool;
  originalUnits : Units
}.

Record Home := MkHome { state : State; form : Form }.

(** [name || fallback] for an optional string. *)
Definition or_else (name : option string) (fallback : string) : string :=
  match name with
  | Some n => if truthy n then n else fallback
  | None => fallback
  end.

(** The effect on [currentWeather, originalCurrentWeather]. The query's
    [data] is [None] while it is [undefined] or [null]. *)
Definition store_original_current (currentWeather : option CurrentWeather.t) (h : Home)
  : Home :=
  match currentWeather, originalCurrentWeather (state h) with
  | Some currentWeather, None =>
      MkHome (MkState (selectedCity (state h)) (units (state h)) (Some currentWeather)
                      (originalForecast (state h)))
             (MkForm (searchQuery (form h)) (locationError (form h))
                     (isRequestingLocation (form h)) (showMap (form h)) metric)
  | _, _ => h
  end.

(** The effect on [forecastData, originalForecast]. *)
Definition store_original_forecast (forecastData : option Forecast.t) (h : Home) : Home :=
  match forecastData, originalForecast (state h) with
  | Some forecastData, None =>
      MkHome (MkState (selectedCity (state h)) (units (state h))
                      (originalCurrentWeather (state h)) (Some forecastData))
             (form h)
  | _, _ => h
  end.

(** Both stored records of [h'] are those of [h], where [h] has them. *)
Definition originals_kept (h h' : Home) : Prop :=
  (forall first, originalCurrentWeather (state h) = Some first ->
                 originalCurrentWeather (state h') = Some first) /\
  (forall first, originalForecast (state h) = Some first ->
                 originalForecast (state h') = Some first).

(** [convertedForecastData?.daily || []] *)
Definition forecasts (convertedForecastData : option Forecast.t) : list ForecastDay.t :=
  match convertedForecastData with
  | Some f => Forecast.daily f
  | None => []
  end.

Section Home.
Context {RT : Runtime} {Net : Type} {JR : Json (list GeoPoint.t)}.
Local Abbreviation JS := (JS Net).
(** [askLocation] and [getLocationErrorMessage] of [lib/geo]. Of the
    location the handler reads [lat], [lon], [name] and [country]. *)
Variable askLocation : JS GeoPoint.t.
Variable getLocationErrorMessage : JsError -> string.

Definition handleCitySelect (city : GeoPoint.t) (h : Home) : JS Home :=
  let h' :=
    MkHome (MkState (Some city) (units (state h)) None None)
           (MkForm (or_else (GeoPoint.name city) "") None
                   (isRequestingLocation (form h)) (showMap (form h))
                   (originalUnits (form h))) in
  if truthy (or_else (GeoPoint.name city) "")
  then do! addRecentSearch city in ret h'
  else ret h'.

Definition handleUseLocation (h : Home) : JS Home :=
  let requesting :=
    MkHome (state h)
           (MkForm (searchQuery (form h)) None true (showMap (form h))
                   (originalUnits (form h))) in
  let! settled :=
    try_catch
      (let! location := askLocation in
       let locationCity :=
         GeoPoint.mk (GeoPoint.lat location) (GeoPoint.lon location)
                     (Some (or_else (GeoPoint.name location) "Current Location"))
                     (GeoPoint.country location) in
       let located :=
         MkHome (MkState (Some locationCity) (units (state requesting))
                         (originalCurrentWeather (state requesting))
                         (originalForecast (state requesting)))
                (MkForm (or_else (GeoPoint.name locationCity) "Current Location")
                        (locationError (form requesting))
                        (isRequestingLocation (form requesting))
                        (showMap (form requesting)) (originalUnits (form requesting))) in
       do! addRecentSearch locationCity in
       ret located)
      (fun error =>
         ret (MkHome (state requesting)
                     (MkForm (searchQuery (form requesting))
                             (Some (getLocationErrorMessage error))
                             (isRequestingLocation (form requesting))
                             (showMap (form requesting))
                             (originalUnits (form requesting))))) in
  ret (MkHome (state settled)
              (MkForm (searchQuery (form settled)) (locationError (form settled)) false
                      (showMap (form settled)) (originalUnits (form settled)))).

(** The focus timer of [handleClearSearch] touches the document only. *)
Definition handleClearSearch (h : Home) : Home :=
  MkHome (MkState None (units (state h)) (originalCurrentWeather (state h))
                  (originalForecast (state h)))
         (MkForm "" (locationError (form h)) (isRequestingLocation (form h))
                 (showMap (form h)) (originalUnits (form h))).

(** [() => setShowMap(!showMap)] *)
Definition toggleMap (h : Home) : Home :=
  MkHome (state h)
         (MkForm (searchQuery (form h)) (locationError (form h))
                 (isRequestingLocation (form h)) (negb (showMap (form h)))
                 (originalUnits (form h))).

(** What can happen to the page: a query's [data] changes, or the user
    acts. *)
Inductive Event :=
| CurrentWeatherChanged (currentWeather : option CurrentWeather.t)
| ForecastChanged (forecastData : option Forecast.t)
| CitySelected (city : GeoPoint.t)
| UseLocationClicked
| UnitsChanged (newUnits : Units)
| SearchCleared
| MapToggled.

Definition step (e : Event) (h : Home) : JS Home :=
  match e with
  | CurrentWeatherChanged currentWeather => ret (store_original_current currentWeather h)
  | ForecastChanged forecastData => ret (store_original_forecast forecastData h)
  | CitySelected city => handleCitySelect city h
  | UseLocationClicked => handleUseLocation h
  | UnitsChanged newUnits => ret (MkHome (handleUnitsChange (state h) newUnits) (form h))
  | SearchCleared => ret (handleClearSearch h)
  | MapToggled => ret (toggleMap h)
  end.

Fixpoint run (events : list Event) (h : Home) : JS Home :=
  match events with
  | [] => ret h
  | e :: events' => let! h' := step e h in run events' h'
  end.

Definition is_CitySelected (e : Event) : bool :=
  match e with CitySelected _ => true | _ => false end.
End Home.

(** What the queries report, and the condition of the weather content
    block in the JSX. *)
Record Queries := MkQueries {
  isLoadingWeather : bool; isLoadingForecast : bool;
  weatherError : bool; forecastError : bool
}.

Definition shows_content (h : Home) (q : Queries) : bool :=
  bool_decide (is_Some (selectedCity (state h)))
  && bool_decide (is_Some (originalCurrentWeather (state h)))
  && negb (isLoadingWeather q) && negb (isLoadingForecast q).

End home.

(** * More concrete data *)

Module demo_lists.

(** A codec that knows the values of [known]: each is written as its
    [show] text, and a text reads back as the first known value written
    that way. *)
Definition codec_of {T} (show : T -> string) (known : list T) : Json T := {|
  JSON_stringify := show;
  JSON_parse := fun text =>
    match List.find (fun v => String.eqb (show v) text) known with
    | Some v => Ok (Some v)
    | None =>
        if String.eqb text "null" then Ok None
        else Throw (Error "SyntaxError: Unexpected token in JSON")
    end
|}.

Definition count {T} (l : list T) : string := show_N (N.of_nat (length l)).

Definition paris : GeoPoint.t := GeoPoint.mk 48.85 2.35 (Some "Paris") (Some "FR").

Definition recent_codec : Json (list GeoPoint.t) :=
  codec_of count [[demo.london]; [paris; demo.london]].

(** A store with one recent search, London. *)
Definition one_recent : gmap string string := {[ RECENT_KEY := "1" ]}.

Definition london_city : City.t := City.mk "London" "GB" 51.5 (-0.12).
Definition paris_city : City.t := City.mk "Paris" "FR" 48.85 2.35.
Definition paris_favorite : FavoriteCity.t := FavoriteCity.mk "Paris" "FR" 48.85 2.35 "0".

(** London as a favorite added at [demo.saved_at]. *)
Definition london_favorite : FavoriteCity.t :=
  newFavorite london_city (Date_toISOString (Runtime := demo.runtime) demo.saved_at).

Definition favorites_codec : Json (list FavoriteCity.t) :=
  codec_of count [[]; [paris_favorite]; [london_favorite; paris_favorite]].

(** A store with one favorite, Paris. *)
Definition one_favorite : gmap string string := {[ FAVORITES_KEY := "1" ]}.

(** A store with two favorites, London and Paris. *)
Definition two_favorites : gmap string string := {[ FAVORITES_KEY := "2" ]}.

(** The location saved at [demo.saved_at]. *)
Definition london_geo : LastGeo.t :=
  LastGeo.mk 51.5 (-0.12) "London, GB"
             (Date_toISOString (Runtime := demo.runtime) demo.saved_at).

Definition lastGeo_codec : Json LastGeo.t := codec_of (fun _ => "{geo}") [london_geo].

(** London's weather as normalised from the example reply, and a second
    record that differs in temperature. *)
Definition london_weather : CurrentWeather.t :=
  normalized_current (RT := demo.runtime) (IC := demo.icons)
    demo.london_reply demo.london_current.

Definition paris_weather : CurrentWeather.t :=
  normalized_current (RT := demo.runtime) (IC := demo.icons)
    demo.london_reply (OpenMeteoCurrent.mk "1800000000000" 21 60 5 90 0).

(** A converter for the runs below, which stay in metric display: it is
    never called there. *)
Definition converter : unitConversion.UnitConversion := {|
  unitConversion.convertCurrentWeather := fun w _ _ => w;
  unitConversion.convertForecast := fun f _ _ => f
|}.

(** Geolocation answers with a place that has no name. *)
Definition located : JS Net GeoPoint.t := ret (GeoPoint.mk 48.85 2.35 None None).

Definition location_message (e : JsError) : string := message e.

(** The Home page with London selected and its data stored. *)
Definition london_page : home.Home :=
  home.MkHome (page.MkState (Some demo.london) metric (Some london_weather)
                            (Some demo.saved_forecast))
              (home.MkForm "London" None false false metric).

End demo_lists.

(** ** Proof automation *)

Ltac js_unfold :=
  unfold saveSnapshot, getSnapshot, clearSnapshot, setJSON, getJSON, removeKey,
    isSnapshotRecent, try_catch, bind, ret, throw, typeof_window_undefined, Date_now,
    localStorage_getItem, localStorage_setItem, localStorage_removeItem, console_log,
    with_localStorage in *.

(** Evaluate a run, using the equations at hand about the world. *)
Ltac js_run :=
  js_unfold;
  repeat (simpl; match goal with
                 | E : ?x = _ |- context [?x] => rewrite E
                 end);
  simpl.

(** One step through a storage helper: open the [try], then use the
    equations of [getJSON], [setJSON] and [removeKey] collected in
    [js_store]. *)
Create Rewrite HintDb js_store.

Ltac js_step :=
  unfold try_catch, bind, ret, typeof_window_undefined, Date_now; simpl;
  autorewrite with js_store; simpl.

(** * Properties *)

(** ** Small runs *)

Example twentyFourHours_ms : twentyFourHours = 86400000%Z.
Proof. reflexivity. Qed.

Example getWeatherMain_3 : getWeatherMain 3 = "Clear".
Proof. reflexivity. Qed.

Example getWeatherMain_100 : getWeatherMain 100 = "Unknown".
Proof. reflexivity. Qed.

Example trim_padded : trim [32; 79; 115; 108; 111; 10]%N = [79; 115; 108; 111]%N.
Proof. reflexivity. Qed.

Example trim_inner_space : trim [78; 32; 89]%N = [78; 32; 89]%N.
Proof. reflexivity. Qed.

Example retryDelay_first : page.retryDelay 0 = 1000%Z.
Proof. reflexivity. Qed.

Example retryDelay_capped : page.retryDelay 5 = 30000%Z.
Proof. reflexivity. Qed.

Example retry_404_with_status : page.retry 0 (MkError "Not Found" (Some 404%Z)) = false.
Proof. reflexivity. Qed.

Example retry_500_with_status : page.retry 0 (MkError "Server Error" (Some 500%Z)) = true.
Proof. reflexivity. Qed.

Example status_of_message_404 :
  observe.status_of_message "Failed to search cities: "
    "Failed to search cities: 404 Not Found" = Some 404%N.
Proof. reflexivity. Qed.

Example show_N_404 : show_N 404 = "404".
Proof. reflexivity. Qed.

(** ** The monad *)

Section MonadFacts.
Context {Net : Type}.
Implicit Types w : World Net.

Lemma bind_ok {A B} (m : JS Net A) (k : A -> JS Net B) w a w' :
  m w = (Ok a, w') -> bind m k w = k a w'.
Proof. intros E. unfold bind. now rewrite E. Qed.

Lemma bind_throw {A B} (m : JS Net A) (k : A -> JS Net B) w e w' :
  m w = (Throw e, w') -> bind m k w = (Throw e, w').
Proof. intros E. unfold bind. now rewrite E. Qed.

Lemma try_catch_ok {A} (m : JS Net A) h w a w' :
  m w = (Ok a, w') -> try_catch m h w = (Ok a, w').
Proof. intros E. unfold try_catch. now rewrite E. Qed.

Lemma try_catch_throw {A} (m : JS Net A) h w e w' :
  m w = (Throw e, w') -> try_catch m h w = h e w'.
Proof. intros E. unfold try_catch. now rewrite E. Qed.

(** A handler that returns makes the whole [try]/[catch] return. *)
Lemma try_catch_total {A} (m : JS Net A) (a0 : A) w :
  exists a w', try_catch m (fun _ => ret a0) w = (Ok a, w').
Proof.
  unfold try_catch. destruct (m w) as [[a|e] w']; [exists a, w'|exists a0, w']; reflexivity.
Qed.
End MonadFacts.

(** ** The snapshot store *)

Section StorageProperties.
Context {RT : Runtime} {Net : Type} {JC : Json ForecastSnapshot}.
Implicit Types w : World Net.

Lemma saveSnapshot_returns w d c u : exists w', saveSnapshot d c u w = (Ok tt, w').
Proof.
  destruct (window w) eqn:Ew, (setItem_throws (localStorage w)) eqn:Es;
    js_run; eauto.
Qed.

Lemma clearSnapshot_returns w : exists w', clearSnapshot w = (Ok tt, w').
Proof.
  destruct (window w) eqn:Ew, (removeItem_throws (localStorage w)) eqn:Es;
    js_run; eauto.
Qed.

(** Loading never changes the world and never throws. *)
Lemma getSnapshot_returns w : exists r, getSnapshot w = (Ok r, w).
Proof.
  destruct (window w) eqn:Ew, (getItem_throws (localStorage w)) eqn:Eg;
    js_run; eauto.
  destruct (items (localStorage w) !! SNAPSHOT_KEY) as [text|]; simpl; [|eauto].
  destruct (truthy text); simpl; [|eauto].
  unfold of_exc. destruct (JSON_parse text); simpl; eauto.
Qed.

Lemma saveSnapshot_unavailable w d c u :
  save_unavailable w -> saveSnapshot d c u w = (Ok tt, w).
Proof.
  intros [E|E]; [js_run; reflexivity|].
  destruct (window w) eqn:Ew; js_run; reflexivity.
Qed.

Lemma clearSnapshot_unavailable w :
  clear_unavailable w -> clearSnapshot w = (Ok tt, w).
Proof.
  intros [E|E]; [js_run; reflexivity|].
  destruct (window w) eqn:Ew; js_run; reflexivity.
Qed.

Lemma getSnapshot_unavailable w :
  load_unavailable w -> getSnapshot w = (Ok None, w).
Proof.
  intros [E|E]; [js_run; reflexivity|].
  destruct (window w) eqn:Ew; js_run; reflexivity.
Qed.

Lemma getSnapshot_empty w :
  items (localStorage w) !! SNAPSHOT_KEY = None -> getSnapshot w = (Ok None, w).
Proof.
  intros E.
  destruct (window w) eqn:Ew, (getItem_throws (localStorage w)) eqn:Eg;
    js_run; reflexivity.
Qed.

(** What a load answers when the medium can be read. *)
Lemma getSnapshot_available w text :
  window w = true -> getItem_throws (localStorage w) = false ->
  items (localStorage w) !! SNAPSHOT_KEY = Some text -> truthy text = true ->
  getSnapshot w = (match JSON_parse text with Ok v => Ok v | Throw _ => Ok None end, w).
Proof.
  intros Ew Eg Ei Et. js_run. unfold of_exc. destruct (JSON_parse text); reflexivity.
Qed.

(** What a save writes when the medium takes the write. *)
Lemma saveSnapshot_available w d c u :
  window w = true -> setItem_throws (localStorage w) = false ->
  saveSnapshot d c u w =
    (Ok tt,
     with_localStorage w
       (MkMedium (getItem_throws (localStorage w)) false
                 (removeItem_throws (localStorage w))
                 (<[SNAPSHOT_KEY :=
                      JSON_stringify (MkSnapshot d (Date_toISOString (clock w)) c u)]>
                    (items (localStorage w))))).
Proof.
  intros Ew Es. js_run. reflexivity.
Qed.

(** C7. Saving, loading and clearing the snapshot never raise, whatever the
    state of the persistence medium; where the medium is unavailable (no
    window, or the [localStorage] method throws) saving and clearing leave
    the world as it was and loading answers [null], which is also what
    loading an empty store answers. *)
Theorem snapshot_store_silent w d c u :
  (exists w', saveSnapshot d c u w = (Ok tt, w')) /\
  (exists w', clearSnapshot w = (Ok tt, w')) /\
  (exists r, getSnapshot w = (Ok r, w)) /\
  (save_unavailable w -> saveSnapshot d c u w = (Ok tt, w)) /\
  (clear_unavailable w -> clearSnapshot w = (Ok tt, w)) /\
  (load_unavailable w -> getSnapshot w = (Ok None, w)) /\
  (items (localStorage w) !! SNAPSHOT_KEY = None -> getSnapshot w = (Ok None, w)).
Proof.
  repeat split.
  - apply saveSnapshot_returns.
  - apply clearSnapshot_returns.
  - apply getSnapshot_returns.
  - apply saveSnapshot_unavailable.
  - apply clearSnapshot_unavailable.
  - apply getSnapshot_unavailable.
  - apply getSnapshot_empty.
Qed.
End StorageProperties.

(** ** Condition codes *)

Section ObjectLiteral.
Context {V : Type}.
Implicit Types (l : list (Z * V)) (m : gmap Z V).

Lemma foldl_insert_notin l m k :
  k ∉ l.*1 -> foldl (fun m kv => <[kv.1 := kv.2]> m) m l !! k = m !! k.
Proof.
  revert m. induction l as [|[k' v] l IH]; intros m Hk; simpl; [reflexivity|].
  rewrite fmap_cons in Hk. apply not_elem_of_cons in Hk as [Hne Hk].
  rewrite IH by assumption. simpl in Hne. now apply lookup_insert_ne.
Qed.

Lemma object_literal_notin l k : k ∉ l.*1 -> object_literal l !! k = None.
Proof. intros Hk. unfold object_literal. now rewrite foldl_insert_notin. Qed.
End ObjectLiteral.

Lemma getWeatherMain_listed c s :
  (c, s) ∈ weatherMap_entries -> getWeatherMain c = s.
Proof.
  unfold weatherMap_entries. intros Hin.
  repeat (apply elem_of_cons in Hin as [Hin|Hin];
          [injection Hin as -> ->; vm_compute; reflexivity|]).
  now apply elem_of_nil in Hin.
Qed.

Lemma getWeatherMain_unlisted c :
  c ∉ weatherMap_entries.*1 -> getWeatherMain c = "Unknown".
Proof.
  intros Hc. unfold getWeatherMain, weatherMap.
  now rewrite object_literal_notin.
Qed.

(** ** Provider adapter *)

Section ApiProperties.
Context {RT : Runtime} {IC : WeatherIconOpenMeteo} {HM : HourlyModel}
  {JC : Json ForecastSnapshot}.
Implicit Types w : World Net.

Lemma ok_spec {B} (r : Response B) :
  ok r = true <-> (200 <= resp_status r <= 299)%N.
Proof.
  unfold ok. rewrite andb_true_iff, !N.leb_le. tauto.
Qed.

Lemma getCurrentOpenMeteo_ok w lat lon units code text data current :
  open_meteo_api (net w) (current_url lat lon units) = Responded code text (Some data) ->
  (200 <= code <= 299)%N ->
  OpenMeteoForecastResponse.current data = Some current ->
  getCurrentOpenMeteo lat lon units w
  = (Ok (normalized_current data current), after_fetch w (current_url lat lon units)).
Proof.
  intros Hnet Hcode Hcur.
  assert (Hok : ok (MkResponse code text (Some data)) = true) by now apply ok_spec.
  unfold getCurrentOpenMeteo, fetch, bind, json. rewrite Hnet. cbv zeta.
  rewrite Hok. simpl. rewrite Hcur. reflexivity.
Qed.

(** Every HTTP reply outside 200-299 makes [getCurrentOpenMeteo] throw an
    [Error] whose text holds the status and which has no [status] property. *)
Lemma getCurrentOpenMeteo_http_error w lat lon units code text body :
  open_meteo_api (net w) (current_url lat lon units) = Responded code text body ->
  ~ (200 <= code <= 299)%N ->
  getCurrentOpenMeteo lat lon units w
  = (Throw (Error ("Failed to fetch current weather: " +:+ show_N code +:+ " " +:+ text)),
     after_fetch w (current_url lat lon units)).
Proof.
  intros Hnet Hcode.
  assert (Hok : ok (MkResponse code text body) = false).
  { apply not_true_is_false. intros E. now apply ok_spec in E. }
  unfold getCurrentOpenMeteo, fetch, bind. rewrite Hnet. cbv zeta.
  rewrite Hok. reflexivity.
Qed.
End ApiProperties.

(** ** Reading the status back from an error message *)

Section Observe.
Import observe.

Lemma drop_string_app p s : drop_string (String.length p) (p +:+ s) = s.
Proof. induction p as [|a p IH]; simpl; [now destruct s|exact IH]. Qed.

Lemma digits_prefix_uint d rest :
  digits_prefix (NilEmpty.string_of_uint d +:+ String " " rest) = NilEmpty.string_of_uint d.
Proof. induction d; simpl; [reflexivity|now f_equal..]. Qed.

Lemma status_of_message_spec prefix code text :
  status_of_message prefix (prefix +:+ show_N code +:+ " " +:+ text) = Some code.
Proof.
  unfold status_of_message, show_N. rewrite drop_string_app.
  change (" " +:+ text) with (String " " text).
  rewrite digits_prefix_uint, NilEmpty.usu. simpl.
  now rewrite Unsigned.of_to.
Qed.
End Observe.

(** ** Location search *)

Lemma trimStart_blank s : forallb is_whitespace s = true -> trimStart s = [].
Proof.
  induction s as [|c s IH]; simpl; [reflexivity|].
  intros [Hc Hs]%andb_true_iff. rewrite Hc. auto.
Qed.

Lemma trim_blank s : forallb is_whitespace s = true -> trim s = [].
Proof. intros Hs. unfold trim. now rewrite (trimStart_blank s Hs). Qed.

Section SearchProperties.
Context {RT : Runtime}.
Implicit Types w : World Net.

(** C10. A query that is empty or made of whitespace only is answered with
    the empty list at once: the world, and with it the list of requests
    sent, is unchanged. *)
Theorem searchCity_blank_query w query :
  forallb is_whitespace query = true ->
  searchCity query w = (Ok [], w).
Proof.
  intros Hblank. unfold searchCity. now rewrite (trim_blank query Hblank).
Qed.

Lemma searchCity_fetches w query encoded :
  trim query <> [] ->
  encodeURIComponent query = Ok encoded ->
  searchCity query w
  = bind (fetch geocoding_api (search_url encoded))
         (fun response =>
            if negb (ok response)
            then throw (Error ("Failed to search cities: "
                               +:+ show_N (resp_status response)
                               +:+ " " +:+ resp_statusText response))
            else bind (json response)
                      (fun data =>
                         match data with
                         | Absent | NotArray => ret []
                         | Results results =>
                             ret (map (fun result =>
                                         GeoPoint.mk
                                           (OpenMeteoGeocodingResult.latitude result)
                                           (OpenMeteoGeocodingResult.longitude result)
                                           (OpenMeteoGeocodingResult.name result)
                                           (OpenMeteoGeocodingResult.country result))
                                      results)
                         end)) w.
Proof.
  intros Hq He. unfold searchCity. destruct (trim query); [contradiction|].
  simpl. unfold bind at 1, of_exc. now rewrite He.
Qed.

Lemma ok_true {B} code text (body : option B) :
  (200 <= code <= 299)%N -> ok (MkResponse code text body) = true.
Proof.
  intros Hc. unfold ok. simpl. apply andb_true_iff. rewrite !N.leb_le. exact Hc.
Qed.

Lemma ok_false {B} code text (body : option B) :
  ~ (200 <= code <= 299)%N -> ok (MkResponse code text body) = false.
Proof.
  intros Hc. apply not_true_is_false. unfold ok. simpl.
  rewrite andb_true_iff, !N.leb_le. exact Hc.
Qed.

(** C9. For a query that is sent: a reply whose status is outside 200-299
    makes [searchCity] throw an error whose message holds that status (it
    can be read back from the message); a reply in 200-299 whose [results]
    is missing, not an array, or an empty array yields the empty list. *)
Theorem searchCity_http_outcomes w query encoded code text :
  trim query <> [] ->
  encodeURIComponent query = Ok encoded ->
  (forall body,
      geocoding_api (net w) (search_url encoded) = Responded code text body ->
      ~ (200 <= code <= 299)%N ->
      let msg := "Failed to search cities: " +:+ show_N code +:+ " " +:+ text in
      searchCity query w = (Throw (Error msg), after_fetch w (search_url encoded)) /\
      observe.status_of_message "Failed to search cities: " msg = Some code) /\
  (forall results,
      geocoding_api (net w) (search_url encoded) = Responded code text (Some results) ->
      (200 <= code <= 299)%N ->
      results = Absent \/ results = NotArray \/ results = Results [] ->
      searchCity query w = (Ok [], after_fetch w (search_url encoded))).
Proof.
  intros Hq He. split.
  - intros body Hnet Hcode msg. split.
    + rewrite (searchCity_fetches w query encoded Hq He). unfold bind, fetch.
      rewrite Hnet. cbv zeta. rewrite (ok_false code text body Hcode). reflexivity.
    + apply status_of_message_spec.
  - intros results Hnet Hcode Hres.
    rewrite (searchCity_fetches w query encoded Hq He). unfold bind, fetch.
    rewrite Hnet. cbv zeta. rewrite (ok_true code text (Some results) Hcode). simpl.
    destruct Hres as [->|[->| ->]]; reflexivity.
Qed.
End SearchProperties.

(** A blank query in a browser that is online: nothing is requested. *)
Lemma searchCity_blank_query_witness :
  forallb is_whitespace [32; 9; 160; 32]%N = true /\
  searchCity (RT := demo.runtime) [32; 9; 160; 32]%N
    (demo.browser (demo.online demo.london_reply (Results [])) ∅ 0)
  = (Ok [], demo.browser (demo.online demo.london_reply (Results [])) ∅ 0).
Proof.
  split; [reflexivity|].
  apply (searchCity_blank_query (RT := demo.runtime)). reflexivity.
Defined.

(** The query "Oslo" against a service that answers 404, and against one
    that answers 200 with an empty result array. *)
Lemma searchCity_http_outcomes_witness :
  let query := [79; 115; 108; 111]%N in
  let down := demo.browser (demo.answering 404 "Not Found") ∅ 0 in
  let up := demo.browser (demo.online demo.london_reply (Results [])) ∅ 0 in
  trim query <> [] /\
  searchCity (RT := demo.runtime) query down
  = (Throw (Error "Failed to search cities: 404 Not Found"),
     after_fetch down (search_url "Oslo")) /\
  searchCity (RT := demo.runtime) query up
  = (Ok [], after_fetch up (search_url "Oslo")).
Proof.
  intros query down up.
  assert (Hq : trim query <> []) by (vm_compute; discriminate).
  split; [exact Hq|]. split.
  - apply (proj1 (searchCity_http_outcomes (RT := demo.runtime)
                    down query "Oslo" 404 "Not Found" Hq eq_refl) None);
      [reflexivity|lia].
  - apply (proj2 (searchCity_http_outcomes (RT := demo.runtime)
                    up query "Oslo" 200 "OK" Hq eq_refl) (Results []));
      [reflexivity|lia|auto].
Defined.

(** ** Normalising an Open-Meteo reply *)

Section NormalizeProperties.
Context {RT : Runtime} {IC : WeatherIconOpenMeteo}.
Implicit Types w : World Net.

(** C8. For every Open-Meteo reply that [getCurrentOpenMeteo] accepts (a
    status in 200-299 and a [current] block) the record it returns has
    [feels_like] equal to the reply's [temperature_2m] and [pressure] equal
    to 1013. *)
Theorem open_meteo_missing_fields_substituted w lat lon units code text data current :
  open_meteo_api (net w) (current_url lat lon units) = Responded code text (Some data) ->
  (200 <= code <= 299)%N ->
  OpenMeteoForecastResponse.current data = Some current ->
  exists cw,
    getCurrentOpenMeteo lat lon units w = (Ok cw, after_fetch w (current_url lat lon units)) /\
    Main.feels_like (CurrentWeather.main cw) = OpenMeteoCurrent.temperature_2m current /\
    Main.pressure (CurrentWeather.main cw) = 1013%Q.
Proof.
  intros Hnet Hcode Hcur. exists (normalized_current data current).
  split; [now apply getCurrentOpenMeteo_ok with code text|].
  split; reflexivity.
Qed.

(** C5. The category of a condition code is read from the table: a listed
    code has the category listed with it, any other code has "Unknown"; a
    reply that [getCurrentOpenMeteo] accepts is normalised to a record whose
    temperature is the reply's [temperature_2m] unchanged and whose single
    [weather] entry has the table's category of the reply's code; so the
    reply with 15.2 degrees and code 3 gives [main.temp = 15.2] and
    [weather[0].main = "Clear"]. *)
Theorem condition_codes_table_driven :
  (forall c s, (c, s) ∈ weatherMap_entries -> getWeatherMain c = s) /\
  (forall c, c ∉ weatherMap_entries.*1 -> getWeatherMain c = "Unknown") /\
  (forall w lat lon units code text data current,
      open_meteo_api (net w) (current_url lat lon units) = Responded code text (Some data) ->
      (200 <= code <= 299)%N ->
      OpenMeteoForecastResponse.current data = Some current ->
      exists cw,
        getCurrentOpenMeteo lat lon units w
        = (Ok cw, after_fetch w (current_url lat lon units)) /\
        Main.temp (CurrentWeather.main cw) = OpenMeteoCurrent.temperature_2m current /\
        Condition.main <$> CurrentWeather.weather cw
        = [getWeatherMain (OpenMeteoCurrent.weathercode current)]) /\
  (forall w lat lon units code text data current,
      open_meteo_api (net w) (current_url lat lon units) = Responded code text (Some data) ->
      (200 <= code <= 299)%N ->
      OpenMeteoForecastResponse.current data = Some current ->
      OpenMeteoCurrent.temperature_2m current = 15.2%Q ->
      OpenMeteoCurrent.weathercode current = 3%Z ->
      exists cw,
        getCurrentOpenMeteo lat lon units w
        = (Ok cw, after_fetch w (current_url lat lon units)) /\
        Main.temp (CurrentWeather.main cw) = 15.2%Q /\
        Condition.main <$> CurrentWeather.weather cw !! 0%nat = Some "Clear").
Proof.
  split; [exact getWeatherMain_listed|].
  split; [exact getWeatherMain_unlisted|].
  split.
  - intros w lat lon units code text data current Hnet Hcode Hcur.
    exists (normalized_current data current).
    split; [now apply getCurrentOpenMeteo_ok with code text|].
    split; reflexivity.
  - intros w lat lon units code text data current Hnet Hcode Hcur Htemp Hwc.
    exists (normalized_current data current).
    split; [now apply getCurrentOpenMeteo_ok with code text|].
    split; simpl; [exact Htemp|]. now rewrite Hwc.
Qed.
End NormalizeProperties.

(** The specification's example: London, canonical units, a reply with 15.2
    degrees and code 3. *)
Lemma open_meteo_missing_fields_substituted_witness :
  let w := demo.browser (demo.online demo.london_reply Absent) ∅ 1800000000000 in
  exists cw,
    getCurrentOpenMeteo (RT := demo.runtime) (IC := demo.icons) 51.5%Q (-0.12)%Q metric w
    = (Ok cw, after_fetch w (current_url (RT := demo.runtime) 51.5%Q (-0.12)%Q metric)) /\
    Main.feels_like (CurrentWeather.main cw) = 15.2%Q /\
    Main.pressure (CurrentWeather.main cw) = 1013%Q.
Proof.
  intros w.
  apply (open_meteo_missing_fields_substituted (RT := demo.runtime) (IC := demo.icons)
           w 51.5%Q (-0.12)%Q metric 200 "OK" demo.london_reply demo.london_current);
    [reflexivity|lia|reflexivity].
Defined.

Lemma condition_codes_table_driven_witness :
  let w := demo.browser (demo.online demo.london_reply Absent) ∅ 1800000000000 in
  getWeatherMain 95 = "Thunderstorm" /\
  getWeatherMain 4 = "Unknown" /\
  exists cw,
    getCurrentOpenMeteo (RT := demo.runtime) (IC := demo.icons) 51.5%Q (-0.12)%Q metric w
    = (Ok cw, after_fetch w (current_url (RT := demo.runtime) 51.5%Q (-0.12)%Q metric)) /\
    Main.temp (CurrentWeather.main cw) = 15.2%Q /\
    Condition.main <$> CurrentWeather.weather cw !! 0%nat = Some "Clear".
Proof.
  intros w.
  pose proof (condition_codes_table_driven (RT := demo.runtime) (IC := demo.icons))
    as (Hlisted & Hunlisted & _ & Hexample).
  split.
  { apply Hlisted. unfold weatherMap_entries.
    repeat first [apply list_elem_of_here | apply list_elem_of_further]. }
  split.
  { apply Hunlisted. unfold weatherMap_entries. simpl. intros Hin.
    repeat (apply elem_of_cons in Hin as [Hin|Hin]; [discriminate|]).
    now apply elem_of_nil in Hin. }
  apply (Hexample w 51.5%Q (-0.12)%Q metric 200%N "OK" demo.london_reply demo.london_current);
    [reflexivity|lia|reflexivity|reflexivity|reflexivity].
Defined.

(** ** Forecast: snapshot fallback and snapshot write *)

Section ForecastProperties.
Context {RT : Runtime} {IC : WeatherIconOpenMeteo} {HM : HourlyModel}
  {JC : Json ForecastSnapshot}.
Implicit Types w : World Net.

Lemma getForecast_open_meteo cfg lat lon units :
  PROVIDER cfg = "open-meteo" ->
  getForecast cfg lat lon units = try_catch (getForecast_try lat lon units) getForecast_catch.
Proof. intros E. unfold getForecast. now rewrite E. Qed.

Lemma getForecast_openweather cfg key lat lon units :
  PROVIDER cfg = "openweather" -> API_KEY cfg = Some key -> truthy key = true ->
  getForecast cfg lat lon units = getForecastOpenWeather key lat lon units.
Proof.
  intros Ep Ek Et. unfold getForecast, openweather_key. rewrite Ep, Ek, Et. reflexivity.
Qed.

(** *** The [catch] block *)

Lemma getForecast_catch_recent w e s t :
  getSnapshot w = (Ok (Some s), w) ->
  Date_getTime (timestamp s) = Some t ->
  (clock w - t < twentyFourHours)%Z ->
  getForecast_catch e w
  = (Ok (served_from_cache s),
     after_log w "Using cached forecast data due to network error").
Proof.
  intros Hs Ht Hage. unfold getForecast_catch.
  rewrite (bind_ok _ _ _ _ _ Hs).
  unfold isSnapshotRecent, bind, Date_now, ret, console_log. rewrite Ht.
  apply Z.ltb_lt in Hage. now rewrite Hage.
Qed.

Lemma getForecast_catch_stale w e s :
  getSnapshot w = (Ok (Some s), w) ->
  match Date_getTime (timestamp s) with
  | Some t => (twentyFourHours <= clock w - t)%Z
  | None => True
  end ->
  getForecast_catch e w = (Throw e, w).
Proof.
  intros Hs Hage. unfold getForecast_catch.
  rewrite (bind_ok _ _ _ _ _ Hs).
  unfold isSnapshotRecent, bind, Date_now, ret, throw.
  destruct (Date_getTime (timestamp s)) as [t|]; [|reflexivity].
  apply Z.ltb_ge in Hage. now rewrite Hage.
Qed.

Lemma getForecast_catch_none w e :
  getSnapshot w = (Ok None, w) -> getForecast_catch e w = (Throw e, w).
Proof.
  intros Hs. unfold getForecast_catch. now rewrite (bind_ok _ _ _ _ _ Hs).
Qed.

(** *** The [try] block *)

Lemma getForecast_try_failed w lat lon units e :
  fetch_failed (open_meteo_api (net w) (forecast_url lat lon units)) e ->
  getForecast_try lat lon units w = (Throw e, after_fetch w (forecast_url lat lon units)).
Proof.
  intros Hf. unfold getForecast_try, bind, fetch.
  inversion Hf as [e' Hnet|code text body Hc Hnet|code text Hc Hnet|code text data Hc Hd Hnet];
    subst; cbv zeta.
  - reflexivity.
  - now rewrite (ok_false code text body Hc).
  - now rewrite (ok_true code text None Hc).
  - rewrite (ok_true code text (Some data) Hc). simpl. now rewrite Hd.
Qed.

Lemma getForecast_try_ok w lat lon units code text data daily :
  open_meteo_api (net w) (forecast_url lat lon units) = Responded code text (Some data) ->
  (200 <= code <= 299)%N ->
  OpenMeteoForecastResponse.daily data = Some daily ->
  getForecast_try lat lon units w
  = (Ok (normalized_forecast data daily (clock w)),
     (saveSnapshot (normalized_forecast data daily (clock w)) (cityName lat lon)
                   (Units_to_string units)
                   (after_fetch w (forecast_url lat lon units))).2).
Proof.
  intros Hnet Hc Hd.
  unfold getForecast_try, bind, fetch, json, ret, Date_now. rewrite Hnet. cbv zeta.
  rewrite (ok_true code text (Some data) Hc). simpl. rewrite Hd.
  change (clock (after_fetch w (forecast_url lat lon units))) with (clock w).
  destruct (saveSnapshot_returns (after_fetch w (forecast_url lat lon units))
              (normalized_forecast data daily (clock w)) (cityName lat lon)
              (Units_to_string units)) as [w' Hsave].
  now rewrite Hsave.
Qed.
End ForecastProperties.

(** A query whose first run returns is not run again. *)
Lemma run_query_ok {A} fuel (queryFn : JS Net A) failureCount w a w' :
  queryFn w = (Ok a, w') -> page.run_query fuel queryFn failureCount w = (Ok a, w').
Proof.
  intros E. destruct fuel as [|fuel]; simpl; [exact E|]. now apply try_catch_ok.
Qed.

Section ForecastFallback.
Context {RT : Runtime} {IC : WeatherIconOpenMeteo} {HM : HourlyModel}
  {JC : Json ForecastSnapshot}.
Implicit Types w : World Net.

(** C1, as amended. Under the Open-Meteo provider, when the forecast fetch
    fails with an error, the snapshot store is read in the world the failed
    request leaves: a snapshot less than 24 hours old is returned with its
    forecast data, marked [_cached] and carrying its own timestamp as
    [_cachedAt], and the query around it then sees a success and does not
    retry; with no snapshot, or one whose age is 24 hours or more (or whose
    timestamp does not parse), the error of the fetch is thrown. *)
Theorem forecast_fallback_open_meteo cfg w lat lon units e :
  PROVIDER cfg = "open-meteo" ->
  fetch_failed (open_meteo_api (net w) (forecast_url lat lon units)) e ->
  let w1 := after_fetch w (forecast_url lat lon units) in
  (forall s t,
      getSnapshot w1 = (Ok (Some s), w1) ->
      Date_getTime (timestamp s) = Some t ->
      (clock w1 - t < twentyFourHours)%Z ->
      exists r,
        getForecast cfg lat lon units w
        = (Ok r, after_log w1 "Using cached forecast data due to network error") /\
        (forall fuel,
            page.run_query fuel (getForecast cfg lat lon units) 0 w
            = (Ok r, after_log w1 "Using cached forecast data due to network error")) /\
        Forecast.timezone_offset r = Forecast.timezone_offset (data s) /\
        Forecast.daily r = Forecast.daily (data s) /\
        Forecast.hourly r = Forecast.hourly (data s) /\
        Forecast._cached r = true /\
        Forecast._cachedAt r = Some (timestamp s)) /\
  (getSnapshot w1 = (Ok None, w1) ->
   getForecast cfg lat lon units w = (Throw e, w1)) /\
  (forall s t,
      getSnapshot w1 = (Ok (Some s), w1) ->
      Date_getTime (timestamp s) = Some t ->
      (twentyFourHours <= clock w1 - t)%Z ->
      getForecast cfg lat lon units w = (Throw e, w1)) /\
  (forall s,
      getSnapshot w1 = (Ok (Some s), w1) ->
      Date_getTime (timestamp s) = None ->
      getForecast cfg lat lon units w = (Throw e, w1)).
Proof.
  intros Hp Hf w1.
  rewrite (getForecast_open_meteo cfg lat lon units Hp).
  pose proof (getForecast_try_failed w lat lon units e Hf) as Htry.
  fold w1 in Htry.
  rewrite (try_catch_throw _ getForecast_catch _ _ _ Htry).
  repeat split.
  - intros s t Hs Ht Hage. exists (served_from_cache s).
    pose proof (getForecast_catch_recent w1 e s t Hs Ht Hage) as Hcatch.
    split; [exact Hcatch|]. split; [|repeat split].
    intros fuel. apply run_query_ok.
    now rewrite (try_catch_throw _ getForecast_catch _ _ _ Htry).
  - apply getForecast_catch_none.
  - intros s t Hs Ht Hage. apply getForecast_catch_stale with s; [exact Hs|].
    now rewrite Ht.
  - intros s Hs Ht. apply getForecast_catch_stale with s; [exact Hs|].
    now rewrite Ht.
Qed.
End ForecastFallback.

(** London, offline, under the default provider: a snapshot saved 2 hours
    ago is served as cached data; one saved 25 hours ago is not, and the
    error of the fetch is thrown. *)
Lemma forecast_fallback_open_meteo_witness :
  let run now :=
    getForecast (RT := demo.runtime) (IC := demo.icons) (HM := demo.hourly)
      (JC := demo.saved_codec) demo.default_config 51.5%Q (-0.12)%Q metric
      (demo.browser demo.offline demo.with_snapshot now) in
  (exists r w', run (demo.saved_at + demo.hours 2)%Z = (Ok r, w') /\
                Forecast.daily r = Forecast.daily demo.saved_forecast /\
                Forecast._cached r = true /\
                Forecast._cachedAt r = Some "1800000000000") /\
  (exists w', run (demo.saved_at + demo.hours 25)%Z = (Throw demo.failed_to_fetch, w')).
Proof.
  intros run. split.
  - destruct (forecast_fallback_open_meteo (RT := demo.runtime) (IC := demo.icons)
                (HM := demo.hourly) (JC := demo.saved_codec) demo.default_config
                (demo.browser demo.offline demo.with_snapshot
                   (demo.saved_at + demo.hours 2)%Z)
                51.5%Q (-0.12)%Q metric demo.failed_to_fetch eq_refl
                (failed_rejected demo.failed_to_fetch))
      as (Hrecent & _).
    destruct (Hrecent demo.saved_snapshot demo.saved_at)
      as (r & Hrun & _ & _ & Hdaily & _ & Hcached & Hat);
      [reflexivity|reflexivity|reflexivity|].
    exists r. eexists. split; [exact Hrun|]. repeat split; assumption.
  - eexists.
    apply (forecast_fallback_open_meteo (RT := demo.runtime) (IC := demo.icons)
             (HM := demo.hourly) (JC := demo.saved_codec) demo.default_config
             (demo.browser demo.offline demo.with_snapshot
                (demo.saved_at + demo.hours 25)%Z)
             51.5%Q (-0.12)%Q metric demo.failed_to_fetch eq_refl
             (failed_rejected demo.failed_to_fetch)) with demo.saved_snapshot demo.saved_at;
      [reflexivity|reflexivity|vm_compute; discriminate].
Defined.

(** C1 as stated fails in two ways. Under the OpenWeatherMap provider a
    failed forecast fetch throws although the store holds a snapshot that is
    2 hours old. Under the Open-Meteo provider the same snapshot is served at
    the first failed request: the query sends one request and never retries,
    so the fallback does not wait for the retries to be exhausted. *)
Lemma forecast_fallback_counterexample :
  let w := demo.browser demo.offline demo.with_snapshot (demo.saved_at + demo.hours 2)%Z in
  getSnapshot (JC := demo.saved_codec) w = (Ok (Some demo.saved_snapshot), w) /\
  isSnapshotRecent (RT := demo.runtime) demo.saved_snapshot w = (Ok true, w) /\
  getForecast (RT := demo.runtime) (IC := demo.icons) (HM := demo.hourly)
    (JC := demo.saved_codec) demo.openweather_config 51.5%Q (-0.12)%Q metric w
  = (Throw demo.failed_to_fetch,
     after_fetch w (onecall_url (RT := demo.runtime) "key" 51.5%Q (-0.12)%Q metric)) /\
  exists w',
    page.run_query 3
      (getForecast (RT := demo.runtime) (IC := demo.icons) (HM := demo.hourly)
         (JC := demo.saved_codec) demo.default_config 51.5%Q (-0.12)%Q metric) 0 w
    = (Ok (served_from_cache demo.saved_snapshot), w') /\
    requests w' = [forecast_url (RT := demo.runtime) 51.5%Q (-0.12)%Q metric] /\
    clock w' = clock w.
Proof.
  intros w. split; [reflexivity|]. split; [reflexivity|]. split; [reflexivity|].
  eexists. split; [reflexivity|]. split; reflexivity.
Qed.

Section ForecastSnapshotWrite.
Context {RT : Runtime} {IC : WeatherIconOpenMeteo} {HM : HourlyModel}
  {JC : Json ForecastSnapshot}.
Implicit Types w : World Net.

(** C6, as amended. Under the Open-Meteo provider, a forecast fetch that
    succeeds returns the normalised forecast, and [saveSnapshot] has run by
    then: where the persistence medium takes the write, the snapshot slot of
    the returned world holds the new forecast tagged with the current
    timestamp, the location key and the units (a load from that world gives
    it back when the medium can be read and the codec round-trips); where
    the medium is unavailable the returned world differs from the initial
    one by the request only. *)
Theorem forecast_success_saves_snapshot cfg w lat lon units code text data daily :
  PROVIDER cfg = "open-meteo" ->
  open_meteo_api (net w) (forecast_url lat lon units) = Responded code text (Some data) ->
  (200 <= code <= 299)%N ->
  OpenMeteoForecastResponse.daily data = Some daily ->
  let forecast := normalized_forecast data daily (clock w) in
  let snapshot :=
    MkSnapshot forecast (Date_toISOString (clock w)) (cityName lat lon)
               (Units_to_string units) in
  exists w',
    getForecast cfg lat lon units w = (Ok forecast, w') /\
    (window w = true -> setItem_throws (localStorage w) = false ->
     items (localStorage w')
     = <[SNAPSHOT_KEY := JSON_stringify snapshot]> (items (localStorage w)) /\
     (getItem_throws (localStorage w) = false ->
      truthy (JSON_stringify snapshot) = true ->
      JSON_parse (JSON_stringify snapshot) = Ok (Some snapshot) ->
      getSnapshot w' = (Ok (Some snapshot), w'))) /\
    (save_unavailable w -> w' = after_fetch w (forecast_url lat lon units)).
Proof.
  intros Hp Hnet Hc Hd forecast snapshot.
  set (w1 := after_fetch w (forecast_url lat lon units)).
  exists (saveSnapshot forecast (cityName lat lon) (Units_to_string units) w1).2.
  split; [|split].
  - rewrite (getForecast_open_meteo cfg lat lon units Hp).
    apply try_catch_ok. now apply getForecast_try_ok with code text.
  - intros Hw Hs.
    rewrite (saveSnapshot_available w1 forecast (cityName lat lon) (Units_to_string units) Hw Hs).
    split; [reflexivity|].
    intros Hg Ht Hparse. simpl.
    erewrite getSnapshot_available;
      [rewrite Hparse; reflexivity|exact Hw|exact Hg|apply lookup_insert_eq|exact Ht].
  - intros Hu.
    now rewrite (saveSnapshot_unavailable w1 forecast (cityName lat lon) (Units_to_string units) Hu).
Qed.
End ForecastSnapshotWrite.

(** London, online, under the default provider, with a working store. *)
Lemma forecast_success_saves_snapshot_witness :
  let w := demo.browser (demo.online demo.london_reply Absent) ∅ demo.saved_at in
  exists w',
    getForecast (RT := demo.runtime) (IC := demo.icons) (HM := demo.hourly)
      (JC := demo.saved_codec) demo.default_config 51.5%Q (-0.12)%Q metric w
    = (Ok demo.saved_forecast, w') /\
    getSnapshot (JC := demo.saved_codec) w' = (Ok (Some demo.saved_snapshot), w').
Proof.
  intros w.
  destruct (forecast_success_saves_snapshot (RT := demo.runtime) (IC := demo.icons)
              (HM := demo.hourly) (JC := demo.saved_codec) demo.default_config w
              51.5%Q (-0.12)%Q metric 200%N "OK" demo.london_reply demo.london_daily
              eq_refl eq_refl ltac:(lia) eq_refl)
    as (w' & Hrun & Hsaved & _).
  exists w'. split; [exact Hrun|].
  destruct (Hsaved eq_refl eq_refl) as [_ Hload].
  apply Hload; reflexivity.
Defined.

(** C6 as stated fails in two ways: with a store that refuses writes the
    forecast is returned and the store is left empty; under the
    OpenWeatherMap provider the forecast is returned and nothing is written
    although the store works. *)
Lemma forecast_snapshot_write_counterexample :
  let full := demo.browser_quota_full (demo.online demo.london_reply Absent) ∅ demo.saved_at in
  let other := demo.browser (demo.openweather_online demo.saved_forecast) ∅ demo.saved_at in
  (exists w',
      getForecast (RT := demo.runtime) (IC := demo.icons) (HM := demo.hourly)
        (JC := demo.saved_codec) demo.default_config 51.5%Q (-0.12)%Q metric full
      = (Ok demo.saved_forecast, w') /\
      items (localStorage w') = ∅ /\
      getSnapshot (JC := demo.saved_codec) w' = (Ok None, w')) /\
  (exists w',
      getForecast (RT := demo.runtime) (IC := demo.icons) (HM := demo.hourly)
        (JC := demo.saved_codec) demo.openweather_config 51.5%Q (-0.12)%Q metric other
      = (Ok demo.saved_forecast, w') /\
      items (localStorage w') = ∅ /\
      getSnapshot (JC := demo.saved_codec) w' = (Ok None, w')).
Proof.
  intros full other. split; eexists; repeat split.
Qed.

(** ** Retry policy of the queries *)

Section RetryProperties.
Import page.

(** X1. The predicate never retries an error object that carries a numeric
    status in 400-499, whatever the failure count. *)
Lemma retry_client_error failureCount e s :
  status e = Some s -> (400 <= s < 500)%Z -> retry failureCount e = false.
Proof.
  intros Hs [Hlo Hhi]. unfold retry. rewrite Hs.
  apply Z.leb_le in Hlo. apply Z.ltb_lt in Hhi. now rewrite Hlo, Hhi.
Qed.

(** Any other error is retried after the first failure only. *)
Lemma retry_other failureCount e :
  match status e with
  | Some s => ~ (400 <= s < 500)%Z
  | None => True
  end ->
  retry failureCount e = (failureCount <? 1)%nat.
Proof.
  unfold retry. destruct (status e) as [s|]; [|reflexivity]. intros Hs.
  destruct ((400 <=? s)%Z && (s <? 500)%Z) eqn:E; [|reflexivity].
  apply andb_true_iff in E as [Hlo%Z.leb_le Hhi%Z.ltb_lt]. now destruct Hs.
Qed.

Lemma retry_at_most_once failureCount e : retry (S failureCount) e = false.
Proof.
  unfold retry. destruct (status e) as [s|]; [|reflexivity].
  now destruct ((400 <=? s)%Z && (s <? 500)%Z).
Qed.

(** An [Error] built from a message has no status: it is retried once. *)
Lemma retry_Error msg : retry 0 (Error msg) = true.
Proof. reflexivity. Qed.

(** X2. The delay before retry attempt [n] is the minimum of 1000 * 2^n and
    30000 milliseconds; it lies between 1000 and 30000. *)
Lemma retryDelay_spec attemptIndex :
  retryDelay attemptIndex = Z.min (1000 * 2 ^ Z.of_nat attemptIndex) 30000 /\
  (1000 <= retryDelay attemptIndex <= 30000)%Z.
Proof.
  split; [reflexivity|]. unfold retryDelay.
  assert (1 <= 2 ^ Z.of_nat attemptIndex)%Z.
  { change 1%Z with (2 ^ 0)%Z. apply Z.pow_le_mono_r; lia. }
  lia.
Qed.

Context {Net : Type}.
Implicit Types w : World Net.

Lemma try_catch_rethrow {A} (m : JS Net A) w :
  try_catch m (fun error => throw error) w = m w.
Proof. unfold try_catch, throw. now destruct (m w) as [[a|e] w']. Qed.

End RetryProperties.

Section QueryRetry.
Import page.
Context {RT : Runtime} {IC : WeatherIconOpenMeteo}.
Implicit Types w : World Net.

(** One unit of fuel is enough: the predicate refuses a second retry. *)
Lemma run_query_enough_fuel {A} fuel (queryFn : JS Net A) w :
  run_query (S fuel) queryFn 0 w = run_query 1 queryFn 0 w.
Proof.
  simpl. unfold try_catch. destruct (queryFn w) as [[a|e] w1]; [reflexivity|].
  destruct (retry 0 e); [|reflexivity].
  unfold bind, sleep. destruct fuel as [|fuel]; [reflexivity|].
  simpl. unfold try_catch.
  destruct (queryFn (after_sleep w1 (retryDelay 0))) as [[a|e'] w2]; [reflexivity|].
  now rewrite retry_at_most_once.
Qed.

(** Whatever the status of a failed HTTP exchange, the current-weather query
    is run a second time, one [retryDelay 0] later. *)
Lemma run_query_http_error fuel w lat lon units code text body :
  open_meteo_api (net w) (current_url lat lon units) = Responded code text body ->
  ~ (200 <= code <= 299)%N ->
  let url := current_url lat lon units in
  run_query (S fuel) (getCurrentOpenMeteo lat lon units) 0 w
  = (Throw (Error ("Failed to fetch current weather: " +:+ show_N code +:+ " " +:+ text)),
     after_fetch (after_sleep (after_fetch w url) (retryDelay 0)) url).
Proof.
  intros Hnet Hcode url. rewrite run_query_enough_fuel. simpl.
  rewrite (try_catch_throw _ _ _ _ _
             (getCurrentOpenMeteo_http_error w lat lon units code text body Hnet Hcode)).
  rewrite retry_Error. unfold bind, sleep.
  now apply getCurrentOpenMeteo_http_error with body.
Qed.
End QueryRetry.

(** C2, at the failing input. Open-Meteo answers 404 to the current-weather
    request for London: the error thrown has no [status], the predicate
    asks for a retry, and the query sends the request twice, one second
    apart, before the error surfaces. *)
Theorem http_404_is_retried :
  let st := page.MkState (Some demo.london) metric None None in
  let w := demo.browser (demo.answering 404 "Not Found") ∅ 0 in
  let url := current_url (RT := demo.runtime) 51.5%Q (-0.12)%Q metric in
  let error := Error "Failed to fetch current weather: 404 Not Found" in
  status error = None /\
  page.retry 0 error = true /\
  forall fuel,
    page.run_query (S fuel)
      (page.current_queryFn (RT := demo.runtime) (IC := demo.icons) demo.default_config st)
      0 w
    = (Throw error,
       MkWorld true (localStorage w) (page.retryDelay 0) (net w) [url; url] []).
Proof.
  intros st w url error. split; [reflexivity|]. split; [reflexivity|].
  intros fuel. rewrite run_query_enough_fuel. reflexivity.
Qed.

(** ** Query keys and the display unit *)

Section KeyProperties.
Import page queryKeys.

Lemma Qeq_bool_same x : Qeq_bool x x = true.
Proof. apply Qeq_bool_iff. reflexivity. Qed.

Lemma matches_same key : matches key key = true.
Proof.
  induction key as [|[s|x] key IH]; simpl; [reflexivity| |].
  - now rewrite String.eqb_refl.
  - now rewrite Qeq_bool_same.
Qed.

(** The keys both queries are looked up and stored under do not mention
    the display unit: changing it leaves them as they were. *)
Lemma handleUnitsChange_keeps_keys st newUnits :
  current_queryKey (handleUnitsChange st newUnits) = current_queryKey st /\
  forecast_queryKey (handleUnitsChange st newUnits) = forecast_queryKey st.
Proof. split; reflexivity. Qed.

(** The unit in the keys of both queries is the canonical one. *)
Lemma query_keys_metric st city :
  selectedCity st = Some city ->
  current_queryKey st = current (GeoPoint.lat city) (GeoPoint.lon city) metric /\
  forecast_queryKey st = forecast (GeoPoint.lat city) (GeoPoint.lon city) metric.
Proof. intros E. unfold current_queryKey, forecast_queryKey. now rewrite E. Qed.

(** With metric on display the retry handler invalidates both queries. *)
Lemma handleRetry_metric st city :
  selectedCity st = Some city -> units st = metric ->
  handleRetry st = [current_queryKey st; forecast_queryKey st].
Proof.
  intros Ec Eu. unfold handleRetry, current_queryKey, forecast_queryKey.
  now rewrite Ec, Eu.
Qed.

(** With imperial on display the keys it invalidates match neither query. *)
Lemma handleRetry_imperial st city :
  selectedCity st = Some city -> units st = imperial ->
  forall filter, filter ∈ handleRetry st ->
    matches filter (current_queryKey st) = false /\
    matches filter (forecast_queryKey st) = false.
Proof.
  intros Ec Eu filter Hin. unfold handleRetry, current_queryKey, forecast_queryKey in *.
  rewrite Ec in *. rewrite Eu in Hin.
  apply elem_of_cons in Hin as [->|Hin]; [|apply elem_of_cons in Hin as [->|Hin]].
  - simpl. now rewrite !Qeq_bool_same.
  - simpl. now rewrite !Qeq_bool_same.
  - now apply elem_of_nil in Hin.
Qed.
End KeyProperties.

(** C3, at the failing input. London is selected and the display unit is
    imperial: the queries are cached under keys whose unit is metric, while
    the retry handler invalidates keys whose unit is imperial, and these
    match neither cached query. *)
Theorem handleRetry_imperial_misses_cache :
  let st := page.MkState (Some demo.london) imperial None None in
  page.current_queryKey st = queryKeys.current 51.5%Q (-0.12)%Q metric /\
  page.forecast_queryKey st = queryKeys.forecast 51.5%Q (-0.12)%Q metric /\
  page.handleRetry st
  = [queryKeys.current 51.5%Q (-0.12)%Q imperial;
     queryKeys.forecast 51.5%Q (-0.12)%Q imperial] /\
  forallb (fun filter =>
             negb (queryKeys.matches filter (page.current_queryKey st))
             && negb (queryKeys.matches filter (page.forecast_queryKey st)))
          (page.handleRetry st) = true.
Proof. intros st. repeat split. Qed.

(** ** Concrete runs *)

(** A browser in a private mode where every [localStorage] method throws,
    with a snapshot left in the store: saving and clearing change nothing
    and loading answers [null], as it does for an empty store. *)
Lemma snapshot_store_silent_witness :
  let private :=
    MkWorld true (MkMedium true true true demo.with_snapshot) demo.saved_at
            demo.offline [] [] in
  let empty := demo.browser demo.offline ∅ demo.saved_at in
  saveSnapshot (RT := demo.runtime) (JC := demo.saved_codec)
    demo.saved_forecast "London" "metric" private = (Ok tt, private) /\
  clearSnapshot private = (Ok tt, private) /\
  getSnapshot (JC := demo.saved_codec) private = (Ok None, private) /\
  getSnapshot (JC := demo.saved_codec) empty = (Ok None, empty).
Proof.
  intros private empty.
  pose proof (snapshot_store_silent (RT := demo.runtime) (JC := demo.saved_codec)
                private demo.saved_forecast "London" "metric")
    as (_ & _ & _ & Hsave & Hclear & Hload & _).
  pose proof (snapshot_store_silent (RT := demo.runtime) (JC := demo.saved_codec)
                empty demo.saved_forecast "London" "metric")
    as (_ & _ & _ & _ & _ & _ & Hempty).
  split; [apply Hsave; right; reflexivity|].
  split; [apply Hclear; right; reflexivity|].
  split; [apply Hload; right; reflexivity|].
  apply Hempty. reflexivity.
Defined.

(** An error object with status 404 is refused a retry at every count. *)
Lemma retry_client_error_witness :
  page.retry 0 (MkError "Not Found" (Some 404%Z)) = false /\
  page.retry 1 (MkError "Not Found" (Some 404%Z)) = false.
Proof.
  split; apply (retry_client_error _ (MkError "Not Found" (Some 404%Z)) 404);
    [reflexivity|lia|reflexivity|lia].
Defined.

(** * More of the code *)

(** ** The storage helpers, equationally *)

Section StorageEquations.
Context {RT : Runtime} {Net : Type}.
Implicit Types w : World Net.

Lemma getJSON_eq {T} {J : Json T} key w : getJSON key w = (Ok (stored w key), w).
Proof.
  unfold stored.
  destruct (window w) eqn:Ew, (getItem_throws (localStorage w)) eqn:Eg;
    js_run; try reflexivity.
  destruct (items (localStorage w) !! key) as [text|]; simpl; [|reflexivity].
  destruct (truthy text); simpl; [|reflexivity].
  unfold of_exc. destruct (JSON_parse text); reflexivity.
Qed.

Lemma setJSON_eq {T} {J : Json T} key (v : T) w :
  setJSON key v w = (Ok tt, if can_write w then put w key (JSON_stringify v) else w).
Proof.
  unfold can_write, put.
  destruct (window w) eqn:Ew, (setItem_throws (localStorage w)) eqn:Es;
    js_run; reflexivity.
Qed.

Lemma removeKey_eq key w :
  removeKey key w = (Ok tt, if can_remove w then without w key else w).
Proof.
  unfold can_remove, without.
  destruct (window w) eqn:Ew, (removeItem_throws (localStorage w)) eqn:Es;
    js_run; reflexivity.
Qed.

Lemma stored_put_same {T} {J : Json T} w key (v : T) :
  window w = true -> getItem_throws (localStorage w) = false -> round_trips v ->
  stored (put w key (JSON_stringify v)) key = Some v.
Proof.
  intros Ew Eg [Ht Hp]. unfold stored, put. simpl. rewrite Ew, Eg. simpl.
  rewrite lookup_insert_eq, Ht, Hp. reflexivity.
Qed.

Lemma stored_put_other {T} {J : Json T} w key key' text :
  key' <> key -> stored (T := T) (put w key text) key' = stored w key'.
Proof.
  intros Hne. unfold stored, put. simpl. now rewrite lookup_insert_ne.
Qed.

Lemma stored_without_same {T} {J : Json T} w key :
  stored (T := T) (without w key) key = None.
Proof.
  unfold stored, without. simpl. rewrite lookup_delete_eq.
  now destruct (window w && negb (getItem_throws (localStorage w))).
Qed.

Lemma stored_without_other {T} {J : Json T} w key key' :
  key' <> key -> stored (T := T) (without w key) key' = stored w key'.
Proof.
  intros Hne. unfold stored, without. simpl. now rewrite lookup_delete_ne.
Qed.

Lemma stored_no_window {T} {J : Json T} w key :
  window w = false -> stored (T := T) w key = None.
Proof. intros E. unfold stored. now rewrite E. Qed.

Lemma only_key_changed_refl key w : only_key_changed key w w.
Proof. unfold only_key_changed. tauto. Qed.

Lemma only_key_changed_put key w text : only_key_changed key w (put w key text).
Proof.
  unfold only_key_changed, put. simpl. repeat split; try reflexivity.
  intros k Hk. now apply lookup_insert_ne.
Qed.

Lemma only_key_changed_without key w : only_key_changed key w (without w key).
Proof.
  unfold only_key_changed, without. simpl. repeat split; try reflexivity.
  intros k Hk. now apply lookup_delete_ne.
Qed.

Lemma store_works_can_write w : store_works w -> can_write w = true.
Proof. intros (Ew & _ & Es & _). unfold can_write. now rewrite Ew, Es. Qed.

Lemma store_works_can_remove w : store_works w -> can_remove w = true.
Proof. intros (Ew & _ & _ & Er). unfold can_remove. now rewrite Ew, Er. Qed.
End StorageEquations.

#[global] Hint Rewrite @getJSON_eq @setJSON_eq @removeKey_eq : js_store.

Section StorageListEquations.
Context {RT : Runtime} {Net : Type}.
Context {JR : Json (list GeoPoint.t)} {JF : Json (list FavoriteCity.t)}
  {JL : Json LastGeo.t} {JC : Json ForecastSnapshot}.
Implicit Types w : World Net.

Lemma getRecentSearches_eq w :
  getRecentSearches w = (Ok (default [] (stored w RECENT_KEY)), w).
Proof.
  unfold getRecentSearches. destruct (window w) eqn:Ew; js_step; rewrite Ew; js_step.
  - reflexivity.
  - now rewrite (stored_no_window w RECENT_KEY Ew).
Qed.

Lemma addRecentSearch_eq city w :
  addRecentSearch city w
  = (Ok tt,
     if can_write w
     then put w RECENT_KEY
            (JSON_stringify (limited city (default [] (stored w RECENT_KEY))))
     else w).
Proof.
  unfold addRecentSearch. destruct (window w) eqn:Ew; js_step; rewrite Ew; simpl.
  - rewrite getRecentSearches_eq. js_step. now destruct (can_write w).
  - unfold can_write. now rewrite Ew.
Qed.

Lemma clearRecentSearches_eq w :
  clearRecentSearches w = (Ok tt, if can_remove w then without w RECENT_KEY else w).
Proof.
  unfold clearRecentSearches. destruct (window w) eqn:Ew; js_step; rewrite Ew; js_step.
  - now destruct (can_remove w).
  - unfold can_remove. now rewrite Ew.
Qed.

Lemma getFavorites_eq w :
  getFavorites w = (Ok (default [] (stored w FAVORITES_KEY)), w).
Proof.
  unfold getFavorites. destruct (window w) eqn:Ew; js_step; rewrite Ew; js_step.
  - reflexivity.
  - now rewrite (stored_no_window w FAVORITES_KEY Ew).
Qed.

Lemma isFavorite_eq city w :
  isFavorite city w
  = (Ok (existsb (same_city city) (default [] (stored w FAVORITES_KEY))), w).
Proof.
  unfold isFavorite. destruct (window w) eqn:Ew; js_step; rewrite Ew; simpl.
  - rewrite getFavorites_eq. reflexivity.
  - now rewrite (stored_no_window w FAVORITES_KEY Ew).
Qed.

Lemma addFavorite_eq city w :
  addFavorite city w
  = let favorites := default [] (stored w FAVORITES_KEY) in
    if negb (window w) || existsb (same_city city) favorites
    then (Ok false, w)
    else (Ok true,
          if can_write w
          then put w FAVORITES_KEY
                 (JSON_stringify
                    (take MAX_FAVORITES
                       (newFavorite city (Date_toISOString (clock w)) :: favorites)))
          else w).
Proof.
  unfold addFavorite. destruct (window w) eqn:Ew; js_step; rewrite Ew; simpl;
    [|reflexivity].
  rewrite getFavorites_eq.
  destruct (existsb (same_city city) (default [] (stored w FAVORITES_KEY))); [reflexivity|].
  js_step. now destruct (can_write w).
Qed.

Lemma removeFavorite_eq city w :
  removeFavorite city w
  = if window w
    then (Ok true,
          if can_write w
          then put w FAVORITES_KEY
                 (JSON_stringify
                    (List.filter (fun fav => negb (same_city city fav))
                                 (default [] (stored w FAVORITES_KEY))))
          else w)
    else (Ok false, w).
Proof.
  unfold removeFavorite. destruct (window w) eqn:Ew; js_step; rewrite Ew; simpl;
    [|reflexivity].
  rewrite getFavorites_eq. js_step. now destruct (can_write w).
Qed.

Lemma clearFavorites_eq w :
  clearFavorites w = (Ok tt, if can_remove w then without w FAVORITES_KEY else w).
Proof.
  unfold clearFavorites. destruct (window w) eqn:Ew; js_step; rewrite Ew; js_step.
  - now destruct (can_remove w).
  - unfold can_remove. now rewrite Ew.
Qed.

Lemma getLastGeo_eq w : getLastGeo w = (Ok (stored w LAST_GEO_KEY), w).
Proof.
  unfold getLastGeo. destruct (window w) eqn:Ew; js_step; rewrite Ew; js_step.
  - reflexivity.
  - now rewrite (stored_no_window w LAST_GEO_KEY Ew).
Qed.

Lemma setLastGeo_eq lat lon label w :
  setLastGeo lat lon label w
  = (Ok tt,
     if can_write w
     then put w LAST_GEO_KEY
            (JSON_stringify (LastGeo.mk lat lon label (Date_toISOString (clock w))))
     else w).
Proof.
  unfold setLastGeo. destruct (window w) eqn:Ew; js_step; rewrite Ew; js_step.
  - now destruct (can_write w).
  - unfold can_write. now rewrite Ew.
Qed.

Lemma clearLastGeo_eq w :
  clearLastGeo w = (Ok tt, if can_remove w then without w LAST_GEO_KEY else w).
Proof.
  unfold clearLastGeo. destruct (window w) eqn:Ew; js_step; rewrite Ew; js_step.
  - now destruct (can_remove w).
  - unfold can_remove. now rewrite Ew.
Qed.

Lemma getSnapshot_eq w : getSnapshot w = (Ok (stored w SNAPSHOT_KEY), w).
Proof.
  unfold getSnapshot. destruct (window w) eqn:Ew; js_step; rewrite Ew; js_step.
  - reflexivity.
  - now rewrite (stored_no_window w SNAPSHOT_KEY Ew).
Qed.

Lemma saveSnapshot_eq d city units w :
  saveSnapshot d city units w
  = (Ok tt,
     if can_write w
     then put w SNAPSHOT_KEY
            (JSON_stringify (MkSnapshot d (Date_toISOString (clock w)) city units))
     else w).
Proof.
  unfold saveSnapshot. destruct (window w) eqn:Ew; js_step; rewrite Ew; js_step.
  - now destruct (can_write w).
  - unfold can_write. now rewrite Ew.
Qed.

Lemma clearSnapshot_eq w :
  clearSnapshot w = (Ok tt, if can_remove w then without w SNAPSHOT_KEY else w).
Proof.
  unfold clearSnapshot. destruct (window w) eqn:Ew; js_step; rewrite Ew; js_step.
  - now destruct (can_remove w).
  - unfold can_remove. now rewrite Ew.
Qed.
End StorageListEquations.

(** ** Recent searches *)

Section ListFacts.
Context {A : Type}.
Implicit Types (f : A -> bool) (l : list A).

Lemma filter_bool_sublist f l : List.filter f l `sublist_of` l.
Proof.
  induction l as [|x l IH]; simpl; [constructor|].
  destruct (f x); now constructor.
Qed.

Lemma filter_bool_Forall f l : Forall (fun x => f x = true) (List.filter f l).
Proof.
  induction l as [|x l IH]; simpl; [constructor|].
  destruct (f x) eqn:E; [constructor|]; assumption.
Qed.

Lemma filter_bool_id f l : Forall (fun x => f x = true) l -> List.filter f l = l.
Proof.
  induction 1 as [|x l Hx Hl IH]; simpl; [reflexivity|]. now rewrite Hx, IH.
Qed.

Lemma Forall_take_of n l (P : A -> Prop) : Forall P l -> Forall P (take n l).
Proof. apply Forall_take. Qed.

Lemma existsb_filter_negb f l :
  existsb f (List.filter (fun x => negb (f x)) l) = false.
Proof.
  induction l as [|x l IH]; simpl; [reflexivity|].
  destruct (f x) eqn:E; simpl; [exact IH|]. now rewrite E.
Qed.
End ListFacts.

Lemma elsewhere_self city : elsewhere city city = false.
Proof. unfold elsewhere. now rewrite !Qeq_bool_same. Qed.

Lemma limited_unfold city recent :
  limited city recent = city :: take 5 (List.filter (elsewhere city) recent).
Proof. reflexivity. Qed.

(** X4. What [addRecentSearch] stores: at most six entries, the new city
    first, none of the others at the new city's coordinates, the others in
    the order they had; storing the same city again changes nothing. *)
Theorem limited_recent_spec city recent :
  length (limited city recent) <= 6 /\
  head (limited city recent) = Some city /\
  Forall (fun p => elsewhere city p = true) (tail (limited city recent)) /\
  tail (limited city recent) `sublist_of` recent /\
  limited city (limited city recent) = limited city recent.
Proof.
  rewrite limited_unfold. simpl tail. simpl head.
  split; [simpl; rewrite length_take; lia|].
  split; [reflexivity|].
  split; [apply Forall_take, filter_bool_Forall|].
  split.
  - transitivity (List.filter (elsewhere city) recent);
      [apply sublist_take|apply filter_bool_sublist].
  - rewrite limited_unfold. simpl List.filter. rewrite elsewhere_self.
    rewrite filter_bool_id by apply Forall_take, filter_bool_Forall.
    now rewrite take_take.
Qed.

Section RecentProperties.
Context {RT : Runtime} {Net : Type} {JR : Json (list GeoPoint.t)}.
Implicit Types w : World Net.

(** X5. In a store that works, after [addRecentSearch city] the recent
    searches read back are the previous ones with the city moved (or added)
    to the front and the list cut to six. *)
Theorem addRecentSearch_then_get city w previous :
  store_works w ->
  getRecentSearches w = (Ok previous, w) ->
  round_trips (limited city previous) ->
  exists w',
    addRecentSearch city w = (Ok tt, w') /\
    getRecentSearches w' = (Ok (limited city previous), w').
Proof.
  intros Hw Hprev Hrt. pose proof Hw as (Ew & Eg & _).
  rewrite getRecentSearches_eq in Hprev. injection Hprev as Hprev.
  eexists. split.
  - rewrite addRecentSearch_eq, (store_works_can_write w Hw), Hprev. reflexivity.
  - rewrite getRecentSearches_eq, (stored_put_same w RECENT_KEY _ Ew Eg Hrt).
    reflexivity.
Qed.
End RecentProperties.

(** ** [pushUnique] *)

Section PushUnique.
Context {T : Type} `{EqDecision T}.
Implicit Types (array : list T) (item : T).

Lemma pushUnique_nonneg array item maxLength :
  (0 <= maxLength)%Z ->
  pushUnique array item maxLength
  = take (Z.to_nat maxLength)
         (item :: List.filter (fun existing => negb (bool_decide (existing = item))) array).
Proof.
  intros H0. unfold pushUnique, slice0.
  destruct (maxLength <? 0)%Z eqn:E; [apply Z.ltb_lt in E; lia|reflexivity].
Qed.

Lemma filter_ne_NoDup array item :
  NoDup array ->
  NoDup (item :: List.filter (fun existing => negb (bool_decide (existing = item))) array).
Proof.
  intros Hnd. constructor.
  - intros Hin. apply list_elem_of_In, filter_In in Hin as [_ Hne].
    now rewrite bool_decide_eq_true_2 in Hne.
  - eapply sublist_NoDup; [exact Hnd|apply filter_bool_sublist].
Qed.

(** X6. [pushUnique] with a non-negative [maxLength] returns at most
    [maxLength] elements, the item first when there is room for one, every
    element being the item or an element of the array; a duplicate-free
    array stays duplicate-free; pushing the same item again changes nothing.
    With a negative [maxLength] JavaScript's [slice] counts from the end, so
    elements are dropped from the end instead. *)
Theorem pushUnique_spec array item maxLength :
  ((0 <= maxLength)%Z -> length (pushUnique array item maxLength) <= Z.to_nat maxLength) /\
  ((1 <= maxLength)%Z -> head (pushUnique array item maxLength) = Some item) /\
  (forall x, x ∈ pushUnique array item maxLength -> x = item \/ x ∈ array) /\
  (NoDup array -> NoDup (pushUnique array item maxLength)) /\
  ((0 <= maxLength)%Z ->
   pushUnique (pushUnique array item maxLength) item maxLength
   = pushUnique array item maxLength) /\
  ((maxLength < 0)%Z ->
   length (pushUnique array item maxLength)
   = Z.to_nat
       (Z.of_nat (S (length (List.filter (fun existing => negb (bool_decide (existing = item)))
                                         array))) + maxLength)).
Proof.
  set (rest := List.filter (fun existing => negb (bool_decide (existing = item))) array).
  assert (Hsub : forall n, take n (item :: rest) `sublist_of` item :: rest)
    by (intros n; apply sublist_take).
  assert (Hshape : exists n, pushUnique array item maxLength = take n (item :: rest)).
  { unfold pushUnique, slice0. fold rest. destruct (maxLength <? 0)%Z; eauto. }
  split; [|split; [|split; [|split; [|split]]]].
  - intros H0. rewrite (pushUnique_nonneg array item maxLength H0), length_take. lia.
  - intros H1. rewrite pushUnique_nonneg by lia.
    destruct (Z.to_nat maxLength) as [|n] eqn:E; [lia|reflexivity].
  - intros x Hx. destruct Hshape as [n Hn]. rewrite Hn in Hx.
    apply (fun H => elem_of_sublist _ _ x H (Hsub n)) in Hx.
    apply elem_of_cons in Hx as [->|Hx]; [now left|right].
    apply list_elem_of_In. apply list_elem_of_In, filter_In in Hx. tauto.
  - intros Hnd. destruct Hshape as [n Hn]. rewrite Hn.
    eapply sublist_NoDup; [|apply Hsub]. now apply filter_ne_NoDup.
  - intros H0. rewrite !(pushUnique_nonneg _ item maxLength H0). fold rest.
    destruct (Z.to_nat maxLength) as [|n]; [reflexivity|].
    simpl. rewrite bool_decide_eq_true_2 by reflexivity. simpl. f_equal.
    rewrite filter_bool_id.
    + rewrite take_take. f_equal. lia.
    + apply Forall_take. subst rest. apply filter_bool_Forall.
  - intros Hneg. unfold pushUnique, slice0. fold rest.
    apply Z.ltb_lt in Hneg as Hneg'. rewrite Hneg'. rewrite length_take. simpl length. lia.
Qed.
End PushUnique.

(** ** Favorites *)

(** A double that is not [NaN] and not infinite is a zero or a finite
    number in the specification of the kernel's floats. *)
Lemma is_finite_shape x :
  PrimFloat.is_finite x = true ->
  (exists s, Prim2SF x = S754_zero s) \/ (exists s m e, Prim2SF x = S754_finite s m e).
Proof.
  unfold PrimFloat.is_finite. intros H.
  apply negb_true_iff, orb_false_iff in H as [Hn Hi].
  unfold Prim2SF. rewrite Hn, Hi.
  destruct (is_zero x); [left; eauto|].
  destruct (Z.frexp x) as [r exp].
  destruct (shr_fexp _ _ _ _ _) as [shr e'].
  destruct (shr_m shr); [left|right|left]; eauto.
Qed.

(** [x - x] is [+0] for such a double. *)
Lemma sub_self_zero x :
  PrimFloat.is_finite x = true -> Prim2SF (PrimFloat.sub x x) = S754_zero false.
Proof.
  intros H. rewrite sub_spec. unfold SF64sub.
  destruct (is_finite_shape x H) as [[s ->]|(s & m & e & ->)].
  - now destruct s.
  - unfold SFsub. cbv zeta. now rewrite Z.sub_diag.
Qed.

Lemma within_a_thousandth_self x :
  PrimFloat.is_finite x = true -> within_a_thousandth x x = true.
Proof.
  intros H. unfold within_a_thousandth.
  rewrite ltb_spec, abs_spec, (sub_self_zero x H). vm_compute. reflexivity.
Qed.

Lemma same_city_newFavorite city addedAt :
  PrimFloat.is_finite (City.lat city) = true ->
  PrimFloat.is_finite (City.lon city) = true ->
  same_city city (newFavorite city addedAt) = true.
Proof.
  intros Hlat Hlon. unfold same_city, newFavorite.
  cbn [FavoriteCity.name FavoriteCity.country FavoriteCity.lat FavoriteCity.lon].
  now rewrite !String.eqb_refl, (within_a_thousandth_self _ Hlat),
    (within_a_thousandth_self _ Hlon).
Qed.

Section FavoriteProperties.
Context {RT : Runtime} {Net : Type} {JF : Json (list FavoriteCity.t)}.
Implicit Types w : World Net.

(** X7. In a store that works, adding a city that matches no favorite
    returns [true]; the favorites read back are the new entry, stamped with
    the current time, followed by the previous ones, cut to eight (so with
    eight stored the oldest is dropped). When the city's coordinates are
    numbers (neither [NaN] nor infinite), [isFavorite] then holds. The match
    is the code's test on doubles. *)
Theorem addFavorite_then_isFavorite city w favorites :
  store_works w ->
  getFavorites w = (Ok favorites, w) ->
  existsb (same_city city) favorites = false ->
  let updated :=
    take MAX_FAVORITES (newFavorite city (Date_toISOString (clock w)) :: favorites) in
  round_trips updated ->
  exists w',
    addFavorite city w = (Ok true, w') /\
    getFavorites w' = (Ok updated, w') /\
    length updated <= 8 /\
    (PrimFloat.is_finite (City.lat city) = true ->
     PrimFloat.is_finite (City.lon city) = true ->
     isFavorite city w' = (Ok true, w')).
Proof.
  intros Hw Hfav Hnew updated Hrt. pose proof Hw as (Ew & Eg & _).
  rewrite getFavorites_eq in Hfav. injection Hfav as Hfav.
  exists (put w FAVORITES_KEY (JSON_stringify updated)). split; [|split; [|split]].
  - rewrite addFavorite_eq. cbv zeta. rewrite Hfav, Hnew, Ew. simpl.
    rewrite (store_works_can_write w Hw). reflexivity.
  - rewrite getFavorites_eq.
    now rewrite (stored_put_same w FAVORITES_KEY updated Ew Eg Hrt).
  - unfold updated. rewrite length_take. unfold MAX_FAVORITES. lia.
  - intros Hlat Hlon. rewrite isFavorite_eq.
    rewrite (stored_put_same w FAVORITES_KEY updated Ew Eg Hrt). simpl.
    now rewrite (same_city_newFavorite city _ Hlat Hlon).
Qed.

(** X8. A city is refused as a favorite when a stored favorite has its
    name and country and the code's test on doubles,
    [Math.abs(fav.lat - city.lat) < 0.001] and the same for the longitude,
    holds: [addFavorite] returns [false] and writes nothing, and
    [isFavorite] holds for the city. In particular a stored favorite with
    coordinates that are numbers is refused when added again. *)
Theorem addFavorite_duplicate_refused city w favorites fav :
  getFavorites w = (Ok favorites, w) ->
  fav ∈ favorites ->
  FavoriteCity.name fav = City.name city ->
  FavoriteCity.country fav = City.country city ->
  (PrimFloat.ltb (PrimFloat.abs (PrimFloat.sub (FavoriteCity.lat fav) (City.lat city)))
                 0.001%float = true
   \/ FavoriteCity.lat fav = City.lat city /\ PrimFloat.is_finite (City.lat city) = true) ->
  (PrimFloat.ltb (PrimFloat.abs (PrimFloat.sub (FavoriteCity.lon fav) (City.lon city)))
                 0.001%float = true
   \/ FavoriteCity.lon fav = City.lon city /\ PrimFloat.is_finite (City.lon city) = true) ->
  addFavorite city w = (Ok false, w) /\ isFavorite city w = (Ok true, w).
Proof.
  intros Hfav Hin Hname Hcountry Hlat Hlon.
  rewrite getFavorites_eq in Hfav. injection Hfav as Hfav.
  assert (Hlat' : within_a_thousandth (FavoriteCity.lat fav) (City.lat city) = true).
  { destruct Hlat as [Hlat|[-> Hfin]]; [exact Hlat|now apply within_a_thousandth_self]. }
  assert (Hlon' : within_a_thousandth (FavoriteCity.lon fav) (City.lon city) = true).
  { destruct Hlon as [Hlon|[-> Hfin]]; [exact Hlon|now apply within_a_thousandth_self]. }
  assert (Hdup : existsb (same_city city) favorites = true).
  { apply existsb_exists. exists fav. split; [now apply list_elem_of_In|].
    unfold same_city. rewrite Hname, Hcountry, !String.eqb_refl.
    now rewrite Hlat', Hlon'. }
  split.
  - rewrite addFavorite_eq. cbv zeta. rewrite Hfav, Hdup. now rewrite orb_true_r.
  - rewrite isFavorite_eq. now rewrite Hfav, Hdup.
Qed.

(** X9. When the store can be read but refuses writes, [addFavorite] still
    returns [true] for a new city, although nothing was stored: the world is
    unchanged and [isFavorite] keeps answering [false]. *)
Theorem addFavorite_success_unpersisted city w favorites :
  window w = true ->
  setItem_throws (localStorage w) = true ->
  getFavorites w = (Ok favorites, w) ->
  existsb (same_city city) favorites = false ->
  addFavorite city w = (Ok true, w) /\ isFavorite city w = (Ok false, w).
Proof.
  intros Ew Es Hfav Hnew. rewrite getFavorites_eq in Hfav. injection Hfav as Hfav.
  split.
  - rewrite addFavorite_eq. cbv zeta. rewrite Hfav, Hnew, Ew. simpl.
    unfold can_write. now rewrite Ew, Es.
  - rewrite isFavorite_eq. now rewrite Hfav, Hnew.
Qed.

(** X10. In a store that works, [removeFavorite] returns [true] whether or
    not the city was a favorite, keeps exactly the favorites that do not
    match the city, in their order, and [isFavorite] then answers [false]. *)
Theorem removeFavorite_then_not_favorite city w favorites :
  store_works w ->
  getFavorites w = (Ok favorites, w) ->
  let kept := List.filter (fun fav => negb (same_city city fav)) favorites in
  round_trips kept ->
  exists w',
    removeFavorite city w = (Ok true, w') /\
    getFavorites w' = (Ok kept, w') /\
    isFavorite city w' = (Ok false, w').
Proof.
  intros Hw Hfav kept Hrt. pose proof Hw as (Ew & Eg & _).
  rewrite getFavorites_eq in Hfav. injection Hfav as Hfav.
  exists (put w FAVORITES_KEY (JSON_stringify kept)). split; [|split].
  - rewrite removeFavorite_eq, Ew, (store_works_can_write w Hw), Hfav. reflexivity.
  - rewrite getFavorites_eq.
    now rewrite (stored_put_same w FAVORITES_KEY kept Ew Eg Hrt).
  - rewrite isFavorite_eq.
    rewrite (stored_put_same w FAVORITES_KEY kept Ew Eg Hrt). simpl.
    unfold kept. now rewrite existsb_filter_negb.
Qed.
End FavoriteProperties.

(** ** Last location and the snapshot slot *)

Section SlotProperties.
Context {RT : Runtime} {Net : Type} {JL : Json LastGeo.t} {JC : Json ForecastSnapshot}.
Implicit Types w : World Net.

(** X11. In a store that works, the location saved by [setLastGeo] is read
    back by [getLastGeo] with the time of the save, whatever was stored
    before; after [clearLastGeo] nothing is read back. *)
Theorem lastGeo_round_trip lat lon label w :
  store_works w ->
  let saved := LastGeo.mk lat lon label (Date_toISOString (clock w)) in
  round_trips saved ->
  (exists w', setLastGeo lat lon label w = (Ok tt, w') /\
              getLastGeo w' = (Ok (Some saved), w')) /\
  (exists w', clearLastGeo w = (Ok tt, w') /\ getLastGeo w' = (Ok None, w')).
Proof.
  intros Hw saved Hrt. pose proof Hw as (Ew & Eg & _).
  split; [exists (put w LAST_GEO_KEY (JSON_stringify saved))|eexists]; split.
  - rewrite setLastGeo_eq, (store_works_can_write w Hw). reflexivity.
  - rewrite getLastGeo_eq. now rewrite (stored_put_same w LAST_GEO_KEY saved Ew Eg Hrt).
  - rewrite clearLastGeo_eq, (store_works_can_remove w Hw). reflexivity.
  - rewrite getLastGeo_eq. now rewrite stored_without_same.
Qed.

(** X12. The snapshot slot holds one snapshot, the last one saved: in a
    store that works, after two saves a load gives the second snapshot. *)
Theorem snapshot_last_write_wins d1 city1 units1 d2 city2 units2 w :
  store_works w ->
  let second := MkSnapshot d2 (Date_toISOString (clock w)) city2 units2 in
  round_trips second ->
  exists w1 w2,
    saveSnapshot d1 city1 units1 w = (Ok tt, w1) /\
    saveSnapshot d2 city2 units2 w1 = (Ok tt, w2) /\
    getSnapshot w2 = (Ok (Some second), w2).
Proof.
  intros Hw second Hrt. pose proof Hw as (Ew & Eg & Es & Er).
  set (w1 := put w SNAPSHOT_KEY
               (JSON_stringify (MkSnapshot d1 (Date_toISOString (clock w)) city1 units1))).
  assert (Hw1 : store_works w1) by (unfold store_works, w1, put; simpl; tauto).
  exists w1, (put w1 SNAPSHOT_KEY (JSON_stringify second)). split; [|split].
  - now rewrite saveSnapshot_eq, (store_works_can_write w Hw).
  - now rewrite saveSnapshot_eq, (store_works_can_write w1 Hw1).
  - rewrite getSnapshot_eq. now rewrite (stored_put_same w1 SNAPSHOT_KEY second Ew Eg Hrt).
Qed.

(** X13. A snapshot is recent exactly while its timestamp parses and lies
    less than 24 hours back: one timestamped in the future is recent, one
    exactly 24 hours old is not, and once a snapshot is stale it stays stale
    as the clock moves on. *)
Theorem snapshot_staleness s w :
  (forall t, Date_getTime (timestamp s) = Some t ->
             isSnapshotRecent s w = (Ok (bool_decide (clock w - t < 86400000)%Z), w)) /\
  (Date_getTime (timestamp s) = None -> isSnapshotRecent s w = (Ok false, w)) /\
  (forall t, Date_getTime (timestamp s) = Some t -> (clock w <= t)%Z ->
             isSnapshotRecent s w = (Ok true, w)) /\
  (forall t, Date_getTime (timestamp s) = Some t -> (clock w = t + 86400000)%Z ->
             isSnapshotRecent s w = (Ok false, w)) /\
  (forall w' : World Net,
              isSnapshotRecent s w = (Ok false, w) -> (clock w <= clock w')%Z ->
              isSnapshotRecent s w' = (Ok false, w')).
Proof.
  assert (Hrecent : forall t (v : World Net), Date_getTime (timestamp s) = Some t ->
            isSnapshotRecent s v = (Ok (bool_decide (clock v - t < 86400000)%Z), v)).
  { intros t v Ht. unfold isSnapshotRecent, bind, Date_now, ret. rewrite Ht.
    unfold twentyFourHours. do 2 f_equal.
    destruct (Z.ltb_spec (clock v - t) (24 * 60 * 60 * 1000));
      [rewrite bool_decide_eq_true_2|rewrite bool_decide_eq_false_2]; lia. }
  assert (Hnan : forall v : World Net, Date_getTime (timestamp s) = None ->
            isSnapshotRecent s v = (Ok false, v)).
  { intros v Ht. unfold isSnapshotRecent, bind, Date_now, ret. now rewrite Ht. }
  split; [intros t; apply Hrecent|]. split; [apply Hnan|].
  split; [|split].
  - intros t Ht Hle. rewrite (Hrecent t w Ht). now rewrite bool_decide_eq_true_2 by lia.
  - intros t Ht Heq. rewrite (Hrecent t w Ht). now rewrite bool_decide_eq_false_2 by lia.
  - intros w' Hstale Hle.
    destruct (Date_getTime (timestamp s)) as [t|] eqn:Ht; [|now apply Hnan].
    rewrite (Hrecent t w eq_refl) in Hstale. rewrite (Hrecent t w' eq_refl).
    injection Hstale as Hstale. apply bool_decide_eq_false in Hstale.
    now rewrite bool_decide_eq_false_2 by lia.
Qed.
End SlotProperties.

(** ** The slots do not interfere *)

Section SlotFrame.
Context {RT : Runtime} {Net : Type}.
Context {JR : Json (list GeoPoint.t)} {JF : Json (list FavoriteCity.t)}
  {JL : Json LastGeo.t} {JC : Json ForecastSnapshot}.
Implicit Types w : World Net.

Lemma writes_only_put_if {A} key (m : JS Net A) (a : World Net -> A)
    (cond : World Net -> bool) (text : World Net -> string) :
  (forall w, m w = (Ok (a w), if cond w then put w key (text w) else w)) ->
  writes_only key m.
Proof.
  intros Hm w. exists (a w). eexists. split; [apply Hm|].
  destruct (cond w); [apply only_key_changed_put|apply only_key_changed_refl].
Qed.

Lemma writes_only_without_if key (m : JS Net unit) (cond : World Net -> bool) :
  (forall w, m w = (Ok tt, if cond w then without w key else w)) ->
  writes_only key m.
Proof.
  intros Hm w. exists tt. eexists. split; [apply Hm|].
  destruct (cond w); [apply only_key_changed_without|apply only_key_changed_refl].
Qed.

Lemma stored_only_key_changed {T} {J : Json T} key key' w w' :
  only_key_changed key w w' -> key' <> key -> stored (T := T) w' key' = stored w key'.
Proof.
  intros (Ew & _ & _ & _ & _ & Eg & _ & _ & Hitems) Hne.
  unfold stored. now rewrite Ew, Eg, (Hitems key' Hne).
Qed.

(** X14. Every writer of [storage.ts] returns without throwing in every
    browser state, and changes at most the item under its own key: the
    recent searches, the favorites, the last location and the forecast
    snapshot never overwrite each other; nothing else of the world (clock,
    requests, console) changes. What is read under any other key is the
    same before and after. *)
Theorem storage_writers_keep_to_their_key city fav lat lon label d c u :
  writes_only (Net := Net) RECENT_KEY (addRecentSearch city) /\
  writes_only (Net := Net) RECENT_KEY clearRecentSearches /\
  writes_only (Net := Net) FAVORITES_KEY (addFavorite fav) /\
  writes_only (Net := Net) FAVORITES_KEY (removeFavorite fav) /\
  writes_only (Net := Net) FAVORITES_KEY clearFavorites /\
  writes_only (Net := Net) LAST_GEO_KEY (setLastGeo lat lon label) /\
  writes_only (Net := Net) LAST_GEO_KEY clearLastGeo /\
  writes_only (Net := Net) SNAPSHOT_KEY (saveSnapshot d c u) /\
  writes_only (Net := Net) SNAPSHOT_KEY clearSnapshot /\
  (forall T (J : Json T) key key' w w',
     only_key_changed key w w' -> key' <> key ->
     stored (T := T) w' key' = stored w key').
Proof.
  split; [eapply writes_only_put_if; intros w; apply addRecentSearch_eq|].
  split; [eapply writes_only_without_if; intros w; apply clearRecentSearches_eq|].
  split.
  { intros w. rewrite addFavorite_eq. cbv zeta.
    destruct (negb (window w) || existsb (same_city fav) _).
    - do 2 eexists. split; [reflexivity|apply only_key_changed_refl].
    - do 2 eexists. split; [reflexivity|].
      destruct (can_write w); [apply only_key_changed_put|apply only_key_changed_refl]. }
  split.
  { intros w. rewrite removeFavorite_eq. destruct (window w).
    - do 2 eexists. split; [reflexivity|].
      destruct (can_write w); [apply only_key_changed_put|apply only_key_changed_refl].
    - do 2 eexists. split; [reflexivity|apply only_key_changed_refl]. }
  split; [eapply writes_only_without_if; intros w; apply clearFavorites_eq|].
  split; [eapply writes_only_put_if; intros w; apply setLastGeo_eq|].
  split; [eapply writes_only_without_if; intros w; apply clearLastGeo_eq|].
  split; [eapply writes_only_put_if; intros w; apply saveSnapshot_eq|].
  split; [eapply writes_only_without_if; intros w; apply clearSnapshot_eq|].
  intros T J key key' w w'. apply stored_only_key_changed.
Qed.

(** X15. In a store that works, each clearing function empties its slot:
    afterwards the recent searches and the favorites read as the empty list,
    no city is a favorite, and there is no last location and no snapshot. *)
Theorem clear_then_empty city w :
  store_works w ->
  (exists w', clearRecentSearches w = (Ok tt, w') /\ getRecentSearches w' = (Ok [], w')) /\
  (exists w', clearFavorites w = (Ok tt, w') /\ getFavorites w' = (Ok [], w')
              /\ isFavorite city w' = (Ok false, w')) /\
  (exists w', clearLastGeo w = (Ok tt, w') /\ getLastGeo w' = (Ok None, w')) /\
  (exists w', clearSnapshot w = (Ok tt, w') /\ getSnapshot w' = (Ok None, w')).
Proof.
  intros Hw. pose proof (store_works_can_remove w Hw) as Hr.
  split; [|split; [|split]].
  - exists (without w RECENT_KEY). split.
    + now rewrite clearRecentSearches_eq, Hr.
    + now rewrite getRecentSearches_eq, stored_without_same.
  - exists (without w FAVORITES_KEY). split; [|split].
    + now rewrite clearFavorites_eq, Hr.
    + now rewrite getFavorites_eq, stored_without_same.
    + now rewrite isFavorite_eq, stored_without_same.
  - exists (without w LAST_GEO_KEY). split.
    + now rewrite clearLastGeo_eq, Hr.
    + now rewrite getLastGeo_eq, stored_without_same.
  - exists (without w SNAPSHOT_KEY). split.
    + now rewrite clearSnapshot_eq, Hr.
    + now rewrite getSnapshot_eq, stored_without_same.
Qed.
End SlotFrame.

(** ** The theme provider *)

Section ThemeProperties.
Import theme.
Context {Net : Type}.
Implicit Types w : World Net.

Lemma Theme_to_string_inj t t' : Theme_to_string t = Theme_to_string t' -> t = t'.
Proof. now destruct t, t'. Qed.

Lemma save_effect_eq st w :
  save_effect st w
  = (Ok tt, if can_write w then put w THEME_KEY (Theme_to_string (theme st)) else w).
Proof.
  unfold save_effect, try_catch, localStorage_setItem, can_write, ret.
  destruct (window w); simpl; [|reflexivity].
  destruct (setItem_throws (localStorage w)) eqn:Es; simpl; [reflexivity|].
  unfold put. now rewrite Es.
Qed.

(** The first effect, in a browser, by what [getItem] does. *)
Lemma init_effect_eq systemDark w :
  window w = true ->
  init_effect systemDark w
  = if getItem_throws (localStorage w)
    then (Ok (MkState (detected systemDark) (detected systemDark)), w)
    else
      let saved := items (localStorage w) !! THEME_KEY in
      if bool_decide (saved = Some "light") then (Ok (MkState light light), w)
      else if bool_decide (saved = Some "dark") then (Ok (MkState dark dark), w)
      else (Ok (MkState (detected systemDark) (detected systemDark)),
            if can_write w
            then put w THEME_KEY (Theme_to_string (detected systemDark))
            else w).
Proof.
  intros Ew.
  unfold init_effect, bind, try_catch, localStorage_getItem, prefersDark, ret.
  rewrite Ew. simpl.
  destruct (getItem_throws (localStorage w)); simpl; [now rewrite Ew|].
  destruct (bool_decide (items (localStorage w) !! THEME_KEY = Some "light"));
    [reflexivity|].
  destruct (bool_decide (items (localStorage w) !! THEME_KEY = Some "dark"));
    [reflexivity|].
  rewrite Ew. unfold localStorage_setItem, can_write. rewrite Ew. simpl.
  destruct (setItem_throws (localStorage w)) eqn:Es; simpl; [reflexivity|].
  unfold put. now rewrite Es.
Qed.

Lemma init_effect_saved systemDark w t :
  window w = true -> getItem_throws (localStorage w) = false ->
  items (localStorage w) !! THEME_KEY = Some (Theme_to_string t) ->
  init_effect systemDark w = (Ok (MkState t t), w).
Proof.
  intros Ew Eg Hsaved. rewrite (init_effect_eq systemDark w Ew), Eg. cbv zeta.
  rewrite Hsaved. now destruct t.
Qed.

(** X16. In a store that works, the theme the user last chose is the theme
    of the next visit: after the saving effect has run for a state, the
    mount effect sets both cells to that state's theme, whatever the system
    preference is, and writes nothing. *)
Theorem theme_choice_survives_reload st systemDark w :
  store_works w ->
  exists w',
    save_effect st w = (Ok tt, w') /\
    init_effect systemDark w' = (Ok (MkState (theme st) (theme st)), w').
Proof.
  intros Hw. pose proof Hw as (Ew & Eg & _).
  exists (put w THEME_KEY (Theme_to_string (theme st))). split.
  - now rewrite save_effect_eq, (store_works_can_write w Hw).
  - apply init_effect_saved; [exact Ew|exact Eg|].
    unfold put. simpl. apply lookup_insert_eq.
Qed.

(** X17. In a browser the mount effect never throws, sets [theme] and
    [resolvedTheme] to the same value, and changes at most the item under
    ['weatherflow-theme']. Where [getItem] throws it takes the system
    preference and writes nothing. In a store that works the outcome is
    settled by the first run: a later run gives the same theme even if the
    system preference has changed since, and writes nothing. *)
Theorem init_effect_settles systemDark w :
  window w = true ->
  exists st w',
    init_effect systemDark w = (Ok st, w') /\
    theme st = resolvedTheme st /\
    only_key_changed THEME_KEY w w' /\
    (getItem_throws (localStorage w) = true ->
     st = MkState (detected systemDark) (detected systemDark) /\ w' = w) /\
    (store_works w ->
     forall systemDark', init_effect systemDark' w' = (Ok st, w')).
Proof.
  intros Ew. rewrite (init_effect_eq systemDark w Ew).
  destruct (getItem_throws (localStorage w)) eqn:Eg.
  { do 2 eexists. split; [reflexivity|]. split; [reflexivity|].
    split; [apply only_key_changed_refl|]. split; [auto|].
    intros (_ & Eg' & _). congruence. }
  cbv zeta.
  destruct (bool_decide (items (localStorage w) !! THEME_KEY = Some "light")) eqn:El.
  { apply bool_decide_eq_true in El.
    do 2 eexists. split; [reflexivity|]. split; [reflexivity|].
    split; [apply only_key_changed_refl|]. split; [discriminate|].
    intros _ systemDark'. now apply (init_effect_saved systemDark' w light). }
  destruct (bool_decide (items (localStorage w) !! THEME_KEY = Some "dark")) eqn:Ed.
  { apply bool_decide_eq_true in Ed.
    do 2 eexists. split; [reflexivity|]. split; [reflexivity|].
    split; [apply only_key_changed_refl|]. split; [discriminate|].
    intros _ systemDark'. now apply (init_effect_saved systemDark' w dark). }
  do 2 eexists. split; [reflexivity|]. split; [reflexivity|].
  split; [destruct (can_write w);
          [apply only_key_changed_put|apply only_key_changed_refl]|].
  split; [discriminate|].
  intros Hw systemDark'. rewrite (store_works_can_write w Hw).
  apply init_effect_saved; [exact Ew|exact Eg|].
  unfold put. simpl. apply lookup_insert_eq.
Qed.
End ThemeProperties.

(** ** The forecast list *)

Section ForecastListProperties.
Import components.

Lemma slice_length {T} (array : list T) start end_ :
  length (slice array start end_) = (min end_ (length array) - start)%nat.
Proof. unfold slice. now rewrite length_drop, length_take. Qed.

Lemma slice_lookup {T} (array : list T) start end_ i :
  (start + i < end_)%nat -> slice array start end_ !! i = array !! (start + i)%nat.
Proof. intros Hi. unfold slice. now rewrite lookup_drop, lookup_take_lt. Qed.

Lemma ForecastList_rows today later units :
  exists items,
    ForecastList (Some (today :: later)) units false = forecastItems items /\
    length items = min (length later) 5 /\
    forall i, (i < length items)%nat ->
      exists forecast,
        later !! i = Some forecast /\
        items !! i
        = Some (ForecastItemProps.mk (ForecastDay.dt forecast) forecast units i).
Proof.
  eexists. split; [reflexivity|].
  assert (Hlen : length (slice (today :: later) 1 6) = min (length later) 5).
  { rewrite slice_length. cbn [length]. lia. }
  split; [now rewrite length_imap|].
  intros i Hi. rewrite length_imap, Hlen in Hi.
  destruct (later !! i) as [forecast|] eqn:Hf.
  - exists forecast. split; [reflexivity|].
    rewrite list_lookup_imap, slice_lookup by lia. simpl. now rewrite Hf.
  - apply lookup_ge_None in Hf. lia.
Qed.

(** X18. [ForecastList] shows the skeleton while loading, whatever it was
    given. Otherwise, for a non-empty list it shows one row per day at
    positions 1 to 5 of the list, in order and numbered from 0: never the
    first entry (today) and never more than five rows. A list of one day is
    not empty, so it shows the heading with no row instead of the "no
    forecast data" block, which appears only for a missing or empty list. *)
Theorem ForecastList_next_five_days forecasts units :
  ForecastList forecasts units true = loadingSkeleton /\
  ForecastList None units false = emptyState /\
  ForecastList (Some []) units false = emptyState /\
  (forall today later,
     exists items,
       ForecastList (Some (today :: later)) units false = forecastItems items /\
       length items = min (length later) 5 /\
       (forall i, (i < length items)%nat ->
          exists forecast,
            later !! i = Some forecast /\
            items !! i
            = Some (ForecastItemProps.mk (ForecastDay.dt forecast) forecast units i)) /\
       (later = [] -> items = [])).
Proof.
  split; [reflexivity|]. split; [reflexivity|]. split; [reflexivity|].
  intros today later.
  destruct (ForecastList_rows today later units) as (items & Hview & Hlen & Hrows).
  exists items. split; [exact Hview|]. split; [exact Hlen|]. split; [exact Hrows|].
  intros ->. simpl in Hlen. now destruct items.
Qed.
End ForecastListProperties.

Section ForecastRows.
Import components.
Context {RT : Runtime} {IC : WeatherIconOpenMeteo} {HM : HourlyModel}
  {UC : unitConversion.UnitConversion}.



End ForecastRows.

(** ** The hourly chart *)

Section SparklineProperties.
Import components.
Context {Net : Type}.
Implicit Types w : World Net.

Lemma Math_min_spec xs m :
  Math_min xs = Some m -> m ∈ xs /\ Forall (fun x => (m <= x)%Q) xs.
Proof.
  revert m. induction xs as [|x xs IH]; intros m; simpl; [discriminate|].
  destruct (Math_min xs) as [m'|] eqn:Hm.
  - destruct (IH m' eq_refl) as [Hin Hle].
    destruct (Qle_bool x m') eqn:Hx; intros [= <-].
    + apply Qle_bool_iff in Hx. split; [apply list_elem_of_here|].
      constructor; [apply Qle_refl|].
      eapply Forall_impl; [exact Hle|]. intros y Hy. simpl in Hy.
      now apply Qle_trans with m'.
    + split; [now apply list_elem_of_further|]. constructor; [|exact Hle].
      apply Qlt_le_weak, Qnot_le_lt. intros H. apply Qle_bool_iff in H. congruence.
  - intros [= <-]. destruct xs; [|simpl in Hm; destruct (Math_min xs); discriminate].
    split; [apply list_elem_of_here|]. constructor; [apply Qle_refl|constructor].
Qed.

Lemma Math_max_spec xs m :
  Math_max xs = Some m -> m ∈ xs /\ Forall (fun x => (x <= m)%Q) xs.
Proof.
  revert m. induction xs as [|x xs IH]; intros m; simpl; [discriminate|].
  destruct (Math_max xs) as [m'|] eqn:Hm.
  - destruct (IH m' eq_refl) as [Hin Hle].
    destruct (Qle_bool m' x) eqn:Hx; intros [= <-].
    + apply Qle_bool_iff in Hx. split; [apply list_elem_of_here|].
      constructor; [apply Qle_refl|].
      eapply Forall_impl; [exact Hle|]. intros y Hy. simpl in Hy.
      now apply Qle_trans with m'.
    + split; [now apply list_elem_of_further|]. constructor; [|exact Hle].
      apply Qlt_le_weak, Qnot_le_lt. intros H. apply Qle_bool_iff in H. congruence.
  - intros [= <-]. destruct xs; [|simpl in Hm; destruct (Math_max xs); discriminate].
    split; [apply list_elem_of_here|]. constructor; [apply Qle_refl|constructor].
Qed.

Lemma Math_min_cons x xs : exists m, Math_min (x :: xs) = Some m.
Proof. simpl. destruct (Math_min xs); eauto. Qed.

Lemma Math_max_cons x xs : exists m, Math_max (x :: xs) = Some m.
Proof. simpl. destruct (Math_max xs); eauto. Qed.

(** X20. The chart plots at most 24 points: point [i] has the temperature
    of the [i]-th hourly entry and the time of rendering plus [i] hours,
    whatever time the entry itself carries. No hourly entry means the "No
    data available" block; the world is left as it was. *)
Theorem HourlySparkline_points hourlyData w :
  HourlySparkline [] w = (Ok noData, w) /\
  (forall first rest, hourlyData = first :: rest ->
     exists data domain,
       HourlySparkline hourlyData w = (Ok (areaChart data domain), w) /\
       domain = yDomain data /\
       length data = min (length hourlyData) 24 /\
       forall i, (i < length data)%nat ->
         exists hour,
           hourlyData !! i = Some hour /\
           data !! i
           = Some (ChartPoint.mk (clock w + Z.of_nat i * 3600000)
                                 (HourlyData.temperature hour))).
Proof.
  split; [reflexivity|].
  intros first rest ->. do 2 eexists. split; [reflexivity|]. split; [reflexivity|].
  assert (Hlen : length (slice (first :: rest) 0 24) = min (length (first :: rest)) 24).
  { rewrite slice_length. lia. }
  split; [now rewrite length_imap|].
  intros i Hi. rewrite length_imap, Hlen in Hi.
  destruct ((first :: rest) !! i) as [hour|] eqn:Hh.
  - exists hour. split; [reflexivity|].
    rewrite list_lookup_imap, slice_lookup by lia. cbn [Nat.add].
    rewrite Hh. simpl. do 2 f_equal. lia.
  - apply lookup_ge_None in Hh. lia.
Qed.

(** X21. For a non-empty series the Y domain is [0.98 * min, 1.02 * max] of
    the plotted temperatures. These factors pad the range only for
    temperatures that are not negative: with every temperature at or above
    zero all points lie inside the domain, but a negative minimum lies
    below the domain's lower end and a negative maximum above its upper
    end. *)
Theorem yDomain_padding point points :
  let chartData := point :: points in
  exists minTemp maxTemp,
    yDomain chartData = Some (minTemp * 0.98, maxTemp * 1.02)%Q /\
    minTemp ∈ map ChartPoint.temperature chartData /\
    maxTemp ∈ map ChartPoint.temperature chartData /\
    (forall p, p ∈ chartData ->
       (minTemp <= ChartPoint.temperature p <= maxTemp)%Q) /\
    ((0 <= minTemp)%Q ->
     forall p, p ∈ chartData ->
       (minTemp * 0.98 <= ChartPoint.temperature p <= maxTemp * 1.02)%Q) /\
    ((minTemp < 0)%Q -> (minTemp < minTemp * 0.98)%Q) /\
    ((maxTemp < 0)%Q -> (maxTemp * 1.02 < maxTemp)%Q).
Proof.
  intros chartData.
  destruct (Math_min_cons (ChartPoint.temperature point)
              (map ChartPoint.temperature points)) as [minTemp Hmin].
  destruct (Math_max_cons (ChartPoint.temperature point)
              (map ChartPoint.temperature points)) as [maxTemp Hmax].
  exists minTemp, maxTemp.
  destruct (Math_min_spec _ _ Hmin) as [Hmin_in Hmin_le].
  destruct (Math_max_spec _ _ Hmax) as [Hmax_in Hmax_le].
  assert (Hbounds : forall p, p ∈ chartData ->
            (minTemp <= ChartPoint.temperature p <= maxTemp)%Q).
  { intros p Hp. rewrite Forall_forall in Hmin_le, Hmax_le.
    assert (Hin : ChartPoint.temperature p ∈ map ChartPoint.temperature chartData)
      by (apply list_elem_of_fmap; eauto).
    split; [apply (Hmin_le _ Hin)|apply (Hmax_le _ Hin)]. }
  split.
  { unfold yDomain. change (map ChartPoint.temperature chartData)
      with (ChartPoint.temperature point :: map ChartPoint.temperature points).
    now rewrite Hmin, Hmax. }
  split; [exact Hmin_in|]. split; [exact Hmax_in|]. split; [exact Hbounds|].
  split.
  { intros Hpos p Hp. destruct (Hbounds p Hp) as [Hlo Hhi]. split; lra. }
  split; intros; lra.
Qed.
End SparklineProperties.

(** ** The Home page: what was fetched first *)

Section HomeProperties.
Import page home.
Context {RT : Runtime} {Net : Type} {JR : Json (list GeoPoint.t)}
  {UC : unitConversion.UnitConversion}.
Variable askLocation : JS Net GeoPoint.t.
Variable getLocationErrorMessage : JsError -> string.
Implicit Types (w : World Net) (h : Home).

Local Abbreviation step := (home.step askLocation getLocationErrorMessage).
Local Abbreviation run := (home.run askLocation getLocationErrorMessage).

Lemma originals_kept_refl h : originals_kept h h.
Proof. split; auto. Qed.

Lemma originals_kept_trans h1 h2 h3 :
  originals_kept h1 h2 -> originals_kept h2 h3 -> originals_kept h1 h3.
Proof. intros [A B] [C D]. split; auto. Qed.

Lemma originals_kept_same h h' :
  originalCurrentWeather (state h') = originalCurrentWeather (state h) ->
  originalForecast (state h') = originalForecast (state h) ->
  originals_kept h h'.
Proof. intros E1 E2. split; intros first H; congruence. Qed.

Lemma store_original_current_kept cw h : originals_kept h (store_original_current cw h).
Proof.
  unfold store_original_current.
  destruct cw as [cw|]; [|apply originals_kept_refl].
  destruct (originalCurrentWeather (state h)) eqn:E; [apply originals_kept_refl|].
  split; simpl; [congruence|auto].
Qed.

Lemma store_original_forecast_kept f h : originals_kept h (store_original_forecast f h).
Proof.
  unfold store_original_forecast.
  destruct f as [f|]; [|apply originals_kept_refl].
  destruct (originalForecast (state h)) eqn:E; [apply originals_kept_refl|].
  split; simpl; [auto|congruence].
Qed.

Lemma handleUseLocation_returns h w :
  exists h' w',
    handleUseLocation askLocation getLocationErrorMessage h w = (Ok h', w') /\
    originalCurrentWeather (state h') = originalCurrentWeather (state h) /\
    originalForecast (state h') = originalForecast (state h) /\
    units (state h') = units (state h).
Proof.
  unfold handleUseLocation, bind, try_catch.
  destruct (askLocation w) as [[location|error] w1]; simpl.
  - rewrite addRecentSearch_eq. simpl. do 2 eexists. split; [reflexivity|]. now simpl.
  - do 2 eexists. split; [reflexivity|]. now simpl.
Qed.

Lemma handleCitySelect_returns city h w :
  exists w',
    handleCitySelect city h w
    = (Ok (MkHome (MkState (Some city) (units (state h)) None None)
                  (MkForm (or_else (GeoPoint.name city) "") None
                          (isRequestingLocation (form h)) (showMap (form h))
                          (originalUnits (form h)))), w') /\
    only_key_changed RECENT_KEY w w'.
Proof.
  unfold handleCitySelect.
  destruct (truthy (or_else (GeoPoint.name city) "")).
  - unfold bind. rewrite addRecentSearch_eq. eexists. split; [reflexivity|].
    destruct (can_write w); [apply only_key_changed_put|apply only_key_changed_refl].
  - eexists. split; [reflexivity|apply only_key_changed_refl].
Qed.

Lemma step_keeps_originals e h w :
  is_CitySelected e = false ->
  exists h' w', step e h w = (Ok h', w') /\ originals_kept h h'.
Proof.
  intros He. destruct e as [cw|f|city| |newUnits| |]; try discriminate; simpl.
  - do 2 eexists. split; [reflexivity|apply store_original_current_kept].
  - do 2 eexists. split; [reflexivity|apply store_original_forecast_kept].
  - destruct (handleUseLocation_returns h w) as (h' & w' & Hrun & E1 & E2 & _).
    exists h', w'. split; [exact Hrun|now apply originals_kept_same].
  - do 2 eexists. split; [reflexivity|now apply originals_kept_same].
  - do 2 eexists. split; [reflexivity|now apply originals_kept_same].
  - do 2 eexists. split; [reflexivity|now apply originals_kept_same].
Qed.

Lemma run_keeps_originals events h w :
  forallb (fun e => negb (is_CitySelected e)) events = true ->
  exists h' w', run events h w = (Ok h', w') /\ originals_kept h h'.
Proof.
  revert h w. induction events as [|e events IH]; intros h w Hall.
  - do 2 eexists. split; [reflexivity|apply originals_kept_refl].
  - simpl in Hall. apply andb_true_iff in Hall as [He Hall].
    apply negb_true_iff in He.
    destruct (step_keeps_originals e h w He) as (h1 & w1 & Hstep & Hkept1).
    destruct (IH h1 w1 Hall) as (h' & w' & Hrun & Hkept).
    exists h', w'. split.
    + simpl. unfold bind. now rewrite Hstep.
    + now apply originals_kept_trans with h1.
Qed.

(** X22. What the page keeps as "original" data is written once. Over any
    sequence of events other than a city selection (new data from either
    query, a unit toggle, "use my location", clearing the search, toggling
    the map) the page never throws and the first current weather and the
    first forecast it stored are still the stored ones. The card is computed
    from the stored record alone: whatever the query holds by then, in
    metric display the card shows the first record. *)
Theorem original_data_written_once events h w :
  forallb (fun e => negb (is_CitySelected e)) events = true ->
  exists h' w',
    run events h w = (Ok h', w') /\
    (forall first, originalCurrentWeather (state h) = Some first ->
       originalCurrentWeather (state h') = Some first /\
       forall currentWeather,
         convertedCurrentWeather (handleUnitsChange (state h') metric) currentWeather
         = Some first) /\
    (forall first, originalForecast (state h) = Some first ->
       originalForecast (state h') = Some first /\
       forall forecastData,
         convertedForecastData (handleUnitsChange (state h') metric) forecastData
         = Some first).
Proof.
  intros Hall. destruct (run_keeps_originals events h w Hall) as (h' & w' & Hrun & Hc & Hf).
  exists h', w'. split; [exact Hrun|]. split.
  - intros first Hfirst. split; [now apply Hc|].
    intros cw. unfold convertedCurrentWeather, handleUnitsChange. simpl.
    now rewrite (Hc first Hfirst).
  - intros first Hfirst. split; [now apply Hf|].
    intros fd. unfold convertedForecastData, handleUnitsChange. simpl.
    now rewrite (Hf first Hfirst).
Qed.

(** X23. Selecting a city starts afresh: [handleCitySelect] makes the city
    the selected one and drops both stored records, so the next data of the
    queries become the stored ones. It never throws and touches nothing but
    the recent-searches item. *)
Theorem city_selection_starts_afresh city currentWeather forecastData h w :
  exists h' w',
    run [CitySelected city; CurrentWeatherChanged (Some currentWeather);
         ForecastChanged (Some forecastData)] h w = (Ok h', w') /\
    selectedCity (state h') = Some city /\
    originalCurrentWeather (state h') = Some currentWeather /\
    originalForecast (state h') = Some forecastData /\
    units (state h') = units (state h) /\
    only_key_changed RECENT_KEY w w'.
Proof.
  destruct (handleCitySelect_returns city h w) as (w' & Hsel & Hframe).
  do 2 eexists. split.
  - simpl. unfold bind. rewrite Hsel. reflexivity.
  - simpl. auto.
Qed.

(** X24. "Use my location" changes the selected city without dropping the
    stored records. When a city's weather is on display and geolocation
    answers, the page afterwards has the located place selected (named
    'Current Location' when geolocation gives no name), and once the
    queries have answered for it the content block is shown for that place
    with the records stored for the previous city: the new data are not
    stored. *)
Theorem use_location_keeps_previous_city_data location w1 first forecast
    currentWeather forecastData h w :
  askLocation w = (Ok location, w1) ->
  originalCurrentWeather (state h) = Some first ->
  originalForecast (state h) = Some forecast ->
  exists h' w',
    run [UseLocationClicked; CurrentWeatherChanged (Some currentWeather);
         ForecastChanged (Some forecastData)] h w = (Ok h', w') /\
    selectedCity (state h')
    = Some (GeoPoint.mk (GeoPoint.lat location) (GeoPoint.lon location)
                        (Some (or_else (GeoPoint.name location) "Current Location"))
                        (GeoPoint.country location)) /\
    originalCurrentWeather (state h') = Some first /\
    originalForecast (state h') = Some forecast /\
    shows_content h' (MkQueries false false false false) = true.
Proof.
  intros Hask Hfirst Hforecast.
  do 2 eexists. split.
  - simpl. unfold bind, handleUseLocation, bind, try_catch. rewrite Hask. simpl.
    rewrite addRecentSearch_eq. simpl. reflexivity.
  - unfold store_original_forecast, store_original_current. simpl.
    rewrite Hfirst. simpl. rewrite Hforecast. simpl.
    split; [reflexivity|]. split; [reflexivity|]. split; [reflexivity|].
    reflexivity.
Qed.
End HomeProperties.

(** ** What the adapters leave alone *)

Section AdapterFrame.
Context {RT : Runtime} {IC : WeatherIconOpenMeteo} {HM : HourlyModel}
  {JC : Json ForecastSnapshot}.
Implicit Types w : World Net.

Lemma getCurrentOpenMeteo_world lat lon units w :
  (getCurrentOpenMeteo lat lon units w).2 = after_fetch w (current_url lat lon units).
Proof.
  unfold getCurrentOpenMeteo, bind, fetch. cbv zeta.
  destruct (open_meteo_api (net w) (current_url lat lon units)) as [e|code text body];
    [reflexivity|].
  destruct (negb (ok (MkResponse code text body))); [reflexivity|].
  unfold json. destruct body as [data|]; simpl; [|reflexivity].
  now destruct (OpenMeteoForecastResponse.current data).
Qed.

Lemma getCurrentOpenWeather_world key lat lon units w :
  (getCurrentOpenWeather key lat lon units w).2
  = after_fetch w ("https://api.openweathermap.org/data/2.5/weather?lat="
                   +:+ Number_toString lat +:+ "&lon=" +:+ Number_toString lon
                   +:+ "&units=" +:+ Units_to_string units +:+ "&appid=" +:+ key).
Proof.
  unfold getCurrentOpenWeather, bind, fetch. cbv zeta.
  destruct (openweather_weather_api (net w) _) as [e|code text body]; [reflexivity|].
  destruct (negb (ok (MkResponse code text body))).
  - simpl. destruct (code =? 401)%N; [reflexivity|].
    destruct (code =? 404)%N; [reflexivity|]. now destruct (code =? 429)%N.
  - unfold json. now destruct body.
Qed.

Lemma openweather_key_supported cfg key :
  PROVIDER cfg = "openweather" -> API_KEY cfg = Some key -> truthy key = true ->
  openweather_key cfg = Some key.
Proof. intros Hp Hk Ht. unfold openweather_key. now rewrite Hp, Hk, Ht. Qed.

Lemma openweather_key_unsupported cfg :
  PROVIDER cfg <> "openweather" \/ API_KEY cfg = None \/ API_KEY cfg = Some "" ->
  openweather_key cfg = None.
Proof.
  intros H. unfold openweather_key.
  destruct (String.eqb (PROVIDER cfg) "openweather") eqn:Ep; [|reflexivity].
  apply String.eqb_eq in Ep.
  destruct H as [H|[H|H]]; [contradiction|now rewrite H|now rewrite H].
Qed.

(** X25. [getCurrent] has no offline path. Whatever the configuration and
    the reply, it leaves [localStorage], the console and the clock as they
    were. With the provider 'open-meteo' it sends exactly one request, to
    the Open-Meteo URL of the place and units, and a rejection of that
    request is thrown as it is, also with a forecast snapshot in the store.
    With the provider 'openweather' and a non-empty key it sends exactly
    one request, to the OpenWeatherMap URL carrying the key. With any other
    configuration (another provider name, or 'openweather' with no key or an
    empty key) it throws the "unsupported" error and sends no request: the
    world is unchanged. *)
Theorem getCurrent_one_request_no_store cfg lat lon units w :
  let r := (getCurrent cfg lat lon units w).1 in
  let w' := (getCurrent cfg lat lon units w).2 in
  (window w' = window w /\ localStorage w' = localStorage w /\
   clock w' = clock w /\ console w' = console w /\ net w' = net w) /\
  (PROVIDER cfg = "open-meteo" ->
   requests w' = requests w ++ [current_url lat lon units] /\
   forall e, open_meteo_api (net w) (current_url lat lon units) = Rejected e ->
             r = Throw e) /\
  (forall key,
     PROVIDER cfg = "openweather" -> API_KEY cfg = Some key -> truthy key = true ->
     requests w' = requests w
                   ++ ["https://api.openweathermap.org/data/2.5/weather?lat="
                       +:+ Number_toString lat +:+ "&lon=" +:+ Number_toString lon
                       +:+ "&units=" +:+ Units_to_string units +:+ "&appid=" +:+ key]) /\
  (PROVIDER cfg <> "open-meteo" ->
   PROVIDER cfg <> "openweather" \/ API_KEY cfg = None \/ API_KEY cfg = Some "" ->
   r = Throw (unsupported cfg) /\ w' = w).
Proof.
  intros r w'. subst r w'. split; [|split; [|split]].
  - unfold getCurrent.
    destruct (String.eqb (PROVIDER cfg) "open-meteo").
    + rewrite getCurrentOpenMeteo_world. simpl. tauto.
    + destruct (openweather_key cfg) as [key|].
      * rewrite getCurrentOpenWeather_world. simpl. tauto.
      * simpl. tauto.
  - intros Hp. unfold getCurrent.
    apply String.eqb_eq in Hp as ->.
    rewrite getCurrentOpenMeteo_world. split; [reflexivity|].
    intros e He. unfold getCurrentOpenMeteo, bind, fetch. now rewrite He.
  - intros key Hp Hk Ht. unfold getCurrent.
    rewrite (openweather_key_supported cfg key Hp Hk Ht).
    assert (String.eqb (PROVIDER cfg) "open-meteo" = false) as ->
      by (rewrite Hp; reflexivity).
    now rewrite getCurrentOpenWeather_world.
  - intros Hp Hn. unfold getCurrent.
    apply String.eqb_neq in Hp. rewrite Hp, (openweather_key_unsupported cfg Hn).
    split; reflexivity.
Qed.

Lemma getForecast_try_world lat lon units w :
  let w1 := after_fetch w (forecast_url lat lon units) in
  (exists e, getForecast_try lat lon units w = (Throw e, w1)) \/
  (exists forecast text,
     getForecast_try lat lon units w
     = (Ok forecast, if can_write w1 then put w1 SNAPSHOT_KEY text else w1)).
Proof.
  intros w1. unfold getForecast_try, bind, fetch. cbv zeta. fold w1.
  destruct (open_meteo_api (net w) (forecast_url lat lon units)) as [e|code text body];
    [left; eauto|].
  destruct (negb (ok (MkResponse code text body))); [left; eauto|].
  unfold json. destruct body as [data|]; simpl; [|left; eauto].
  destruct (OpenMeteoForecastResponse.daily data) as [daily|]; [|left; eauto].
  right. unfold Date_now. rewrite saveSnapshot_eq. simpl. eauto.
Qed.

Lemma getForecast_catch_world e w :
  let line := "Using cached forecast data due to network error" in
  (getForecast_catch e w).2 = w \/ (getForecast_catch e w).2 = after_log w line.
Proof.
  intros line. unfold getForecast_catch, bind. rewrite getSnapshot_eq.
  destruct (stored w SNAPSHOT_KEY) as [s|]; [|now left].
  unfold isSnapshotRecent, bind, Date_now, ret.
  destruct (Date_getTime (timestamp s)) as [t|]; simpl; [|now left].
  destruct (clock w - t <? twentyFourHours)%Z; [now right|now left].
Qed.

(** X26. [getForecast] sends at most one request and logs at most one
    line, whatever the configuration and the reply. Of the stored items it
    can change only the forecast snapshot: the favorites, the recent
    searches and the last location are as before. With an unsupported
    provider it throws without a request and without reading the store. *)
Theorem getForecast_touches_only_snapshot cfg lat lon units w :
  let r := (getForecast cfg lat lon units w).1 in
  let w' := (getForecast cfg lat lon units w).2 in
  store_kept_except SNAPSHOT_KEY w w' /\
  (requests w' = requests w \/ exists url, requests w' = requests w ++ [url]) /\
  (console w' = console w \/
   console w' = console w ++ ["Using cached forecast data due to network error"]) /\
  (PROVIDER cfg <> "open-meteo" -> openweather_key cfg = None ->
   r = Throw (unsupported cfg) /\ w' = w).
Proof.
  intros r w'. subst r w'. unfold getForecast.
  destruct (String.eqb (PROVIDER cfg) "open-meteo") eqn:Ep.
  - apply String.eqb_eq in Ep. unfold try_catch.
    destruct (getForecast_try_world lat lon units w) as [[e ->]|(forecast & text & ->)].
    + destruct (getForecast_catch_world e (after_fetch w (forecast_url lat lon units)))
        as [-> | ->]; simpl.
      * split; [unfold store_kept_except; simpl; tauto|]. split; [right; eauto|].
        split; [now left|]. intros Hp. contradiction.
      * split; [unfold store_kept_except; simpl; tauto|]. split; [right; eauto|].
        split; [now right|]. intros Hp. contradiction.
    + destruct (can_write (after_fetch w (forecast_url lat lon units))); simpl.
      * split.
        { unfold store_kept_except. simpl. do 6 (split; [reflexivity|]).
          intros k Hk. now apply lookup_insert_ne. }
        split; [right; eauto|]. split; [now left|]. intros Hp. contradiction.
      * split; [unfold store_kept_except; simpl; tauto|]. split; [right; eauto|].
        split; [now left|]. intros Hp. contradiction.
  - destruct (openweather_key cfg) as [key|] eqn:Ek.
    + unfold getForecastOpenWeather, bind, fetch. cbv zeta.
      destruct (openweather_onecall_api (net w) _) as [e|code text body]; simpl.
      * split; [unfold store_kept_except; simpl; tauto|]. split; [right; eauto|].
        split; [now left|]. discriminate.
      * destruct (negb (ok (MkResponse code text body))); simpl.
        { split; [unfold store_kept_except; simpl; tauto|]. split; [right; eauto|].
          split; [now left|]. discriminate. }
        unfold json. destruct body; simpl;
          (split; [unfold store_kept_except; simpl; tauto|]; split; [right; eauto|];
           split; [now left|discriminate]).
    + simpl. split; [unfold store_kept_except; simpl; tauto|]. split; [now left|].
      split; [now left|]. auto.
Qed.

(** X27. The snapshot is one slot for all cities. In a store that works,
    after a successful Open-Meteo forecast for one place, a forecast
    request for any place and any units that fails within the next 24 hours
    is answered with the forecast of the first place, marked as cached with
    the time of that first fetch: the location and the units recorded in the
    snapshot are not compared with those requested. *)
Theorem last_forecast_served_for_any_city cfg w lat lon units code text data daily :
  PROVIDER cfg = "open-meteo" ->
  store_works w ->
  open_meteo_api (net w) (forecast_url lat lon units) = Responded code text (Some data) ->
  (200 <= code <= 299)%N ->
  OpenMeteoForecastResponse.daily data = Some daily ->
  let forecast := normalized_forecast data daily (clock w) in
  let snapshot :=
    MkSnapshot forecast (Date_toISOString (clock w)) (cityName lat lon)
               (Units_to_string units) in
  round_trips snapshot ->
  Date_getTime (Date_toISOString (clock w)) = Some (clock w) ->
  exists w1,
    getForecast cfg lat lon units w = (Ok forecast, w1) /\
    forall w2 lat' lon' units' e,
      window w2 = true -> localStorage w2 = localStorage w1 ->
      (clock w2 - clock w < 24 * 60 * 60 * 1000)%Z ->
      fetch_failed (open_meteo_api (net w2) (forecast_url lat' lon' units')) e ->
      exists w3,
        getForecast cfg lat' lon' units' w2
        = (Ok (Forecast.mk (Forecast.timezone_offset forecast) (Forecast.daily forecast)
                           (Forecast.hourly forecast) true
                           (Some (Date_toISOString (clock w)))), w3).
Proof.
  intros Hp Hw Hnet Hcode Hdaily forecast snapshot Hrt Htime.
  pose proof Hw as (Ew & Eg & Es & Er).
  set (url := forecast_url lat lon units).
  set (w1 := put (after_fetch w url) SNAPSHOT_KEY (JSON_stringify snapshot)).
  assert (Hw0 : store_works (after_fetch w url)) by (unfold store_works; simpl; tauto).
  exists w1. split.
  { rewrite (getForecast_open_meteo cfg lat lon units Hp). unfold try_catch.
    rewrite (getForecast_try_ok w lat lon units code text data daily Hnet Hcode Hdaily).
    rewrite saveSnapshot_eq. cbn [snd]. fold url.
    rewrite (store_works_can_write _ Hw0). reflexivity. }
  intros w2 lat' lon' units' e Ew2 Hstore Hage Hfail.
  set (w2' := after_fetch w2 (forecast_url lat' lon' units')).
  assert (Hs : getSnapshot w2' = (Ok (Some snapshot), w2')).
  { rewrite getSnapshot_eq. do 2 f_equal.
    unfold stored. change (window w2') with (window w2).
    change (localStorage w2') with (localStorage w2). rewrite Ew2, Hstore.
    unfold w1, put. simpl. rewrite Eg. simpl.
    destruct Hrt as [Ht Hparse]. now rewrite lookup_insert_eq, Ht, Hparse. }
  eexists. rewrite (getForecast_open_meteo cfg lat' lon' units' Hp). unfold try_catch.
  rewrite (getForecast_try_failed w2 lat' lon' units' e Hfail). fold w2'.
  rewrite (getForecast_catch_recent w2' e snapshot (clock w) Hs Htime Hage).
  reflexivity.
Qed.
End AdapterFrame.

(** ** The display unit and the queries *)

Section UnitToggle.
Import page.
Context {RT : Runtime} {IC : WeatherIconOpenMeteo} {HM : HourlyModel}
  {JC : Json ForecastSnapshot}.
Implicit Types w : World Net.

Lemma getForecast_open_meteo_requests cfg lat lon units w :
  PROVIDER cfg = "open-meteo" ->
  requests (getForecast cfg lat lon units w).2
  = requests w ++ [forecast_url lat lon units].
Proof.
  intros Hp. rewrite (getForecast_open_meteo cfg lat lon units Hp). unfold try_catch.
  destruct (getForecast_try_world lat lon units w) as [[e ->]|(forecast & text & ->)].
  - destruct (getForecast_catch_world e (after_fetch w (forecast_url lat lon units)))
      as [-> | ->]; reflexivity.
  - now destruct (can_write (after_fetch w (forecast_url lat lon units))).
Qed.

Lemma getCurrent_open_meteo_requests cfg lat lon units w :
  PROVIDER cfg = "open-meteo" ->
  requests (getCurrent cfg lat lon units w).2 = requests w ++ [current_url lat lon units].
Proof.
  intros Hp. unfold getCurrent. apply String.eqb_eq in Hp as ->.
  now rewrite getCurrentOpenMeteo_world.
Qed.

(** X3. Whatever unit is on display, both queries are keyed and fetched in
    metric. After [handleUnitsChange], with a city selected, the keys of
    both queries are the metric keys they were, and either query function,
    run in a browser under Open-Meteo, sends exactly one request: the one
    for the city in celsius and km/h, not in the unit on display. The
    stored records are left as they were. *)
Theorem unit_toggle_keeps_metric_queries cfg st newUnits city w :
  PROVIDER cfg = "open-meteo" ->
  window w = true ->
  selectedCity st = Some city ->
  let toggled := handleUnitsChange st newUnits in
  let lat := GeoPoint.lat city in
  let lon := GeoPoint.lon city in
  units toggled = newUnits /\
  current_queryKey toggled = current_queryKey st /\
  forecast_queryKey toggled = forecast_queryKey st /\
  current_queryKey toggled = queryKeys.current lat lon metric /\
  forecast_queryKey toggled = queryKeys.forecast lat lon metric /\
  requests (current_queryFn cfg toggled w).2
  = requests w ++ [current_url lat lon metric] /\
  requests (forecast_queryFn cfg toggled w).2
  = requests w ++ [forecast_url lat lon metric] /\
  current_url lat lon metric
  = FORECAST_BASE_URL +:+ "/forecast?latitude=" +:+ Number_toString lat
    +:+ "&longitude=" +:+ Number_toString lon
    +:+ "&current=temperature_2m,relative_humidity_2m,wind_speed_10m,wind_direction_10m,weathercode&timezone=auto&temperature_unit=celsius&wind_speed_unit=kmh" /\
  originalCurrentWeather toggled = originalCurrentWeather st /\
  originalForecast toggled = originalForecast st.
Proof.
  intros Hp Ew Hcity toggled lat lon.
  split; [reflexivity|]. split; [reflexivity|]. split; [reflexivity|].
  split; [unfold current_queryKey; simpl; now rewrite Hcity|].
  split; [unfold forecast_queryKey; simpl; now rewrite Hcity|].
  split.
  { unfold current_queryFn. simpl. rewrite Hcity.
    unfold bind, typeof_window_undefined. rewrite Ew. simpl.
    pose proof (getCurrent_open_meteo_requests cfg lat lon metric w Hp) as Hreq.
    fold lat lon. destruct (getCurrent cfg lat lon metric w) as [[a|e] w1]; exact Hreq. }
  split.
  { unfold forecast_queryFn. simpl. rewrite Hcity.
    unfold bind, typeof_window_undefined. rewrite Ew. simpl.
    pose proof (getForecast_open_meteo_requests cfg lat lon metric w Hp) as Hreq.
    fold lat lon. destruct (getForecast cfg lat lon metric w) as [[a|e] w1]; exact Hreq. }
  split; [|split; reflexivity].
  reflexivity.
Qed.
End UnitToggle.

(** ** The tables next to [getWeatherMain] *)

Section Tables.
Import api_tables.

Lemma getWeatherDescription_unlisted c :
  c ∉ descriptionMap_entries.*1 -> getWeatherDescription c = "Unknown".
Proof.
  intros Hc. unfold getWeatherDescription, descriptionMap.
  now rewrite object_literal_notin.
Qed.

Lemma getWeatherIcon_unlisted c : c ∉ iconMap_entries.*1 -> getWeatherIcon c = "01d".
Proof.
  intros Hc. unfold getWeatherIcon, iconMap. now rewrite object_literal_notin.
Qed.

(** X28. The three code tables of [api.ts] list the same codes. For every
    code: the category is 'Unknown' exactly when the description is; an
    unknown code gets the clear-sky icon '01d'; thunderstorm, snow and fog
    are exactly the codes with the icons '11d', '13d' and '50d'; drizzle has
    '09d' and rain '09d' or '10d'. *)
Theorem weather_tables_agree code :
  (getWeatherMain code = "Unknown" <-> getWeatherDescription code = "Unknown") /\
  (getWeatherMain code = "Unknown" -> getWeatherIcon code = "01d") /\
  (getWeatherMain code = "Thunderstorm" <-> getWeatherIcon code = "11d") /\
  (getWeatherMain code = "Snow" <-> getWeatherIcon code = "13d") /\
  (getWeatherMain code = "Fog" <-> getWeatherIcon code = "50d") /\
  (getWeatherMain code = "Drizzle" -> getWeatherIcon code = "09d") /\
  (getWeatherMain code = "Rain" ->
   getWeatherIcon code = "09d" \/ getWeatherIcon code = "10d").
Proof.
  destruct (decide (code ∈ weatherMap_entries.*1)) as [Hin|Hout].
  - unfold weatherMap_entries in Hin. simpl in Hin.
    repeat (apply elem_of_cons in Hin as [->|Hin];
            [vm_compute;
             repeat split; intros; first [reflexivity|discriminate|now left|now right]|]).
    now apply elem_of_nil in Hin.
  - rewrite (getWeatherMain_unlisted code Hout).
    rewrite (getWeatherDescription_unlisted code Hout).
    rewrite (getWeatherIcon_unlisted code Hout).
    repeat split; intros; first [reflexivity|discriminate].
Qed.
End Tables.

(** ** Every retry waits one second *)

(** X29. Whenever the retry predicate of the queries grants a retry, the
    failure count is 0 and the delay before the retry is 1000 ms: the
    doubling of [retryDelay] and its cap of 30 seconds are never reached. *)
Theorem retry_always_waits_one_second failureCount error :
  page.retry failureCount error = true ->
  failureCount = 0%nat /\ page.retryDelay failureCount = 1000%Z.
Proof.
  intros Hretry.
  assert (H0 : failureCount = 0%nat).
  { unfold page.retry in Hretry.
    destruct (status error) as [s|];
      [destruct ((400 <=? s) && (s <? 500))%Z; [discriminate|]|];
      apply Nat.ltb_lt in Hretry; lia. }
  subst. split; reflexivity.
Qed.

(** ** More concrete runs *)

(** London is in the recent searches; selecting Paris puts it in front. *)
Lemma addRecentSearch_then_get_witness :
  let w := demo.browser demo.offline demo_lists.one_recent 0 in
  exists w',
    addRecentSearch (JR := demo_lists.recent_codec) demo_lists.paris w = (Ok tt, w') /\
    getRecentSearches (JR := demo_lists.recent_codec) w'
    = (Ok (limited demo_lists.paris [demo.london]), w').
Proof.
  intros w.
  apply (addRecentSearch_then_get (JR := demo_lists.recent_codec)
           demo_lists.paris w [demo.london]).
  - now repeat split.
  - vm_compute. reflexivity.
  - split; vm_compute; reflexivity.
Defined.

(** Paris is a favorite; London is added in front of it. *)
Lemma addFavorite_then_isFavorite_witness :
  let w := demo.browser demo.offline demo_lists.one_favorite demo.saved_at in
  exists w',
    addFavorite (RT := demo.runtime) (JF := demo_lists.favorites_codec)
      demo_lists.london_city w = (Ok true, w') /\
    getFavorites (JF := demo_lists.favorites_codec) w'
    = (Ok [demo_lists.london_favorite; demo_lists.paris_favorite], w') /\
    isFavorite (JF := demo_lists.favorites_codec) demo_lists.london_city w'
    = (Ok true, w').
Proof.
  intros w.
  destruct (addFavorite_then_isFavorite (RT := demo.runtime)
              (JF := demo_lists.favorites_codec) demo_lists.london_city w
              [demo_lists.paris_favorite])
    as (w' & Hadd & Hget & _ & Hfav).
  - now repeat split.
  - vm_compute. reflexivity.
  - vm_compute. reflexivity.
  - split; vm_compute; reflexivity.
  - exists w'. split; [exact Hadd|]. split; [exact Hget|exact (Hfav eq_refl eq_refl)].
Defined.

(** London is stored at latitude 51.5; London at 51.501 is refused: the
    decimal difference is 0.001, the difference of the doubles is below it. *)
Lemma addFavorite_duplicate_refused_witness :
  let w := demo.browser demo.offline demo_lists.two_favorites demo.saved_at in
  addFavorite (RT := demo.runtime) (JF := demo_lists.favorites_codec)
    (City.mk "London" "GB" 51.501 (-0.12)) w = (Ok false, w) /\
  isFavorite (JF := demo_lists.favorites_codec)
    (City.mk "London" "GB" 51.501 (-0.12)) w = (Ok true, w).
Proof.
  intros w.
  apply (addFavorite_duplicate_refused (RT := demo.runtime)
           (JF := demo_lists.favorites_codec) (City.mk "London" "GB" 51.501 (-0.12)) w
           [demo_lists.london_favorite; demo_lists.paris_favorite]
           demo_lists.london_favorite).
  - vm_compute. reflexivity.
  - apply list_elem_of_here.
  - reflexivity.
  - reflexivity.
  - left. vm_compute. reflexivity.
  - right. split; reflexivity.
Defined.

(** With the quota full, adding London reports success and stores nothing. *)
Lemma addFavorite_success_unpersisted_witness :
  let w := demo.browser_quota_full demo.offline demo_lists.one_favorite demo.saved_at in
  addFavorite (RT := demo.runtime) (JF := demo_lists.favorites_codec)
    demo_lists.london_city w = (Ok true, w) /\
  isFavorite (JF := demo_lists.favorites_codec) demo_lists.london_city w = (Ok false, w).
Proof.
  intros w.
  apply (addFavorite_success_unpersisted (RT := demo.runtime)
           (JF := demo_lists.favorites_codec) demo_lists.london_city w
           [demo_lists.paris_favorite]).
  - reflexivity.
  - reflexivity.
  - vm_compute. reflexivity.
  - vm_compute. reflexivity.
Defined.

(** Removing the only favorite leaves none. *)
Lemma removeFavorite_then_not_favorite_witness :
  let w := demo.browser demo.offline demo_lists.one_favorite demo.saved_at in
  exists w',
    removeFavorite (JF := demo_lists.favorites_codec) demo_lists.paris_city w
    = (Ok true, w') /\
    getFavorites (JF := demo_lists.favorites_codec) w' = (Ok [], w') /\
    isFavorite (JF := demo_lists.favorites_codec) demo_lists.paris_city w'
    = (Ok false, w').
Proof.
  intros w.
  apply (removeFavorite_then_not_favorite (JF := demo_lists.favorites_codec)
           demo_lists.paris_city w [demo_lists.paris_favorite]).
  - now repeat split.
  - vm_compute. reflexivity.
  - split; vm_compute; reflexivity.
Defined.

(** London saved as the last location and read back. *)
Lemma lastGeo_round_trip_witness :
  let w := demo.browser demo.offline ∅ demo.saved_at in
  exists w',
    setLastGeo (RT := demo.runtime) (JL := demo_lists.lastGeo_codec)
      51.5 (-0.12) "London, GB" w = (Ok tt, w') /\
    getLastGeo (JL := demo_lists.lastGeo_codec) w'
    = (Ok (Some demo_lists.london_geo), w').
Proof.
  intros w.
  apply (lastGeo_round_trip (RT := demo.runtime) (JL := demo_lists.lastGeo_codec)
           51.5 (-0.12) "London, GB" w).
  - now repeat split.
  - split; vm_compute; reflexivity.
Defined.

(** Two saves in a row: the load gives the second. *)
Lemma snapshot_last_write_wins_witness :
  let w := demo.browser demo.offline ∅ demo.saved_at in
  exists w1 w2,
    saveSnapshot (RT := demo.runtime) (JC := demo.saved_codec)
      demo.saved_forecast "48.85, 2.35" "imperial" w = (Ok tt, w1) /\
    saveSnapshot (RT := demo.runtime) (JC := demo.saved_codec)
      demo.saved_forecast (cityName (RT := demo.runtime) 51.5 (-0.12)) "metric" w1
    = (Ok tt, w2) /\
    getSnapshot (JC := demo.saved_codec) w2 = (Ok (Some demo.saved_snapshot), w2).
Proof.
  intros w.
  apply (snapshot_last_write_wins (RT := demo.runtime) (JC := demo.saved_codec)
           demo.saved_forecast "48.85, 2.35" "imperial"
           demo.saved_forecast (cityName (RT := demo.runtime) 51.5 (-0.12)) "metric" w).
  - now repeat split.
  - split; vm_compute; reflexivity.
Defined.

(** Clearing a store that holds a favorite and a snapshot. *)
Lemma clear_then_empty_witness :
  let w := demo.browser demo.offline demo_lists.one_favorite demo.saved_at in
  exists w',
    clearFavorites w = (Ok tt, w') /\
    getFavorites (JF := demo_lists.favorites_codec) w' = (Ok [], w') /\
    isFavorite (JF := demo_lists.favorites_codec) demo_lists.paris_city w'
    = (Ok false, w').
Proof.
  intros w.
  apply (clear_then_empty (JR := demo_lists.recent_codec)
           (JF := demo_lists.favorites_codec) (JL := demo_lists.lastGeo_codec)
           (JC := demo.saved_codec) demo_lists.paris_city w).
  now repeat split.
Defined.

(** The user chose light; the next visit starts light on a dark system. *)
Lemma theme_choice_survives_reload_witness :
  let w := demo.browser demo.offline ∅ 0 in
  exists w',
    theme.save_effect (theme.MkState theme.light theme.light) w = (Ok tt, w') /\
    theme.init_effect true w' = (Ok (theme.MkState theme.light theme.light), w').
Proof.
  intros w.
  apply (theme_choice_survives_reload (theme.MkState theme.light theme.light) true w).
  now repeat split.
Defined.

(** A first visit on a dark system: dark, and dark again on a light one. *)
Lemma init_effect_settles_witness :
  let w := demo.browser demo.offline ∅ 0 in
  exists w',
    theme.init_effect true w = (Ok (theme.MkState theme.dark theme.dark), w') /\
    theme.init_effect false w' = (Ok (theme.MkState theme.dark theme.dark), w').
Proof.
  intros w.
  destruct (init_effect_settles true w eq_refl) as (st & w' & Hrun & _ & _ & _ & Hagain).
  assert (Hst : st = theme.MkState theme.dark theme.dark).
  { assert (Hfst : (theme.init_effect true w).1 = Ok st) by now rewrite Hrun.
    vm_compute in Hfst. congruence. }
  subst st. exists w'. split; [exact Hrun|]. apply Hagain. now repeat split.
Defined.


(** London on display; "use my location", then new data, then a unit
    toggle back and forth: London's record is still the stored one. *)
Lemma original_data_written_once_witness :
  exists h' w',
    home.run (JR := demo_lists.recent_codec) demo_lists.located
      demo_lists.location_message
      [home.UseLocationClicked;
       home.CurrentWeatherChanged (Some demo_lists.paris_weather);
       home.UnitsChanged imperial; home.UnitsChanged metric]
      demo_lists.london_page (demo.browser demo.offline ∅ 0)
    = (Ok h', w') /\
    page.originalCurrentWeather (home.state h') = Some demo_lists.london_weather.
Proof.
  destruct (original_data_written_once (JR := demo_lists.recent_codec)
              (UC := demo_lists.converter) demo_lists.located demo_lists.location_message
              [home.UseLocationClicked;
               home.CurrentWeatherChanged (Some demo_lists.paris_weather);
               home.UnitsChanged imperial; home.UnitsChanged metric]
              demo_lists.london_page (demo.browser demo.offline ∅ 0) eq_refl)
    as (h' & w' & Hrun & Hcurrent & _).
  exists h', w'. split; [exact Hrun|]. now apply Hcurrent.
Defined.

(** London on display; geolocation answers with a nameless place: the page
    shows 'Current Location' with London's records. *)
Lemma use_location_keeps_previous_city_data_witness :
  exists h' w',
    home.run (JR := demo_lists.recent_codec) demo_lists.located
      demo_lists.location_message
      [home.UseLocationClicked;
       home.CurrentWeatherChanged (Some demo_lists.paris_weather);
       home.ForecastChanged (Some demo.saved_forecast)]
      demo_lists.london_page (demo.browser demo.offline ∅ 0)
    = (Ok h', w') /\
    page.selectedCity (home.state h')
    = Some (GeoPoint.mk 48.85 2.35 (Some "Current Location") None) /\
    page.originalCurrentWeather (home.state h') = Some demo_lists.london_weather.
Proof.
  destruct (use_location_keeps_previous_city_data (JR := demo_lists.recent_codec)
              demo_lists.located demo_lists.location_message
              (GeoPoint.mk 48.85 2.35 None None) (demo.browser demo.offline ∅ 0)
              demo_lists.london_weather demo.saved_forecast
              demo_lists.paris_weather demo.saved_forecast
              demo_lists.london_page (demo.browser demo.offline ∅ 0)
              eq_refl eq_refl eq_refl)
    as (h' & w' & Hrun & Hcity & Hcurrent & _).
  exists h', w'. split; [exact Hrun|]. split; [exact Hcity|exact Hcurrent].
Defined.

(** London's forecast is fetched; two hours later the network is down and
    Tokyo's forecast is asked for in imperial units: London's is served. *)
Lemma last_forecast_served_for_any_city_witness :
  let w := demo.browser (demo.online demo.london_reply Absent) ∅ demo.saved_at in
  exists w1,
    getForecast (RT := demo.runtime) (IC := demo.icons) (HM := demo.hourly)
      (JC := demo.saved_codec) demo.default_config 51.5%Q (-0.12)%Q metric w
    = (Ok demo.saved_forecast, w1) /\
    exists w3,
      getForecast (RT := demo.runtime) (IC := demo.icons) (HM := demo.hourly)
        (JC := demo.saved_codec) demo.default_config 35.68%Q 139.69%Q imperial
        (demo.browser demo.offline (items (localStorage w1))
                      (demo.saved_at + demo.hours 2))
      = (Ok (served_from_cache demo.saved_snapshot), w3).
Proof.
  intros w.
  destruct (last_forecast_served_for_any_city (RT := demo.runtime) (IC := demo.icons)
              (HM := demo.hourly) (JC := demo.saved_codec)
              demo.default_config w 51.5%Q (-0.12)%Q metric 200%N "OK"
              demo.london_reply demo.london_daily)
    as (w1 & Hfirst & Hlater).
  - reflexivity.
  - now repeat split.
  - reflexivity.
  - lia.
  - reflexivity.
  - split; vm_compute; reflexivity.
  - vm_compute. reflexivity.
  - exists w1. split; [exact Hfirst|].
    assert (Hstore : localStorage w1
                     = MkMedium false false false (items (localStorage w1))).
    { assert (Hsnd : (getForecast (RT := demo.runtime) (IC := demo.icons)
                        (HM := demo.hourly) (JC := demo.saved_codec)
                        demo.default_config 51.5%Q (-0.12)%Q metric w).2 = w1)
        by now rewrite Hfirst.
      rewrite <- Hsnd. vm_compute. reflexivity. }
    apply (Hlater (demo.browser demo.offline (items (localStorage w1))
                                (demo.saved_at + demo.hours 2))
                  35.68%Q 139.69%Q imperial demo.failed_to_fetch).
    + reflexivity.
    + simpl. now rewrite <- Hstore.
    + vm_compute. reflexivity.
    + apply failed_rejected.
Defined.

(** A network error is retried once, after one second. *)
Lemma retry_always_waits_one_second_witness :
  page.retryDelay 0 = 1000%Z.
Proof.
  apply (retry_always_waits_one_second 0 demo.failed_to_fetch). reflexivity.
Defined.

(** London selected, the display switched to imperial, the network down:
    the current-weather query still asks for celsius and km/h. *)
Lemma unit_toggle_keeps_metric_queries_witness :
  let st := page.MkState (Some demo.london) metric None None in
  let w := demo.browser demo.offline ∅ 0 in
  page.units (page.handleUnitsChange st imperial) = imperial /\
  requests (page.current_queryFn (RT := demo.runtime) (IC := demo.icons)
              demo.default_config (page.handleUnitsChange st imperial) w).2
  = [current_url (RT := demo.runtime) 51.5%Q (-0.12)%Q metric].
Proof.
  intros st w.
  pose proof (unit_toggle_keeps_metric_queries (RT := demo.runtime) (IC := demo.icons)
                (HM := demo.hourly) (JC := demo.saved_codec)
                demo.default_config st imperial demo.london w eq_refl eq_refl eq_refl)
    as (Hunits & _ & _ & _ & _ & Hcurrent & _).
  split; [exact Hunits|exact Hcurrent].
Defined.
